(** * 3D Model Magic: the client-side generation, fallback and payment-gate flow

    A shallow embedding of the React front end in [src/index.js]
    ([validDimension], [sanitizeInput], [PLANS] and, inside [App], the
    auth-state callback, [fetchUserPlan], [getCsrfToken], [generateModel] and
    [payForModel]) together with the JavaScript built-ins these functions
    call, and the properties the specification states about them.

    Conventions of the embedding:
    - JavaScript numbers are IEEE 754 binary64 values, the primitive [float];
    - strings are sequences of 8-bit code units; only the ASCII white space
      characters are recognised by [trim];
    - the values held by form fields and call arguments are primitives
      ([Prim]); parsed JSON bodies and React state slots are [JsVal];
    - an async function is a computation over the machine state that either
      fulfils ([Ok]) or rejects ([Exn]);
    - a function declared inside [App] reads [user], [userPlan] and
      [modelUrl] from the render it was created in (its closure) and writes
      through the state setters. *)

From Stdlib Require Import ZArith List Bool Ascii String Lia.
From Stdlib Require Import Floats.
Import ListNotations.

Local Open Scope string_scope.
Local Open Scope bool_scope.

(* ================================================================== *)
(** * Strings *)

Module Str.

(** [String.prototype.startsWith]. *)
Definition startsWith (s p : string) : bool := String.prefix p s.

(** [String.prototype.includes]: [p] occurs in [s] as a substring. *)
Fixpoint includes (s p : string) : bool :=
  String.prefix p s ||
  match s with
  | EmptyString => false
  | String _ s' => includes s' p
  end.

(** White space and line terminators of the ASCII range: tab, line feed,
    vertical tab, form feed, carriage return and space.  Outside that range
    [String.prototype.trim] and [Number] strip further characters (U+00A0,
    U+FEFF, the Unicode space separators), which [isWhiteSpace] does not
    know; on ASCII text the two agree. *)
Definition isWhiteSpace (c : ascii) : bool :=
  let n := nat_of_ascii c in
  (n =? 9)%nat || (n =? 10)%nat || (n =? 11)%nat || (n =? 12)%nat ||
  (n =? 13)%nat || (n =? 32)%nat.

Fixpoint trimStart (s : string) : string :=
  match s with
  | EmptyString => EmptyString
  | String c s' => if isWhiteSpace c then trimStart s' else s
  end.

(** Drops the trailing white space: a character is kept when it is not
    white space or when something is kept after it. *)
Fixpoint trimEnd (s : string) : string :=
  match s with
  | EmptyString => EmptyString
  | String c s' =>
      match trimEnd s' with
      | EmptyString => if isWhiteSpace c then EmptyString else String c EmptyString
      | t => String c t
      end
  end.

(** [String.prototype.trim]. *)
Definition trim (s : string) : string := trimEnd (trimStart s).

(** [s.replace(/[...]/g, f)] for a character class [cls]: every character of
    the class is replaced by the string [f] returns for it. *)
Fixpoint replaceClass (cls : ascii -> bool) (f : ascii -> string) (s : string) : string :=
  match s with
  | EmptyString => EmptyString
  | String c s' =>
      (if cls c then f c else String c EmptyString) ++ replaceClass cls f s'
  end.

(** [c] occurs in [s]. *)
Fixpoint occurs (c : ascii) (s : string) : bool :=
  match s with
  | EmptyString => false
  | String d s' => Ascii.eqb d c || occurs c s'
  end.

End Str.

(* ================================================================== *)
(** * Numbers *)

Module Num.

(** The Number type: IEEE 754 binary64. *)
Definition number := float.

(** The double nearest to the literal [0.4]. *)
Definition lit_0_4 : number := 0x1.999999999999ap-2%float.

(** [Number.isFinite] on a number. *)
Definition isFinite (n : number) : bool := is_finite n.

(** Value of a digit in bases up to sixteen. *)
Definition digitValue (c : ascii) : option Z :=
  let n := Z.of_nat (nat_of_ascii c) in
  if (48 <=? n)%Z && (n <=? 57)%Z then Some (n - 48)%Z
  else if (97 <=? n)%Z && (n <=? 102)%Z then Some (n - 87)%Z
  else if (65 <=? n)%Z && (n <=? 70)%Z then Some (n - 55)%Z
  else None.

Definition isDigitOf (base : Z) (c : ascii) : bool :=
  match digitValue c with
  | Some d => (d <? base)%Z
  | None => false
  end.

(** The longest prefix of digits of the base, as a number, with the count of
    digits read and the rest of the string. *)
Fixpoint readDigits (base : Z) (acc : Z) (count : Z) (s : string) : Z * Z * string :=
  match s with
  | EmptyString => (acc, count, s)
  | String c s' =>
      if isDigitOf base c then
        match digitValue c with
        | Some d => readDigits base (acc * base + d)%Z (count + 1)%Z s'
        | None => (acc, count, s)
        end
      else (acc, count, s)
  end.

(** ExponentPart_opt followed by the end of the string. *)
Definition readExponent (s : string) : option Z :=
  match s with
  | EmptyString => Some 0%Z
  | String c s' =>
      if Ascii.eqb c "e" || Ascii.eqb c "E" then
        let '(sign, ds) :=
          match s' with
          | String "+" r => (1%Z, r)
          | String "-" r => ((-1)%Z, r)
          | _ => (1%Z, s')
          end in
        match readDigits 10 0 0 ds with
        | (e, n, EmptyString) => if (0 <? n)%Z then Some (sign * e)%Z else None
        | _ => None
        end
      else None
  end.

(** The double nearest to [m * 10 ^ e10] (ties to even), for [0 <= m]. *)
Definition roundDecimal (m e10 : Z) : spec_float :=
  match m with
  | Zpos p =>
      if (0 <=? e10)%Z
      then binary_normalize prec emax (m * 10 ^ e10)%Z 0%Z false
      else SFdiv prec emax (S754_finite false p 0)
                           (S754_finite false (Z.to_pos (10 ^ (- e10))) 0)
  | _ => S754_zero false
  end.

(** StrUnsignedDecimalLiteral. *)
Definition readUnsignedDecimal (s : string) : option spec_float :=
  if String.eqb s "Infinity" then Some (S754_infinity false)
  else
    let '(ip, ni, r1) := readDigits 10 0 0 s in
    let '(m, nf, r2) :=
      match r1 with
      | String "." r => readDigits 10 ip 0 r
      | _ => (ip, 0%Z, r1)
      end in
    if (ni + nf =? 0)%Z then None
    else match readExponent r2 with
         | Some e => Some (roundDecimal m (e - nf))
         | None => None
         end.

(** NonDecimalIntegerLiteral: [0x], [0o] and [0b] forms. *)
Definition readNonDecimal (s : string) : option spec_float :=
  match s with
  | String "0" (String c ds) =>
      let base :=
        if Ascii.eqb c "x" || Ascii.eqb c "X" then Some 16%Z
        else if Ascii.eqb c "o" || Ascii.eqb c "O" then Some 8%Z
        else if Ascii.eqb c "b" || Ascii.eqb c "B" then Some 2%Z
        else None in
      match base with
      | Some b =>
          match readDigits b 0 0 ds with
          | (v, n, EmptyString) =>
              if (0 <? n)%Z then Some (binary_normalize prec emax v 0%Z false) else None
          | _ => None
          end
      | None => None
      end
  | _ => None
  end.

(** StringToNumber: the value of a StringNumericLiteral, [NaN] when the
    string is not one. *)
Definition ofString (s : string) : number :=
  let t := Str.trim s in
  match t with
  | EmptyString => zero
  | String c r =>
      match readNonDecimal t with
      | Some v => SF2Prim v
      | None =>
          let '(neg, u) :=
            if Ascii.eqb c "-" then (true, r)
            else if Ascii.eqb c "+" then (false, r)
            else (false, t) in
          match readUnsignedDecimal u with
          | Some v => if neg then (- SF2Prim v)%float else SF2Prim v
          | None => nan
          end
      end
  end.

End Num.

(* ================================================================== *)
(** * [sanitizeInput] (src/index.js, 155-159) *)

(** The character class of the regular expression: ampersand, less-than,
    greater-than, double quote and single quote. *)
Definition isSpecial (c : ascii) : bool :=
  Ascii.eqb c "&" || Ascii.eqb c "<" || Ascii.eqb c ">" ||
  Ascii.eqb c (ascii_of_nat 34) || Ascii.eqb c "'".

(** The object literal the replacer indexes with the matched character;
    only the five characters of the class are ever looked up. *)
Definition entityOf (m : ascii) : string :=
  if Ascii.eqb m "&" then "&amp;"
  else if Ascii.eqb m "<" then "&lt;"
  else if Ascii.eqb m ">" then "&gt;"
  else if Ascii.eqb m (ascii_of_nat 34) then "&quot;"
  else if Ascii.eqb m "'" then "&#x27;"
  else String m EmptyString.

Definition sanitizeInput (input : string) : string :=
  Str.replaceClass isSpecial entityOf input.

(* ================================================================== *)
(** * Values *)

(** Primitive values: what form fields and call arguments hold. *)
Inductive Prim : Type :=
| PUndefined
| PNull
| PBool (b : bool)
| PNum (n : Num.number)
| PStr (s : string).

#[local] Set Warnings "-register-all".

(** Values in general: primitives, and the arrays and plain objects that
    [JSON.parse] builds.  An object is the list of its own properties. *)
Inductive JsVal : Type :=
| VPrim (p : Prim)
| VArr (items : list JsVal)
| VObj (fields : list (string * JsVal)).

Coercion PStr : string >-> Prim.
Coercion VPrim : Prim >-> JsVal.

Notation "'undefined'" := PUndefined.
Notation "'null'" := PNull.

(** ToBoolean. *)
Definition truthy (p : Prim) : bool :=
  match p with
  | PUndefined | PNull => false
  | PBool b => b
  | PNum n => negb (is_zero n || is_nan n)
  | PStr s => negb (String.eqb s "")
  end.

Definition ToBoolean (v : JsVal) : bool :=
  match v with
  | VPrim p => truthy p
  | VArr _ | VObj _ => true
  end.

(** ToNumber on a primitive, which is what [Number(v)] returns. *)
Definition Number (p : Prim) : Num.number :=
  match p with
  | PUndefined => nan
  | PNull => zero
  | PBool b => if b then one else zero
  | PNum n => n
  | PStr s => Num.ofString s
  end.

(** [x < y] on primitives: code-unit order when both are strings, the
    order of numbers otherwise ([false] when either side is [NaN]). *)
Definition lessThan (x y : Prim) : bool :=
  match x, y with
  | PStr s, PStr t => String.ltb s t
  | _, _ => (Number x <? Number y)%float
  end.

(** [x > y] is [y < x]. *)
Definition greaterThan (x y : Prim) : bool := lessThan y x.

(** [a || b]. *)
Definition orElse (a b : JsVal) : JsVal := if ToBoolean a then a else b.

(** [x !== s] for a string literal [s]. *)
Definition strictNe (x : JsVal) (s : string) : bool :=
  match x with
  | VPrim (PStr t) => negb (String.eqb t s)
  | _ => true
  end.

(** Property lookup in the list of own properties. *)
Fixpoint assoc (k : string) (fields : list (string * JsVal)) : JsVal :=
  match fields with
  | [] => undefined
  | (k', v) :: rest => if String.eqb k k' then v else assoc k rest
  end.

(** [v?.k]: [undefined] on [null] and [undefined]; primitives and arrays
    have none of the properties read here. *)
Definition optGet (v : JsVal) (k : string) : JsVal :=
  match v with
  | VObj fields => assoc k fields
  | _ => undefined
  end.

(** A destructuring default: [x = d] in a parameter pattern. *)
Definition defaultTo (d x : Prim) : Prim :=
  match x with
  | PUndefined => d
  | _ => x
  end.

(* ================================================================== *)
(** * The machine: React state, observable effects, the network *)

(** The identity kept in the [user] slot. *)
Record User : Type := { email : Prim; uid : string }.

(** The state slots of [App]. *)
Record AppState : Type := {
  user : option User;
  userPlan : JsVal;
  modelUrl : JsVal;
  error : JsVal;
  isLoading : bool;
  showSignUp : bool;
  showSignIn : bool;
  showStripeModal : bool
}.

(** What [useState] initialises. *)
Definition initialState : AppState :=
  {| user := None; userPlan := "free"; modelUrl := null; error := "";
     isLoading := false; showSignUp := false; showSignIn := false;
     showStripeModal := false |}.

(** A request handed to [fetch]; the body is the value given to
    [JSON.stringify]. *)
Record Request : Type := {
  url : JsVal;
  method : string;
  headers : list (string * JsVal);
  body : option JsVal
}.

(** A response: its [ok] flag and what [resp.json()] resolves to, [None]
    when the body does not parse. *)
Record Response : Type := { ok : bool; json : option JsVal }.

Inductive FetchOutcome : Type :=
| NetworkFailure
| Responds (resp : Response).

Inductive ToastKind : Type := ToastError | ToastInfo | ToastSuccess.

(** What a rejected promise carries. *)
Inductive Exn : Type :=
| TypeError (message : string)
| NetworkError
| SyntaxError.

(** Effects a run leaves behind, besides the state. *)
Inductive Event : Type :=
| Toast (kind : ToastKind) (message : JsVal)
| Track (category action : string) (label : JsVal)
| ConsoleError (message : string) (err : Exn)
| Fetch (req : Request)
| Navigate (href : JsVal).

(** The surroundings: the [window.__BACKEND_URL__] global and the network,
    which answers a request given the requests sent before it (newest
    first). *)
Record Env : Type := {
  backendUrl : JsVal;
  network : list Request -> Request -> FetchOutcome
}.

(** State and log; the log is kept newest first. *)
Record Machine : Type := { state : AppState; log : list Event }.

Fixpoint requests (evs : list Event) : list Request :=
  match evs with
  | [] => []
  | Fetch r :: rest => r :: requests rest
  | _ :: rest => requests rest
  end.

(** How an async function settles. *)
Inductive Res (A : Type) : Type :=
| Ok (a : A) (m : Machine)
| Err (e : Exn) (m : Machine).

Arguments Ok {A} a m.
Arguments Err {A} e m.

Definition machineOf {A} (r : Res A) : Machine :=
  match r with
  | Ok _ m => m
  | Err _ m => m
  end.

Definition M (A : Type) : Type := Machine -> Res A.

Definition ret {A} (a : A) : M A := fun m => Ok a m.

Definition bind {A B} (c : M A) (k : A -> M B) : M B :=
  fun m =>
    match c m with
    | Ok a m' => k a m'
    | Err e m' => Err e m'
    end.

Definition throw {A} (e : Exn) : M A := fun m => Err e m.

(** [try { c } catch (err) { h err }]. *)
Definition tryCatch {A} (c : M A) (h : Exn -> M A) : M A :=
  fun m =>
    match c m with
    | Ok a m' => Ok a m'
    | Err e m' => h e m'
    end.

(** [try { c } finally { f }]: [f] runs either way. *)
Definition tryFinally {A} (c : M A) (f : M unit) : M A :=
  fun m =>
    match c m with
    | Ok a m' =>
        match f m' with
        | Ok _ m'' => Ok a m''
        | Err e m'' => Err e m''
        end
    | Err e m' =>
        match f m' with
        | Ok _ m'' => Err e m''
        | Err e' m'' => Err e' m''
        end
    end.

Declare Scope js_scope.
Delimit Scope js_scope with js.
Notation "x <- c ;; k" := (bind c (fun x => k))
  (at level 61, c at next level, right associativity) : js_scope.
Notation "c ;; k" := (bind c (fun _ => k))
  (at level 61, right associativity) : js_scope.
Local Open Scope js_scope.

(** ** State setters and effects *)

(** A setter writes its slot; what React renders from the new state is not
    part of the machine.  The page renders [error] (537) and [userPlan]
    (276) as text, which React does for primitive values only: a run that
    stores an object or an array in one of them is followed here up to the
    write. *)

Definition modify (f : AppState -> AppState) : M unit :=
  fun m => Ok tt {| state := f (state m); log := log m |}.

Definition emit (e : Event) : M unit :=
  fun m => Ok tt {| state := state m; log := e :: log m |}.

Definition setUser (v : option User) : M unit :=
  modify (fun s =>
    {| user := v; userPlan := userPlan s; modelUrl := modelUrl s;
       error := error s; isLoading := isLoading s; showSignUp := showSignUp s;
       showSignIn := showSignIn s; showStripeModal := showStripeModal s |}).

Definition setUserPlan (v : JsVal) : M unit :=
  modify (fun s =>
    {| user := user s; userPlan := v; modelUrl := modelUrl s;
       error := error s; isLoading := isLoading s; showSignUp := showSignUp s;
       showSignIn := showSignIn s; showStripeModal := showStripeModal s |}).

Definition setModelUrl (v : JsVal) : M unit :=
  modify (fun s =>
    {| user := user s; userPlan := userPlan s; modelUrl := v;
       error := error s; isLoading := isLoading s; showSignUp := showSignUp s;
       showSignIn := showSignIn s; showStripeModal := showStripeModal s |}).

Definition setError (v : JsVal) : M unit :=
  modify (fun s =>
    {| user := user s; userPlan := userPlan s; modelUrl := modelUrl s;
       error := v; isLoading := isLoading s; showSignUp := showSignUp s;
       showSignIn := showSignIn s; showStripeModal := showStripeModal s |}).

Definition setIsLoading (v : bool) : M unit :=
  modify (fun s =>
    {| user := user s; userPlan := userPlan s; modelUrl := modelUrl s;
       error := error s; isLoading := v; showSignUp := showSignUp s;
       showSignIn := showSignIn s; showStripeModal := showStripeModal s |}).

Definition setShowSignIn (v : bool) : M unit :=
  modify (fun s =>
    {| user := user s; userPlan := userPlan s; modelUrl := modelUrl s;
       error := error s; isLoading := isLoading s; showSignUp := showSignUp s;
       showSignIn := v; showStripeModal := showStripeModal s |}).

Definition setShowStripeModal (v : bool) : M unit :=
  modify (fun s =>
    {| user := user s; userPlan := userPlan s; modelUrl := modelUrl s;
       error := error s; isLoading := isLoading s; showSignUp := showSignUp s;
       showSignIn := showSignIn s; showStripeModal := v |}).

Definition toast_error (msg : JsVal) : M unit := emit (Toast ToastError msg).
Definition toast_info (msg : JsVal) : M unit := emit (Toast ToastInfo msg).
Definition toast_success (msg : JsVal) : M unit := emit (Toast ToastSuccess msg).
Definition console_error (msg : string) (err : Exn) : M unit :=
  emit (ConsoleError msg err).

(** [trackEvent] (src/index.js, 139-141); [window.gtag] is assumed to be
    there, as the source comment says. *)
Definition trackEvent (category action : string) (label : JsVal) : M unit :=
  emit (Track category action label).

(** [window.location.href = href]. *)
Definition navigate (href : JsVal) : M unit := emit (Navigate href).

(** [fetch]: the request is sent, then the network either fails (the promise
    rejects) or answers. *)
Definition fetch (env : Env) (req : Request) : M Response :=
  fun m =>
    let m' := {| state := state m; log := Fetch req :: log m |} in
    match network env (requests (log m)) req with
    | NetworkFailure => Err NetworkError m'
    | Responds resp => Ok resp m'
    end.

(** [resp.json()]. *)
Definition resp_json (resp : Response) : M JsVal :=
  match json resp with
  | Some v => ret v
  | None => throw SyntaxError
  end.

(** [v.k]: a [TypeError] on [null] and [undefined]. *)
Definition getProp (v : JsVal) (k : string) : M JsVal :=
  match v with
  | VPrim PUndefined | VPrim PNull =>
      throw (TypeError "Cannot read properties of null or undefined")
  | _ => ret (optGet v k)
  end.

(** The receiver of a string method call: anything but a string has no such
    method (or no properties at all), and the call throws. *)
Definition stringReceiver (p : Prim) : M string :=
  match p with
  | PStr s => ret s
  | PUndefined | PNull =>
      throw (TypeError "Cannot read properties of null or undefined")
  | _ => throw (TypeError "not a function")
  end.

(* ================================================================== *)
(** * Module-level helpers and tables of src/index.js *)

(** [validDimension] (146-150). *)
Definition validDimension (v : Prim) : bool :=
  if negb (truthy v) then false
  else
    let n := Number v in
    Num.isFinite n && (0 <? n)%float.

(** An entry of [PLANS] (198-229). *)
Record Plan : Type := {
  id : string;
  title : string;
  desc : string;
  priceLabel : string;
  priceId : Prim;
  color : string;
  cta : string;
  disabled : bool
}.

Definition PLANS : list Plan :=
  [ {| id := "free"; title := "Free";
       desc := "1 model/month, basic preview, no downloads.";
       priceLabel := "Free"; priceId := null; color := "bg-gray-700";
       cta := "Get Started"; disabled := false |};
    {| id := "basic"; title := "Basic";
       desc := "10 models/month, STL/GLB downloads, standard generation speed.";
       priceLabel := "$9 / month"; priceId := "price_1N9Z8x1234567890";
       color := "bg-yellow-500"; cta := "Subscribe"; disabled := false |};
    {| id := "pro"; title := "Pro";
       desc := "Unlimited models, priority generation, advanced parametric options.";
       priceLabel := "$29 / month"; priceId := "price_1N9Z8y1234567890";
       color := "bg-purple-600"; cta := "Subscribe"; disabled := false |} ].

(** The asset every fallback branch of [generateModel] substitutes. *)
Definition PLACEHOLDER_URL : string :=
  "https://modelviewer.dev/shared-assets/models/Astronaut.glb".

(** The price identifier [generateModel] passes for a download. *)
Definition ONE_TIME_PRICE : string := "price_1N9Z8z1234567890".

(* ================================================================== *)
(** * The functions of [App] (692-1005) *)

(** The object [generateModel] destructures.  A property the caller leaves
    out is [undefined]. *)
Record Args : Type := {
  prompt : Prim;
  width : Prim;
  height : Prim;
  depth : Prim;
  material : Prim;
  supports : Prim;
  infill : Prim;
  shellThickness : Prim;
  image : Prim;
  download : Prim
}.

Section App.

Variable env : Env.

(** The render a handler was created in: the values of [user], [userPlan]
    and [modelUrl] it closes over. *)
Variable render : AppState.

(** [getCsrfToken] (734-743). *)
Definition getCsrfToken : M JsVal :=
  tryCatch
    (resp <- fetch env {| url := "/.netlify/functions/get-csrf-token";
                          method := "GET"; headers := []; body := None |} ;;
     data <- resp_json resp ;;
     getProp data "token")
    (fun err =>
       console_error "CSRF token fetch failed:" err ;;
       ret (VPrim ""))%js.

(** [fetchUserPlan] (720-731). *)
Definition fetchUserPlan (uid : string) : M JsVal :=
  tryCatch
    (token <- getCsrfToken ;;
     resp <- fetch env {| url := "/.netlify/functions/get-user-plan?uid=" ++ uid;
                          method := "GET";
                          headers := [("X-CSRF-Token", token)];
                          body := None |} ;;
     data <- resp_json resp ;;
     getProp data "plan")
    (fun err =>
       console_error "Failed to fetch user plan:" err ;;
       ret (VPrim "free"))%js.

(** The callback given to [onAuthStateChanged] (705-715). *)
Definition onAuthStateChanged (u : option User) : M unit :=
  match u with
  | Some u =>
      setUser (Some {| email := email u; uid := uid u |}) ;;
      plan <- fetchUserPlan (uid u) ;;
      setUserPlan (orElse plan "free") ;;
      trackEvent "Auth" "SignIn" (email u)
  | None =>
      setUser None ;;
      setUserPlan "free"
  end.

(** The checkout dispatch of [payForModel] (856-885), for the string
    [priceId] and the signed-in user [u]. *)
Definition checkout (priceId : string) (u : User) : M unit :=
  setShowStripeModal true ;;
  tryCatch
    (token <- getCsrfToken ;;
     resp <- fetch env
       {| url := "/.netlify/functions/create-checkout-session";
          method := "POST";
          headers := [("Content-Type", VPrim "application/json");
                      ("X-CSRF-Token", token)];
          body := Some (VObj [("priceId", VPrim priceId);
                              ("modelUrl", orElse (modelUrl render) "subscription");
                              ("userId", VPrim (uid u))]) |} ;;
     data <- resp_json resp ;;
     href <- getProp data "url" ;;
     if ToBoolean href then
       navigate href ;;
       trackEvent "Payment" "CheckoutInitiated" priceId
     else
       setError "Failed to initiate checkout." ;;
       toast_error "Checkout initiation failed." ;;
       setShowStripeModal false)
    (fun err =>
       console_error "" err ;;
       setError "Checkout error. Please try again." ;;
       toast_error "Checkout error." ;;
       setShowStripeModal false).

(** [payForModel] (837-886). *)
Definition payForModel (priceId : Prim) : M unit :=
  setError "" ;;
  if negb (truthy priceId) then
    setError "This plan is included by default." ;;
    toast_info "Free plan active."
  else
    p <- stringReceiver priceId ;;
    if Str.startsWith p "price_" && negb (ToBoolean (modelUrl render))
       && negb (Str.includes p "sub") then
      setError "Generate a model first before purchasing." ;;
      toast_error "Generate a model first."
    else
      match user render with
      | None =>
          setError "Please sign in to subscribe or purchase." ;;
          toast_error "Sign in required." ;;
          setShowSignIn true
      | Some u => checkout p u
      end.

(** The payload of the generation request (776-786). *)
Definition payload (a : Args) (sanitizedPrompt : string) : JsVal :=
  VObj
    [ ("prompt", VPrim sanitizedPrompt);
      ("measurements",
        VObj [ ("width", VPrim (PNum (Number (width a))));
               ("height", VPrim (PNum (Number (height a))));
               ("depth", VPrim (PNum (Number (depth a)))) ]);
      ("material", VPrim (material a));
      ("supports", VPrim (supports a));
      ("infill", VPrim (PNum (Number (infill a))));
      ("shellThickness", VPrim (PNum (Number (shellThickness a))));
      ("image", VPrim (image a));
      ("userId",
        match user render with
        | Some u => orElse (VPrim (uid u)) null
        | None => VPrim null
        end);
      ("format",
        if truthy (defaultTo (PBool false) (download a)) then VPrim "stl"
        else VPrim "glb") ].

(** The request [generateModel] sends, given the anti-forgery token. *)
Definition generationRequest (a : Args) (sanitizedPrompt : string) (token : JsVal)
  : Request :=
  {| url := orElse (backendUrl env) "/.netlify/functions/generate";
     method := "POST";
     headers := [("Content-Type", VPrim "application/json");
                 ("X-CSRF-Token", token)];
     body := Some (payload a sanitizedPrompt) |}.

(** What [generateModel] does with the response (797-825). *)
Definition onResponse (a : Args) (sanitizedPrompt : string) (resp : Response)
  : M unit :=
  let download := truthy (defaultTo (PBool false) (download a)) in
  let label := orElse (VPrim sanitizedPrompt) "image-based" in
  if negb (ok resp) then
    setError "Failed to generate model. Using placeholder preview." ;;
    toast_error "Backend error. Showing placeholder." ;;
    setModelUrl PLACEHOLDER_URL ;;
    setIsLoading false
  else
    data <- resp_json resp ;;
    if ToBoolean (optGet data "error") then
      setError (optGet data "error") ;;
      toast_error (optGet data "error") ;;
      setIsLoading false
    else if ToBoolean (optGet data "modelUrl") then
      setModelUrl (optGet data "modelUrl") ;;
      toast_success (if download then "Model downloaded!" else "Model generated!") ;;
      trackEvent "Generator"
        (if download then "DownloadSuccess" else "GenerateSuccess") label ;;
      if download && strictNe (userPlan render) "pro" then
        payForModel ONE_TIME_PRICE
      else ret tt
    else
      setError "No model URL returned. Showing placeholder." ;;
      toast_error "No model URL. Showing placeholder." ;;
      setModelUrl PLACEHOLDER_URL.

(** The [catch] block of [generateModel] (826-830). *)
Definition onFailure (err : Exn) : M unit :=
  console_error "" err ;;
  setError "Network error. Using placeholder preview." ;;
  toast_error "Network error." ;;
  setModelUrl PLACEHOLDER_URL.

(** The dispatch of [generateModel] (770-833): what runs once the four
    checks have passed. *)
Definition dispatch (a : Args) (sanitizedPrompt : string) : M unit :=
  let label := orElse (VPrim sanitizedPrompt) "image-based" in
  setIsLoading true ;;
  setModelUrl null ;;
  trackEvent "Generator" "GenerateAttempt" label ;;
  tryFinally
    (tryCatch
       (token <- getCsrfToken ;;
        resp <- fetch env (generationRequest a sanitizedPrompt token) ;;
        onResponse a sanitizedPrompt resp)
       onFailure)
    (setIsLoading false).

(** [generateModel] (746-834). *)
Definition generateModel (a : Args) : M unit :=
  setError "" ;;
  p <- stringReceiver (prompt a) ;;
  let sanitizedPrompt := sanitizeInput (Str.trim p) in
  if negb (truthy sanitizedPrompt) && negb (truthy (image a)) then
    setError "Please provide a description or upload an image." ;;
    toast_error "Description or image required."
  else if negb (validDimension (width a)) || negb (validDimension (height a))
          || negb (validDimension (depth a)) then
    setError "Enter valid width, height, and depth in millimeters (numbers > 0)." ;;
    toast_error "Invalid dimensions."
  else if lessThan (infill a) (PNum 0%float) || greaterThan (infill a) (PNum 100%float) then
    setError "Infill must be between 0 and 100%." ;;
    toast_error "Invalid infill percentage."
  else if lessThan (shellThickness a) (PNum Num.lit_0_4) then
    setError "Shell thickness must be at least 0.4mm." ;;
    toast_error "Invalid shell thickness."
  else
    dispatch a sanitizedPrompt.

End App.

(** ** The call sites of [generateModel] *)

(** The form state of [GeneratorSection] (362-370). *)
Record Form : Type := {
  f_prompt : string;
  f_width : string;
  f_height : string;
  f_depth : string;
  f_material : string;
  f_supports : bool;
  f_infill : Num.number;
  f_shellThickness : Num.number;
  f_image : option string
}.

(** [handleGenerate] (372-384): the argument object of the Generate button. *)
Definition handleGenerate (f : Form) : Args :=
  {| prompt := f_prompt f; width := f_width f; height := f_height f;
     depth := f_depth f; material := f_material f;
     supports := PBool (f_supports f); infill := PNum (f_infill f);
     shellThickness := PNum (f_shellThickness f);
     image := match f_image f with Some d => PStr d | None => null end;
     download := undefined |}.

(** The download button (543): [generateModel({ download: true })]. *)
Definition downloadClick : Args :=
  {| prompt := undefined; width := undefined; height := undefined;
     depth := undefined; material := undefined; supports := undefined;
     infill := undefined; shellThickness := undefined; image := undefined;
     download := PBool true |}.

(** The gallery (971): [generateModel({ prompt: p })]. *)
Definition galleryClick (p : string) : Args :=
  {| prompt := p; width := undefined; height := undefined;
     depth := undefined; material := undefined; supports := undefined;
     infill := undefined; shellThickness := undefined; image := undefined;
     download := undefined |}.

(* ================================================================== *)
(** * [Math.max] and [Math.min] *)

Module JsMath.

Definition isNegZero (n : Num.number) : bool := is_zero n && get_sign n.
Definition isPosZero (n : Num.number) : bool := is_zero n && negb (get_sign n).

(** The loop of [Math.max] over the coerced arguments, none of them
    [NaN]: a number replaces the highest so far when it is greater, or when
    it is [+0] and the highest is [-0]. *)
Fixpoint maxFrom (highest : Num.number) (ns : list Num.number) : Num.number :=
  match ns with
  | [] => highest
  | n :: rest =>
      maxFrom (if (highest <? n)%float || (isPosZero n && isNegZero highest)
               then n else highest) rest
  end.

Fixpoint minFrom (lowest : Num.number) (ns : list Num.number) : Num.number :=
  match ns with
  | [] => lowest
  | n :: rest =>
      minFrom (if (n <? lowest)%float || (isNegZero n && isPosZero lowest)
               then n else lowest) rest
  end.

(** [Math.max(...args)]: [NaN] as soon as an argument converts to [NaN]. *)
Definition max (args : list Prim) : Num.number :=
  let coerced := map Number args in
  if existsb is_nan coerced then nan else maxFrom neg_infinity coerced.

(** [Math.min(...args)]. *)
Definition min (args : list Prim) : Num.number :=
  let coerced := map Number args in
  if existsb is_nan coerced then nan else minFrom infinity coerced.

End JsMath.

(* ================================================================== *)
(** * The controls of [GeneratorSection] (361-398, 410-518) *)

Module Controls.

(** The double nearest to the literal [1.2]. *)
Definition lit_1_2 : Num.number := 0x1.3333333333333p+0%float.

(** The form as [useState] initialises it (362-370). *)
Definition initialForm : Form :=
  {| f_prompt := ""; f_width := ""; f_height := ""; f_depth := "";
     f_material := "plastic"; f_supports := false; f_infill := 20%float;
     f_shellThickness := lit_1_2; f_image := None |}.

(** The value the infill box stores (480):
    [Math.max(0, Math.min(100, e.target.value))]. *)
Definition clampInfill (value : string) : Num.number :=
  JsMath.max [PNum 0%float; PNum (JsMath.min [PNum 100%float; PStr value])].

(** The value the shell thickness box stores (492):
    [Math.max(0.4, e.target.value)]. *)
Definition clampShell (value : string) : Num.number :=
  JsMath.max [PNum Num.lit_0_4; PStr value].

(** A file picked in the image input, with the data URL the [FileReader]
    yields for it. *)
Record File : Type := { size : Z; fileName : string; dataUrl : string }.

(** What the user does to the form. *)
Inductive Input : Type :=
| TypePrompt (value : string)
| TypeWidth (value : string)
| TypeHeight (value : string)
| TypeDepth (value : string)
| PickMaterial (value : string)
| TypeInfill (value : string)
| TypeShellThickness (value : string)
| ToggleSupports (checked : bool)
| PickFile (file : option File).

(** The limit of [handleImageUpload]: [5 * 1024 * 1024] bytes. *)
Definition MAX_IMAGE_BYTES : Z := 5 * 1024 * 1024.

(** The form after one input: the [onChange] handlers (414-502) and the
    state change of [handleImageUpload] (386-398). *)
Definition step (f : Form) (i : Input) : Form :=
  match i with
  | TypePrompt v =>
      {| f_prompt := v; f_width := f_width f; f_height := f_height f;
         f_depth := f_depth f; f_material := f_material f;
         f_supports := f_supports f; f_infill := f_infill f;
         f_shellThickness := f_shellThickness f; f_image := f_image f |}
  | TypeWidth v =>
      {| f_prompt := f_prompt f; f_width := v; f_height := f_height f;
         f_depth := f_depth f; f_material := f_material f;
         f_supports := f_supports f; f_infill := f_infill f;
         f_shellThickness := f_shellThickness f; f_image := f_image f |}
  | TypeHeight v =>
      {| f_prompt := f_prompt f; f_width := f_width f; f_height := v;
         f_depth := f_depth f; f_material := f_material f;
         f_supports := f_supports f; f_infill := f_infill f;
         f_shellThickness := f_shellThickness f; f_image := f_image f |}
  | TypeDepth v =>
      {| f_prompt := f_prompt f; f_width := f_width f; f_height := f_height f;
         f_depth := v; f_material := f_material f;
         f_supports := f_supports f; f_infill := f_infill f;
         f_shellThickness := f_shellThickness f; f_image := f_image f |}
  | PickMaterial v =>
      {| f_prompt := f_prompt f; f_width := f_width f; f_height := f_height f;
         f_depth := f_depth f; f_material := v;
         f_supports := f_supports f; f_infill := f_infill f;
         f_shellThickness := f_shellThickness f; f_image := f_image f |}
  | TypeInfill v =>
      {| f_prompt := f_prompt f; f_width := f_width f; f_height := f_height f;
         f_depth := f_depth f; f_material := f_material f;
         f_supports := f_supports f; f_infill := clampInfill v;
         f_shellThickness := f_shellThickness f; f_image := f_image f |}
  | TypeShellThickness v =>
      {| f_prompt := f_prompt f; f_width := f_width f; f_height := f_height f;
         f_depth := f_depth f; f_material := f_material f;
         f_supports := f_supports f; f_infill := f_infill f;
         f_shellThickness := clampShell v; f_image := f_image f |}
  | ToggleSupports b =>
      {| f_prompt := f_prompt f; f_width := f_width f; f_height := f_height f;
         f_depth := f_depth f; f_material := f_material f;
         f_supports := b; f_infill := f_infill f;
         f_shellThickness := f_shellThickness f; f_image := f_image f |}
  | PickFile None => f
  | PickFile (Some file) =>
      if (MAX_IMAGE_BYTES <? size file)%Z then f
      else
        {| f_prompt := f_prompt f; f_width := f_width f; f_height := f_height f;
           f_depth := f_depth f; f_material := f_material f;
           f_supports := f_supports f; f_infill := f_infill f;
           f_shellThickness := f_shellThickness f;
           f_image := Some (dataUrl file) |}
  end.

(** The form after a sequence of inputs, starting from the initial one. *)
Definition after (inputs : list Input) : Form :=
  fold_left step inputs initialForm.

End Controls.

(** The infill and the shell thickness of the form pass the third and the
    fourth check of [generateModel]. *)
Definition inRange (f : Form) : Prop :=
  (Number (PNum (f_infill f)) <? 0)%float
    || (100 <? Number (PNum (f_infill f)))%float = false /\
  (Number (PNum (f_shellThickness f)) <? Num.lit_0_4)%float = false.

(** ** Predicates on strings used below *)

(** The string holds one of the five characters [sanitizeInput] rewrites. *)
Fixpoint hasSpecial (s : string) : bool :=
  match s with
  | EmptyString => false
  | String c rest => isSpecial c || hasSpecial rest
  end.

(** Every character of the string is white space. *)
Fixpoint blank (s : string) : bool :=
  match s with
  | EmptyString => true
  | String c rest => Str.isWhiteSpace c && blank rest
  end.

(** The string is ASCII text: every character code is below 128.  On such
    a string the white space [Str.trim] strips is all the white space
    [String.prototype.trim] knows. *)
Fixpoint isAscii (s : string) : bool :=
  match s with
  | EmptyString => true
  | String c rest => (nat_of_ascii c <? 128)%nat && isAscii rest
  end.

(* ================================================================== *)
(** * The Express backend (src/index.js, 1-112) *)

Module Backend.

(** What a handler throws. *)
Inductive Failure : Type :=
| NotAnObject (message : string)
| UpstreamUnreachable
| BodyNotJson
| StripeRejected.

(** A response as [res] sends it. *)
Inductive Sent : Type :=
| SendJson (status : Z) (data : JsVal)
| SendText (status : Z) (text : string).

(** What a handler does, besides returning. *)
Inductive Effect : Type :=
| CallUpstream (req : Request)
| CreateSession (params : JsVal)
| LogError (label : string)
| Reply (r : Sent).

(** The collaborators: the environment variables read, the generation
    service behind [fetch], and [stripe.checkout.sessions.create], which
    resolves to a session or rejects ([None]). *)
Record World : Type := {
  SLOYD_API_KEY : option string;
  sloyd : Request -> FetchOutcome;
  createSession : JsVal -> option JsVal
}.

(** A handler: it leaves a trace (newest first) and returns or throws. *)
Definition H (A : Type) : Type := list Effect -> (Failure + A) * list Effect.

Definition retH {A} (a : A) : H A := fun t => (inr a, t).

Definition bindH {A B} (c : H A) (k : A -> H B) : H B :=
  fun t =>
    match c t with
    | (inr a, t') => k a t'
    | (inl e, t') => (inl e, t')
    end.

Definition throwH {A} (e : Failure) : H A := fun t => (inl e, t).

Definition tryCatchH {A} (c : H A) (h : Failure -> H A) : H A :=
  fun t =>
    match c t with
    | (inr a, t') => (inr a, t')
    | (inl e, t') => h e t'
    end.

Definition effect (e : Effect) : H unit := fun t => (inr tt, e :: t).

(** [res.status(s).json(data)]; [res.json(data)] is the case of 200. *)
Definition reply (s : Z) (data : JsVal) : H unit := effect (Reply (SendJson s data)).

(** [v.k], which throws on [null] and [undefined]; also the destructuring
    [const { k } = v]. *)
Definition prop (v : JsVal) (k : string) : H JsVal :=
  match v with
  | VPrim PUndefined | VPrim PNull =>
      throwH (NotAnObject "Cannot read properties of null or undefined")
  | _ => retH (optGet v k)
  end.

(** [fetch] of the backend. *)
Definition fetchUpstream (w : World) (req : Request) : H Response :=
  fun t =>
    match sloyd w req with
    | NetworkFailure => (inl UpstreamUnreachable, CallUpstream req :: t)
    | Responds resp => (inr resp, CallUpstream req :: t)
    end.

Definition jsonOf (resp : Response) : H JsVal :=
  match json resp with
  | Some v => retH v
  | None => throwH BodyNotJson
  end.

(** A template literal slot holding an environment variable or a header. *)
Definition interpolate (v : option string) : string :=
  match v with
  | Some s => s
  | None => "undefined"
  end.

(** The request to the generation service (35-42). *)
Definition sloydRequest (w : World) (prompt : JsVal) : Request :=
  {| url := "https://api.sloyd.ai/v1/generate";
     method := "POST";
     headers := [("Content-Type", VPrim "application/json");
                 ("Authorization",
                  VPrim (PStr ("Bearer " ++ interpolate (SLOYD_API_KEY w))))];
     body := Some (VObj [("prompt", prompt); ("output", VPrim "stl")]) |}.

(** The handler of [POST /generate] (28-60), given the parsed body.
    Reading the text of an error response (for the log) is taken to
    succeed. *)
Definition generate (w : World) (reqBody : JsVal) : H unit :=
  bindH (prop reqBody "prompt") (fun prompt =>
  if negb (ToBoolean prompt) then
    reply 400 (VObj [("error", VPrim "Prompt is required")])
  else
    tryCatchH
      (bindH (fetchUpstream w (sloydRequest w prompt)) (fun response =>
       if negb (ok response) then
         bindH (effect (LogError "Sloyd API error:")) (fun _ =>
         reply 500 (VObj [("error", VPrim "Failed to generate model from AI service")]))
       else
         bindH (jsonOf response) (fun data =>
         bindH (prop data "modelUrl") (fun modelUrl =>
         if negb (ToBoolean modelUrl) then
           reply 500 (VObj [("error", VPrim "AI service did not return a model URL")])
         else
           reply 200 (VObj [("modelUrl", modelUrl)])))))
      (fun err =>
         bindH (effect (LogError "Error calling Sloyd API:")) (fun _ =>
         reply 500 (VObj [("error", VPrim "Error generating model")])))).

(** [priceId.includes("sub")]: substring search on a string, membership in
    an array, a throw on anything else. *)
Definition includesSub (priceId : JsVal) : H bool :=
  match priceId with
  | VPrim (PStr s) => retH (Str.includes s "sub")
  | VArr items =>
      retH (existsb (fun v => match v with
                              | VPrim (PStr s) => String.eqb s "sub"
                              | _ => false
                              end) items)
  | _ => throwH (NotAnObject "priceId.includes is not a function")
  end.

(** The argument of [stripe.checkout.sessions.create] (71-78). *)
Definition sessionParams (origin : option string) (reqBody priceId : JsVal)
    (subscription : bool) : JsVal :=
  VObj
    [ ("payment_method_types", VArr [VPrim "card"]);
      ("line_items", VArr [VObj [("price", priceId);
                                 ("quantity", VPrim (PNum 1%float))]]);
      ("mode", if subscription then VPrim "subscription" else VPrim "payment");
      ("success_url",
        VPrim (PStr (interpolate origin
                       ++ "/success?session_id={CHECKOUT_SESSION_ID}")));
      ("cancel_url", VPrim (PStr (interpolate origin ++ "/cancel")));
      ("metadata",
        VObj [("modelId", orElse (optGet reqBody "modelId") "unknown")]) ].

(** The handler of [POST /create-checkout-session] (63-84), given the
    [origin] header and the parsed body. *)
Definition createCheckoutSession (w : World) (origin : option string)
    (reqBody : JsVal) : H unit :=
  bindH (prop reqBody "priceId") (fun priceId =>
  if negb (ToBoolean priceId) then
    reply 400 (VObj [("error", VPrim "Price ID is required")])
  else
    tryCatchH
      (bindH (includesSub priceId) (fun subscription =>
       let params := sessionParams origin reqBody priceId subscription in
       bindH (fun t =>
                match createSession w params with
                | Some session => (inr session, CreateSession params :: t)
                | None => (inl StripeRejected, CreateSession params :: t)
                end) (fun session =>
       bindH (prop session "url") (fun href =>
       reply 200 (VObj [("url", href)])))))
      (fun err =>
         bindH (effect (LogError "Stripe session creation error:")) (fun _ =>
         reply 500 (VObj [("error", VPrim "Failed to create checkout session")])))).

(** ** Observing a handler *)

Fixpoint replies (t : list Effect) : list Sent :=
  match t with
  | [] => []
  | Reply r :: rest => r :: replies rest
  | _ :: rest => replies rest
  end.

Fixpoint upstreamCalls (t : list Effect) : list Request :=
  match t with
  | [] => []
  | CallUpstream r :: rest => r :: upstreamCalls rest
  | _ :: rest => upstreamCalls rest
  end.

Fixpoint sessionsCreated (t : list Effect) : list JsVal :=
  match t with
  | [] => []
  | CreateSession p :: rest => p :: sessionsCreated rest
  | _ :: rest => sessionsCreated rest
  end.

(** The trace of a handler run from nothing. *)
Definition traceOf (h : H unit) : list Effect := snd (h []).

(** The model address the generation service yields: the truthy
    [modelUrl] of a body that parses, under a success status. *)
Definition modelOf (o : FetchOutcome) : option JsVal :=
  match o with
  | NetworkFailure => None
  | Responds resp =>
      if ok resp then
        match json resp with
        | Some data =>
            if ToBoolean (optGet data "modelUrl")
            then Some (optGet data "modelUrl") else None
        | None => None
        end
      else None
  end.

(** The answer to a checkout request that reached Stripe: the address of
    the session, or the failure message when Stripe rejected or yielded no
    session. *)
Definition sessionReply (w : World) (params : JsVal) : Sent :=
  match createSession w params with
  | Some (VPrim PUndefined) | Some (VPrim PNull) | None =>
      SendJson 500 (VObj [("error", VPrim "Failed to create checkout session")])
  | Some session => SendJson 200 (VObj [("url", optGet session "url")])
  end.

(** The response as the browser's [fetch] hands it over: [ok] for a status
    from 200 to 299, the JSON body when one was sent. *)
Definition received (r : Sent) : Response :=
  match r with
  | SendJson s data => {| ok := (200 <=? s)%Z && (s <=? 299)%Z; json := Some data |}
  | SendText s _ => {| ok := (200 <=? s)%Z && (s <=? 299)%Z; json := None |}
  end.

(** The body a request carries, as [express.json()] parses it.  The
    properties the handlers read from the requests of the front end
    ([prompt], [priceId]) are strings and come through the JSON text
    unchanged. *)
Definition parsed (req : Request) : JsVal :=
  match body req with
  | Some b => b
  | None => VObj []
  end.

(** A body [express.json()] hands over: an object or an array. *)
Definition isParsedBody (v : JsVal) : bool :=
  match v with
  | VPrim _ => false
  | _ => true
  end.

(** A network with this backend behind every address but the token
    one, which no route serves. *)
Definition serving (w : World) (handler : JsVal -> H unit) : Env :=
  {| backendUrl := VPrim PUndefined;
     network := fun _ req =>
       match url req with
       | VPrim (PStr "/.netlify/functions/get-csrf-token") => NetworkFailure
       | _ =>
           match replies (traceOf (handler (parsed req))) with
           | r :: _ => Responds (received r)
           | [] => NetworkFailure
           end
       end |}.

(** A generation service that answers every prompt with one address, and a
    Stripe that opens a session at one address. *)
Definition sampleWorld : World :=
  {| SLOYD_API_KEY := Some "sk-1";
     sloyd := fun _ =>
       Responds {| ok := true;
                   json := Some (VObj [("modelUrl", VPrim "https://cdn/m.stl")]) |};
     createSession := fun _ =>
       Some (VObj [("id", VPrim "cs_1"); ("url", VPrim "https://pay/cs_1")]) |}.

End Backend.

(* ================================================================== *)
(** * The specification's vocabulary *)

(** ** The input validator, in the words of the specification *)

Module Spec.

Inductive ValidationError : Type :=
| MissingInput
| InvalidDimension
| InvalidInfill
| InvalidShellThickness.

(** A field is absent: left out, [null], or an empty text box. *)
Definition absent (v : Prim) : bool :=
  match v with
  | PUndefined | PNull => true
  | PStr s => String.eqb s ""
  | _ => false
  end.

(** Absent, non-numeric, non-finite, or not greater than 0. *)
Definition badDimension (v : Prim) : bool :=
  absent v || is_nan (Number v) || is_infinity (Number v)
  || negb (0 <? Number v)%float.

(** Outside the interval from 0 to 100. *)
Definition outsidePercent (v : Prim) : bool :=
  (Number v <? 0)%float || (100 <? Number v)%float.

(** Less than 0.4. *)
Definition belowMinimumShell (v : Prim) : bool :=
  (Number v <? Num.lit_0_4)%float.

(** The sanitized prompt is empty and no reference image is present. *)
Definition nothingToGenerate (p : string) (img : Prim) : bool :=
  String.eqb (sanitizeInput (Str.trim p)) "" && negb (truthy img).

(** The four rules, in order, for the prompt text [p]. *)
Definition validator (a : Args) (p : string) : option ValidationError :=
  if nothingToGenerate p (image a) then Some MissingInput
  else if badDimension (width a) || badDimension (height a)
          || badDimension (depth a) then Some InvalidDimension
  else if outsidePercent (infill a) then Some InvalidInfill
  else if belowMinimumShell (shellThickness a) then Some InvalidShellThickness
  else None.

(** ** The payment gate *)

Inductive Decision : Type :=
| NoActionNeeded
| BlockedNeedsModel
| BlockedNeedsSignIn
| ProceedToCheckout.

(** The identifier is absent: [null] or the empty string. *)
Definition noIdentifier (priceId : option string) : bool :=
  match priceId with
  | None => true
  | Some p => String.eqb p ""
  end.

(** What the gate takes for a one-time purchase identifier. *)
Definition oneTime (p : string) : bool :=
  Str.startsWith p "price_" && negb (Str.includes p "sub").

Definition hasIdentity (u : option User) : bool :=
  match u with
  | Some _ => true
  | None => false
  end.

(** The decision table as the specification words it: the sign-in block
    is for a call where a result exists and no identity is present. *)
Definition gateAsWorded (priceId : option string) (result : JsVal)
    (identity : option User) : Decision :=
  match priceId with
  | None => NoActionNeeded
  | Some p =>
      if noIdentifier priceId then NoActionNeeded
      else if oneTime p && negb (ToBoolean result) then BlockedNeedsModel
      else if ToBoolean result && negb (hasIdentity identity) then BlockedNeedsSignIn
      else ProceedToCheckout
  end.

(** The decision table with the sign-in block for every call that passed
    the needs-model check with no identity present. *)
Definition gate (priceId : option string) (result : JsVal)
    (identity : option User) : Decision :=
  match priceId with
  | None => NoActionNeeded
  | Some p =>
      if noIdentifier priceId then NoActionNeeded
      else if oneTime p && negb (ToBoolean result) then BlockedNeedsModel
      else if negb (hasIdentity identity) then BlockedNeedsSignIn
      else ProceedToCheckout
  end.

End Spec.

(** ** Observing a run *)

(** The machine with the [error] slot replaced. *)
Definition withError (v : JsVal) (m : Machine) : Machine :=
  machineOf (setError v m).

(** The machine after a block: the message is in the [error] slot and one
    toast was shown; nothing else changed. *)
Definition blocked (msg : string) (kind : ToastKind) (notice : string)
    (m : Machine) : Machine :=
  {| state := state (withError msg m);
     log := Toast kind notice :: log m |}.

(** The message and the toast of each validation failure. *)
Definition message (k : Spec.ValidationError) : string :=
  match k with
  | Spec.MissingInput => "Please provide a description or upload an image."
  | Spec.InvalidDimension =>
      "Enter valid width, height, and depth in millimeters (numbers > 0)."
  | Spec.InvalidInfill => "Infill must be between 0 and 100%."
  | Spec.InvalidShellThickness => "Shell thickness must be at least 0.4mm."
  end.

Definition notice (k : Spec.ValidationError) : string :=
  match k with
  | Spec.MissingInput => "Description or image required."
  | Spec.InvalidDimension => "Invalid dimensions."
  | Spec.InvalidInfill => "Invalid infill percentage."
  | Spec.InvalidShellThickness => "Invalid shell thickness."
  end.

(** The machine a rejected call of [generateModel] leaves. *)
Definition rejection (k : Spec.ValidationError) (m : Machine) : Machine :=
  blocked (message k) ToastError (notice k) m.

(** The price identifier as [payForModel] receives it. *)
Definition ofPriceId (priceId : option string) : Prim :=
  match priceId with
  | Some p => PStr p
  | None => null
  end.

(** The request of [getCsrfToken]. *)
Definition csrfRequest : Request :=
  {| url := "/.netlify/functions/get-csrf-token"; method := "GET";
     headers := []; body := None |}.

(** The token [getCsrfToken] resolves to when [hist] are the requests sent
    so far (newest first). *)
Definition tokenFor (env : Env) (hist : list Request) : JsVal :=
  match network env hist csrfRequest with
  | NetworkFailure => ""
  | Responds resp =>
      match json resp with
      | None => ""
      | Some (VPrim PUndefined) | Some (VPrim PNull) => ""
      | Some data => optGet data "token"
      end
  end.

(** What the network does with the generation request of a call that starts
    when [hist] are the requests sent so far. *)
Definition generationOutcome (env : Env) (render : AppState) (a : Args)
    (sanitizedPrompt : string) (hist : list Request) : FetchOutcome :=
  network env (csrfRequest :: hist)
    (generationRequest env render a sanitizedPrompt (tokenFor env hist)).

(** The machine when the dispatch enters its [try] block: loading, no
    result, the attempt tracked. *)
Definition started (sanitizedPrompt : string) (m : Machine) : Machine :=
  {| state := state (machineOf (setModelUrl null (machineOf (setIsLoading true m))));
     log := Track "Generator" "GenerateAttempt"
              (orElse (VPrim sanitizedPrompt) "image-based") :: log m |}.

(** How a dispatch left the machine: the [error] slot, the generation
    result, and the loading flag cleared. *)
Definition settles (m' : Machine) (err result : JsVal) : Prop :=
  error (state m') = err /\
  modelUrl (state m') = result /\
  isLoading (state m') = false.

(** The request of the checkout dispatch, given the token. *)
Definition checkoutRequest (render : AppState) (p : string) (u : User)
    (token : JsVal) : Request :=
  {| url := "/.netlify/functions/create-checkout-session"; method := "POST";
     headers := [("Content-Type", VPrim "application/json");
                 ("X-CSRF-Token", token)];
     body := Some (VObj [("priceId", VPrim p);
                         ("modelUrl", orElse (modelUrl render) "subscription");
                         ("userId", VPrim (uid u))]) |}.

(** The machine after the sign-in block of [payForModel]. *)
Definition signInBlock (m : Machine) : Machine :=
  machineOf (setShowSignIn true
    (blocked "Please sign in to subscribe or purchase." ToastError
       "Sign in required." m)).

(** The request of [fetchUserPlan] and what the network does with it. *)
Definition planRequest (uid : string) (token : JsVal) : Request :=
  {| url := "/.netlify/functions/get-user-plan?uid=" ++ uid; method := "GET";
     headers := [("X-CSRF-Token", token)]; body := None |}.

Definition planOutcome (env : Env) (uid : string) (hist : list Request)
  : FetchOutcome :=
  network env (csrfRequest :: hist) (planRequest uid (tokenFor env hist)).

(** The plan [fetchUserPlan] resolves to when [hist] are the requests sent
    so far: the [plan] property of the body, and "free" when the exchange
    throws. *)
Definition planFor (env : Env) (uid : string) (hist : list Request) : JsVal :=
  match planOutcome env uid hist with
  | NetworkFailure => "free"
  | Responds resp =>
      match json resp with
      | None => "free"
      | Some (VPrim PUndefined) | Some (VPrim PNull) => "free"
      | Some data => optGet data "plan"
      end
  end.

(** The value a promise fulfils with, if it does. *)
Definition fulfilled {A} (r : Res A) : option A :=
  match r with
  | Ok a _ => Some a
  | Err _ _ => None
  end.

(** ** Properties of computations *)

(** The computation always fulfils. *)
Definition total {A} (c : M A) : Prop :=
  forall m, exists a m', c m = Ok a m'.

(** The computation relates the machine it starts in to the one it ends
    in, however it settles. *)
Definition keeps {A} (R : Machine -> Machine -> Prop) (c : M A) : Prop :=
  forall m, R m (machineOf (c m)).

(** The log only grows. *)
Definition logGrows (m m' : Machine) : Prop :=
  exists evs, log m' = (evs ++ log m)%list.

(** The generation result and the loading flag are as before. *)
Definition sameResult (m m' : Machine) : Prop :=
  modelUrl (state m') = modelUrl (state m) /\
  isLoading (state m') = isLoading (state m).

(** What the replacer of [sanitizeInput] yields for one character. *)
Definition escapeChar (c : ascii) : string :=
  if isSpecial c then entityOf c else String c EmptyString.

(** ** Sample surroundings and inputs *)

Module Sample.

(** A network that hands out the token "tok" and answers every other
    request with the given status and JSON body. *)
Definition answering (status : bool) (data : JsVal) : Env :=
  {| backendUrl := undefined;
     network := fun _ req =>
       match url req with
       | VPrim (PStr "/.netlify/functions/get-csrf-token") =>
           Responds {| ok := true; json := Some (VObj [("token", VPrim "tok")]) |}
       | _ => Responds {| ok := status; json := Some data |}
       end |}.

(** No network at all. *)
Definition offline : Env :=
  {| backendUrl := undefined; network := fun _ _ => NetworkFailure |}.

(** A freshly mounted [App]. *)
Definition fresh : Machine := {| state := initialState; log := [] |}.

Definition alice : User := {| email := "alice@example.com"; uid := "u-1" |}.

(** A render with a signed-in user and no generation result. *)
Definition signedIn : AppState :=
  {| user := Some alice; userPlan := "free"; modelUrl := null; error := "";
     isLoading := false; showSignUp := false; showSignIn := false;
     showStripeModal := false |}.

(** A filled-in form. *)
Definition vase : Form :=
  {| f_prompt := "a small vase"; f_width := "60"; f_height := "120.5";
     f_depth := "60"; f_material := "plastic"; f_supports := false;
     f_infill := 20%float; f_shellThickness := 1.5%float; f_image := None |}.

(** The same form with no description and a reference image. *)
Definition fromImage : Form :=
  {| f_prompt := "  "; f_width := "60"; f_height := "120.5";
     f_depth := "60"; f_material := "plastic"; f_supports := false;
     f_infill := 20%float; f_shellThickness := 1.5%float;
     f_image := Some "data:image/png;base64,iVBORw0KGgo=" |}.

(** A form with a depth that is not a number. *)
Definition noDepth : Form :=
  {| f_prompt := "a small vase"; f_width := "60"; f_height := "120.5";
     f_depth := "deep"; f_material := "plastic"; f_supports := false;
     f_infill := 20%float; f_shellThickness := 1.5%float; f_image := None |}.

(** Response bodies. *)
Definition bodyWithUrl : JsVal := VObj [("modelUrl", VPrim "https://x/y.glb")].
Definition bodyWithErrorAndUrl : JsVal :=
  VObj [("error", VPrim "quota exceeded"); ("modelUrl", VPrim "https://x/y.glb")].
Definition bodyWithEmptyUrl : JsVal := VObj [("modelUrl", VPrim "")].
Definition bodyWithError : JsVal := VObj [("error", VPrim "quota exceeded")].
Definition emptyBody : JsVal := VObj [].

End Sample.

(* ================================================================== *)
(** * The gallery (607-649, 971) *)

Module Gallery.

(** An entry of [EXAMPLE_MODELS] (164-193). *)
Record ExampleModel : Type := {
  id : nat;
  name : string;
  url : string;
  desc : string;
  tags : list string
}.

Definition EXAMPLE_MODELS : list ExampleModel :=
  [ {| id := 1; name := "Modular Drone Frame";
       url := "https://modelviewer.dev/shared-assets/models/Astronaut.glb";
       desc := "Lightweight, interlocking drone chassis with optimized aerodynamics for Bambu Lab printers.";
       tags := ["Drone"; "Functional"; "Bambu Lab"] |};
    {| id := 2; name := "Intricate Jewelry Stand";
       url := "https://modelviewer.dev/shared-assets/models/shader-ball.glb";
       desc := "Elegant, tree-like stand with fine details, perfect for high-resolution SLA printing.";
       tags := ["Art"; "Decorative"; "Bambu Lab"] |};
    {| id := 3; name := "Robotic Gripper";
       url := "https://modelviewer.dev/shared-assets/models/RobotExpressive.glb";
       desc := "Precision-engineered gripper with moving parts, designed for robotic assemblies.";
       tags := ["Robotics"; "Functional"; "Bambu Lab"] |};
    {| id := 4; name := "Architectural Facade";
       url := "https://modelviewer.dev/shared-assets/models/Astronaut.glb";
       desc := "Detailed building facade with parametric patterns, ideal for architectural models.";
       tags := ["Architecture"; "Parametric"; "Bambu Lab"] |} ].

(** A call that is not awaited: the caller goes on whether the promise
    fulfils or rejects. *)
Definition notAwaited (c : M unit) : M unit :=
  fun m => Ok tt (machineOf (c m)).

(** The click handler of Try This Model (633-638), with the [setPrompt]
    prop [App] passes (971): [generateModel({ prompt: p })], not awaited,
    then [setModelUrl(model.url)] and the tracking call.  The scroll to the
    generator section reads and writes nothing modelled here. *)
Definition tryThisModel (env : Env) (render : AppState) (model : ExampleModel)
  : M unit :=
  (notAwaited (generateModel env render (galleryClick (name model))) ;;
   setModelUrl (VPrim (PStr (url model))) ;;
   trackEvent "Gallery" "TryModel" (VPrim (PStr (name model))))%js.

End Gallery.

(** ** More observations *)

(** The pages the run navigated to, newest first. *)
Fixpoint navigations (evs : list Event) : list JsVal :=
  match evs with
  | [] => []
  | Navigate href :: rest => href :: navigations rest
  | _ :: rest => navigations rest
  end.

(** What the network does with the checkout request of a call that starts
    when [hist] are the requests sent so far. *)
Definition checkoutOutcome (env : Env) (render : AppState) (p : string)
    (u : User) (hist : list Request) : FetchOutcome :=
  network env (csrfRequest :: hist)
    (checkoutRequest render p u (tokenFor env hist)).

(** The redirect address an exchange yields: the truthy [url] of a body
    that parses, whatever the status. *)
Definition redirectOf (o : FetchOutcome) : option JsVal :=
  match o with
  | NetworkFailure => None
  | Responds resp =>
      match json resp with
      | None => None
      | Some data =>
          if ToBoolean (optGet data "url") then Some (optGet data "url")
          else None
      end
  end.

(** The value is a text: a string that is not empty.  This is what the
    page can display for a message ([{error}], 537) and load for an asset
    address ([src={modelUrl}], 567). *)
Definition isText (v : JsVal) : bool :=
  match v with
  | VPrim (PStr s) => negb (String.eqb s "")
  | _ => false
  end.

(** The value is falsy or a text. *)
Definition textOrNothing (v : JsVal) : bool :=
  negb (ToBoolean v) || isText v.

(** The outcome of the generation request gives the page only texts to
    display: when the response has a success status and its body parses,
    the [error] and the [modelUrl] of the body are each falsy or a text.  A
    network failure, an error status and a body that does not parse have
    nothing of theirs displayed. *)
Definition plainReply (o : FetchOutcome) : bool :=
  match o with
  | NetworkFailure => true
  | Responds resp =>
      if ok resp then
        match json resp with
        | None => true
        | Some data =>
            textOrNothing (optGet data "error")
            && textOrNothing (optGet data "modelUrl")
        end
      else true
  end.

(** The run left something to look at: an asset address as the generation
    result, or an error text with the result empty. *)
Definition showsSomething (m : Machine) : Prop :=
  isText (modelUrl (state m)) = true \/
  (modelUrl (state m) = VPrim null /\ isText (error (state m)) = true).

(** A slot of the state is as before. *)
Definition agree {T} (slot : AppState -> T) (m m' : Machine) : Prop :=
  slot (state m') = slot (state m).

(* ================================================================== *)
(** * Properties *)

(** ** Running computations *)

Section MonadFacts.

Context {A B : Type}.

Lemma bind_Ok (c : M A) (k : A -> M B) m a m' :
  c m = Ok a m' -> bind c k m = k a m'.
Proof. unfold bind. now intros ->. Qed.

Lemma bind_Err (c : M A) (k : A -> M B) m e m' :
  c m = Err e m' -> bind c k m = Err e m'.
Proof. unfold bind. now intros ->. Qed.

Lemma total_ret (a : A) : total (ret a).
Proof. intros m. now exists a, m. Qed.

Lemma total_bind (c : M A) (k : A -> M B) :
  total c -> (forall a, total (k a)) -> total (bind c k).
Proof.
  intros Hc Hk m. destruct (Hc m) as (a & m' & E).
  rewrite (bind_Ok _ _ _ _ _ E). apply Hk.
Qed.

(** A handler that always fulfils makes the whole [try] fulfil. *)
Lemma total_tryCatch (c : M A) (h : Exn -> M A) :
  (forall e, total (h e)) -> total (tryCatch c h).
Proof.
  intros Hh m. unfold tryCatch. destruct (c m) as [a m'|e m'].
  - now exists a, m'.
  - apply Hh.
Qed.

Lemma total_tryFinally (c : M A) (f : M unit) :
  total c -> total f -> total (tryFinally c f).
Proof.
  intros Hc Hf m. unfold tryFinally.
  destruct (Hc m) as (a & m' & ->). destruct (Hf m') as (u & m'' & ->).
  now exists a, m''.
Qed.

Lemma total_if (b : bool) (c1 c2 : M A) :
  total c1 -> total c2 -> total (if b then c1 else c2).
Proof. now destruct b. Qed.

End MonadFacts.

Lemma total_modify f : total (modify f).
Proof. intros m. unfold modify. eauto. Qed.

Lemma total_emit e : total (emit e).
Proof. intros m. unfold emit. eauto. Qed.

Section KeepsFacts.

Variable R : Machine -> Machine -> Prop.
Hypothesis R_refl : forall m, R m m.
Hypothesis R_trans : forall m1 m2 m3, R m1 m2 -> R m2 m3 -> R m1 m3.

Context {A B : Type}.

Lemma keeps_ret (a : A) : keeps R (ret a).
Proof. intros m. apply R_refl. Qed.

Lemma keeps_throw (e : Exn) : keeps R (@throw A e).
Proof. intros m. apply R_refl. Qed.

Lemma keeps_bind (c : M A) (k : A -> M B) :
  keeps R c -> (forall a, keeps R (k a)) -> keeps R (bind c k).
Proof.
  intros Hc Hk m. specialize (Hc m). unfold bind.
  destruct (c m) as [a m'|e m']; simpl in *; [|exact Hc].
  exact (R_trans _ _ _ Hc (Hk a m')).
Qed.

Lemma keeps_tryCatch (c : M A) (h : Exn -> M A) :
  keeps R c -> (forall e, keeps R (h e)) -> keeps R (tryCatch c h).
Proof.
  intros Hc Hh m. specialize (Hc m). unfold tryCatch.
  destruct (c m) as [a m'|e m']; simpl in *; [exact Hc|].
  exact (R_trans _ _ _ Hc (Hh e m')).
Qed.

Lemma keeps_tryFinally (c : M A) (f : M unit) :
  keeps R c -> keeps R f -> keeps R (tryFinally c f).
Proof.
  intros Hc Hf m. specialize (Hc m). unfold tryFinally.
  destruct (c m) as [a m'|e m']; simpl in *;
    specialize (Hf m'); destruct (f m') as [u m''|e' m'']; simpl in *;
    exact (R_trans _ _ _ Hc Hf).
Qed.

Lemma keeps_if (b : bool) (c1 c2 : M A) :
  keeps R c1 -> keeps R c2 -> keeps R (if b then c1 else c2).
Proof. now destruct b. Qed.

End KeepsFacts.

Lemma logGrows_refl m : logGrows m m.
Proof. now exists []. Qed.

Lemma logGrows_trans m1 m2 m3 : logGrows m1 m2 -> logGrows m2 m3 -> logGrows m1 m3.
Proof.
  intros [e1 H1] [e2 H2]. exists (e2 ++ e1)%list. now rewrite H2, H1, app_assoc.
Qed.

Lemma sameResult_refl m : sameResult m m.
Proof. now split. Qed.

Lemma sameResult_trans m1 m2 m3 :
  sameResult m1 m2 -> sameResult m2 m3 -> sameResult m1 m3.
Proof. intros [H1 H2] [H3 H4]. split; congruence. Qed.

(** Steps through a computation built from the monad operations, given the
    reflexivity and transitivity of the relation and a tactic for the
    primitive steps. *)
Ltac keeps_with Hrefl Htrans leaf :=
  repeat first
    [ assumption
    | leaf
    | apply (keeps_bind _ Htrans); [|intros ?]
    | apply (keeps_tryCatch _ Htrans); [|intros ?]
    | apply (keeps_tryFinally _ Htrans)
    | apply (keeps_ret _ Hrefl)
    | apply (keeps_throw _ Hrefl)
    | apply keeps_if
    | match goal with
      | |- keeps _ (match ?x with _ => _ end) => destruct x
      end ].

Ltac total_tac :=
  repeat first
    [ assumption
    | apply total_bind; [|intros ?]
    | apply total_tryCatch; intros ?
    | apply total_tryFinally
    | apply total_ret
    | apply total_modify
    | apply total_emit
    | apply total_if
    | match goal with
      | |- total (match ?x with _ => _ end) => destruct x
      end ].

Lemma logGrows_modify f : keeps logGrows (modify f).
Proof. intros m. now exists []. Qed.

Lemma logGrows_emit e : keeps logGrows (emit e).
Proof. intros m. now exists [e]. Qed.

Lemma logGrows_fetch env r : keeps logGrows (fetch env r).
Proof.
  intros m. unfold fetch. exists [Fetch r].
  now destruct (network env (requests (log m)) r).
Qed.

Lemma sameResult_emit e : keeps sameResult (emit e).
Proof. intros m. now split. Qed.

Lemma sameResult_fetch env r : keeps sameResult (fetch env r).
Proof.
  intros m. unfold fetch.
  now destruct (network env (requests (log m)) r).
Qed.

Lemma sameResult_setError v : keeps sameResult (setError v).
Proof. intros m. now split. Qed.

Lemma sameResult_setUser v : keeps sameResult (setUser v).
Proof. intros m. now split. Qed.

Lemma sameResult_setUserPlan v : keeps sameResult (setUserPlan v).
Proof. intros m. now split. Qed.

Lemma sameResult_setShowSignIn v : keeps sameResult (setShowSignIn v).
Proof. intros m. now split. Qed.

Lemma sameResult_setShowStripeModal v : keeps sameResult (setShowStripeModal v).
Proof. intros m. now split. Qed.

Lemma keeps_resp_json R (Hrefl : forall m, R m m) resp : keeps R (resp_json resp).
Proof. unfold resp_json. destruct (json resp); intros m; apply Hrefl. Qed.

Lemma keeps_getProp R (Hrefl : forall m, R m m) v k : keeps R (getProp v k).
Proof.
  unfold getProp. destruct v as [[| | | |]| |]; intros m; apply Hrefl.
Qed.

Lemma keeps_stringReceiver R (Hrefl : forall m, R m m) p :
  keeps R (stringReceiver p).
Proof. unfold stringReceiver. destruct p; intros m; apply Hrefl. Qed.

Ltac grows :=
  keeps_with logGrows_refl logGrows_trans
    ltac:(first [ apply logGrows_modify | apply logGrows_emit
                | apply logGrows_fetch
                | apply (keeps_resp_json _ logGrows_refl)
                | apply (keeps_getProp _ logGrows_refl)
                | apply (keeps_stringReceiver _ logGrows_refl) ]).

Ltac same :=
  keeps_with sameResult_refl sameResult_trans
    ltac:(first [ apply sameResult_emit | apply sameResult_fetch
                | apply sameResult_setError | apply sameResult_setUser
                | apply sameResult_setUserPlan | apply sameResult_setShowSignIn
                | apply sameResult_setShowStripeModal
                | apply (keeps_resp_json _ sameResult_refl)
                | apply (keeps_getProp _ sameResult_refl)
                | apply (keeps_stringReceiver _ sameResult_refl) ]).

Section Runs.

Variable env : Env.
Variable render : AppState.

(** [getCsrfToken] never rejects: it sends its one request and resolves
    to [tokenFor]. *)
Lemma getCsrfToken_run m :
  exists evs,
    getCsrfToken env m =
      Ok (tokenFor env (requests (log m)))
         {| state := state m; log := (evs ++ Fetch csrfRequest :: log m)%list |}
    /\ requests evs = [].
Proof.
  unfold getCsrfToken, tryCatch, bind, fetch, tokenFor. fold csrfRequest.
  destruct (network env (requests (log m)) csrfRequest) as [|resp]; simpl.
  - now exists [ConsoleError "CSRF token fetch failed:" NetworkError].
  - unfold resp_json. destruct (json resp) as [data|]; simpl.
    + destruct data as [[| | | |]| |]; simpl;
        first [ now exists []
              | now exists [ConsoleError "CSRF token fetch failed:"
                    (TypeError "Cannot read properties of null or undefined")] ].
    + now exists [ConsoleError "CSRF token fetch failed:" SyntaxError].
Qed.

Lemma total_getCsrfToken : total (getCsrfToken env).
Proof. intros m. destruct (getCsrfToken_run m) as (evs & E & _). eauto. Qed.

Lemma logGrows_getCsrfToken : keeps logGrows (getCsrfToken env).
Proof. unfold getCsrfToken. grows. Qed.

Lemma sameResult_getCsrfToken : keeps sameResult (getCsrfToken env).
Proof. unfold getCsrfToken. same. Qed.

Lemma requests_app (l1 l2 : list Event) :
  requests (l1 ++ l2) = (requests l1 ++ requests l2)%list.
Proof.
  induction l1 as [|e l1 IH]; [reflexivity|].
  destruct e; simpl; now rewrite ?IH.
Qed.

(** *** [payForModel] *)

Lemma total_checkout p u : total (checkout env render p u).
Proof.
  unfold checkout. total_tac.
Qed.

Lemma logGrows_checkout p u : keeps logGrows (checkout env render p u).
Proof.
  pose proof logGrows_getCsrfToken. unfold checkout. grows.
Qed.

Lemma sameResult_checkout p u : keeps sameResult (checkout env render p u).
Proof.
  pose proof sameResult_getCsrfToken. unfold checkout. same.
Qed.

(** The checkout dispatch sends the token request and then the checkout
    request, and nothing else. *)
Lemma checkout_requests p u m :
  requests (log (machineOf (checkout env render p u m))) =
    checkoutRequest render p u (tokenFor env (requests (log m)))
      :: csrfRequest :: requests (log m).
Proof.
  unfold checkout, bind at 1. unfold setShowStripeModal, modify at 1.
  unfold tryCatch, bind at 1.
  match goal with
  | |- context [getCsrfToken env ?m1] =>
      destruct (getCsrfToken_run m1) as (evs & E & Hevs); rewrite E
  end.
  cbn [state log]. fold (checkoutRequest render p u (tokenFor env (requests (log m)))).
  unfold bind at 1, fetch. cbn [state log].
  rewrite requests_app, Hevs. cbn [app requests].
  destruct (network env _ _) as [|resp]; cbn.
  - now rewrite requests_app, Hevs.
  - unfold bind at 1, resp_json.
    destruct (json resp) as [data|]; cbn; [|now rewrite requests_app, Hevs].
    unfold bind at 1, getProp.
    destruct data as [[| | | |]| |]; cbn; try (now rewrite requests_app, Hevs).
    all: match goal with
         | |- context [if ?b then _ else _] => destruct b
         end; cbn; now rewrite requests_app, Hevs.
Qed.

Lemma total_payForModel (p : string) : total (payForModel env render p).
Proof.
  pose proof (total_checkout p). unfold payForModel. cbn [truthy stringReceiver].
  total_tac.
Qed.

Lemma logGrows_payForModel priceId : keeps logGrows (payForModel env render priceId).
Proof.
  pose proof logGrows_checkout. unfold payForModel. grows.
Qed.

Lemma sameResult_payForModel priceId :
  keeps sameResult (payForModel env render priceId).
Proof.
  pose proof sameResult_checkout. unfold payForModel. same.
Qed.

(** The run of [payForModel] on an optional string identifier, by the
    decision of the gate. *)
Lemma payForModel_gate (priceId : option string) m :
  match Spec.gate priceId (modelUrl render) (user render) with
  | Spec.NoActionNeeded =>
      payForModel env render (ofPriceId priceId) m =
        Ok tt (blocked "This plan is included by default." ToastInfo
                 "Free plan active." m)
  | Spec.BlockedNeedsModel =>
      payForModel env render (ofPriceId priceId) m =
        Ok tt (blocked "Generate a model first before purchasing." ToastError
                 "Generate a model first." m)
  | Spec.BlockedNeedsSignIn =>
      payForModel env render (ofPriceId priceId) m = Ok tt (signInBlock m)
  | Spec.ProceedToCheckout =>
      exists p u,
        priceId = Some p /\ user render = Some u /\
        payForModel env render (ofPriceId priceId) m =
          checkout env render p u (withError "" m)
  end.
Proof.
  unfold Spec.gate, payForModel.
  destruct priceId as [p|]; [|reflexivity].
  cbn [Spec.noIdentifier ofPriceId truthy].
  destruct (String.eqb p ""); [reflexivity|].
  cbn [negb]. unfold Spec.oneTime.
  unfold bind at 1. cbn. unfold bind at 1. cbn.
  destruct (Str.startsWith p "price_"), (ToBoolean (modelUrl render)),
    (Str.includes p "sub"); cbn; try reflexivity;
    destruct (user render) as [u|]; cbn; try reflexivity; eauto.
Qed.

End Runs.

(** ** The dispatch of [generateModel] *)

Section Dispatch.

Variable env : Env.
Variable render : AppState.

Lemma total_onFailure err : total (onFailure err).
Proof. unfold onFailure. total_tac. Qed.

(** The dispatch never rejects: the [catch] block handles every throw. *)
Lemma total_dispatch a sp : total (dispatch env render a sp).
Proof.
  unfold dispatch. total_tac.
Qed.

Lemma logGrows_dispatch_body a sp :
  keeps logGrows
    (tryFinally
       (tryCatch
          (bind (getCsrfToken env)
             (fun token =>
                bind (fetch env (generationRequest env render a sp token))
                  (onResponse env render a sp)))
          onFailure)
       (setIsLoading false)).
Proof.
  pose proof (logGrows_getCsrfToken env).
  pose proof (logGrows_payForModel env render).
  unfold onResponse, onFailure. grows.
Qed.

(** The first thing a dispatch leaves in the log is the tracked attempt. *)
Lemma dispatch_log a sp m :
  exists evs,
    log (machineOf (dispatch env render a sp m)) =
      (evs ++ log (started sp m))%list.
Proof.
  unfold dispatch.
  unfold bind at 1. unfold setIsLoading at 1, modify at 1.
  unfold bind at 1. unfold setModelUrl at 1, modify at 1.
  unfold bind at 1. unfold trackEvent at 1, emit at 1.
  cbn [state log].
  match goal with
  | |- context [tryFinally ?c ?f ?m1] =>
      destruct (logGrows_dispatch_body a sp m1) as [evs Hevs]
  end.
  exists evs. exact Hevs.
Qed.

(** Up to the generation request: the token is fetched, then the request
    is handed to [fetch]. *)
Lemma dispatch_prefix a sp m :
  exists evs,
    requests evs = [] /\
    dispatch env render a sp m =
      tryFinally
        (tryCatch
           (bind (fetch env (generationRequest env render a sp
                               (tokenFor env (requests (log m)))))
                 (onResponse env render a sp))
           onFailure)
        (setIsLoading false)
        {| state := state (started sp m);
           log := (evs ++ Fetch csrfRequest :: log (started sp m))%list |}.
Proof.
  unfold dispatch.
  unfold bind at 1. unfold setIsLoading at 1, modify at 1.
  unfold bind at 1. unfold setModelUrl at 1, modify at 1.
  unfold bind at 1. unfold trackEvent at 1, emit at 1.
  cbn [state log].
  unfold tryFinally at 1, tryCatch at 1. unfold bind at 1.
  match goal with
  | |- context [getCsrfToken env ?m1] =>
      destruct (getCsrfToken_run env m1) as (evs & E & Hevs); rewrite E
  end.
  exists evs. split; [exact Hevs|]. reflexivity.
Qed.

Ltac to_generation_request a sp m H :=
  destruct (dispatch_prefix a sp m) as (evs & Hevs & ->);
  unfold tryFinally, tryCatch; unfold bind at 1; unfold fetch;
  cbn [state log]; rewrite requests_app, Hevs;
  cbn [app requests started log];
  unfold generationOutcome in H; rewrite H.

Ltac settled Hevs :=
  eexists; split; [reflexivity|];
  cbn; rewrite ?requests_app, ?Hevs; repeat split; reflexivity.

(** Transport failure: the [catch] block substitutes the placeholder. *)
Lemma dispatch_network_failure a sp m :
  generationOutcome env render a sp (requests (log m)) = NetworkFailure ->
  exists m',
    dispatch env render a sp m = Ok tt m' /\
    settles m' "Network error. Using placeholder preview." PLACEHOLDER_URL /\
    requests (log m') =
      generationRequest env render a sp (tokenFor env (requests (log m)))
        :: csrfRequest :: requests (log m).
Proof.
  intros H. to_generation_request a sp m H. settled Hevs.
Qed.

(** A response whose status is not a success. *)
Lemma dispatch_not_ok a sp m resp :
  generationOutcome env render a sp (requests (log m)) = Responds resp ->
  ok resp = false ->
  exists m',
    dispatch env render a sp m = Ok tt m' /\
    settles m' "Failed to generate model. Using placeholder preview."
      PLACEHOLDER_URL /\
    requests (log m') =
      generationRequest env render a sp (tokenFor env (requests (log m)))
        :: csrfRequest :: requests (log m).
Proof.
  intros H Hok. to_generation_request a sp m H.
  unfold onResponse. rewrite Hok. settled Hevs.
Qed.

(** A success status with a body that does not parse: [resp.json()]
    rejects inside the [try]. *)
Lemma dispatch_unparsable a sp m resp :
  generationOutcome env render a sp (requests (log m)) = Responds resp ->
  ok resp = true -> json resp = None ->
  exists m',
    dispatch env render a sp m = Ok tt m' /\
    settles m' "Network error. Using placeholder preview." PLACEHOLDER_URL /\
    requests (log m') =
      generationRequest env render a sp (tokenFor env (requests (log m)))
        :: csrfRequest :: requests (log m).
Proof.
  intros H Hok Hjson. to_generation_request a sp m H.
  unfold onResponse, resp_json. rewrite Hok, Hjson. settled Hevs.
Qed.

(** A success status with a body that carries a truthy [error]: the error
    is shown and the result stays empty. *)
Lemma dispatch_error_body a sp m resp data :
  generationOutcome env render a sp (requests (log m)) = Responds resp ->
  ok resp = true -> json resp = Some data ->
  ToBoolean (optGet data "error") = true ->
  exists m',
    dispatch env render a sp m = Ok tt m' /\
    settles m' (optGet data "error") null /\
    requests (log m') =
      generationRequest env render a sp (tokenFor env (requests (log m)))
        :: csrfRequest :: requests (log m).
Proof.
  intros H Hok Hjson Herr. to_generation_request a sp m H.
  unfold onResponse, resp_json. rewrite Hok, Hjson.
  cbn [negb]. unfold bind at 1, ret. rewrite Herr. settled Hevs.
Qed.

(** A success status with a body that carries neither a truthy [error] nor
    a truthy [modelUrl]. *)
Lemma dispatch_no_model_url a sp m resp data :
  generationOutcome env render a sp (requests (log m)) = Responds resp ->
  ok resp = true -> json resp = Some data ->
  ToBoolean (optGet data "error") = false ->
  ToBoolean (optGet data "modelUrl") = false ->
  exists m',
    dispatch env render a sp m = Ok tt m' /\
    settles m' "No model URL returned. Showing placeholder." PLACEHOLDER_URL /\
    requests (log m') =
      generationRequest env render a sp (tokenFor env (requests (log m)))
        :: csrfRequest :: requests (log m).
Proof.
  intros H Hok Hjson Herr Hurl. to_generation_request a sp m H.
  unfold onResponse, resp_json. rewrite Hok, Hjson.
  cbn [negb]. unfold bind at 1, ret. rewrite Herr, Hurl. settled Hevs.
Qed.

(** A success status with a body that carries a truthy [modelUrl] and no
    truthy [error]: the result is that value. *)
Lemma dispatch_model_url a sp m resp data :
  generationOutcome env render a sp (requests (log m)) = Responds resp ->
  ok resp = true -> json resp = Some data ->
  ToBoolean (optGet data "error") = false ->
  ToBoolean (optGet data "modelUrl") = true ->
  exists m',
    dispatch env render a sp m = Ok tt m' /\
    modelUrl (state m') = optGet data "modelUrl" /\
    isLoading (state m') = false /\
    In (Toast ToastSuccess
          (if truthy (defaultTo (PBool false) (download a))
           then "Model downloaded!" else "Model generated!")) (log m').
Proof.
  intros H Hok Hjson Herr Hurl. to_generation_request a sp m H.
  unfold onResponse, resp_json. rewrite Hok, Hjson.
  cbn [negb]. unfold bind at 1, ret. rewrite Herr, Hurl.
  unfold bind at 1. unfold setModelUrl at 1, modify at 1.
  unfold bind at 1. unfold toast_success at 1, emit at 1.
  unfold bind at 1. unfold trackEvent at 1, emit at 1.
  cbn [state log].
  match goal with
  | |- context [if ?b then payForModel _ _ _ else _] => destruct b
  end.
  - match goal with
    | |- context [payForModel env render ?p ?m1] =>
        destruct (total_payForModel env render ONE_TIME_PRICE m1) as ([] & m2 & E);
        pose proof (sameResult_payForModel env render ONE_TIME_PRICE m1) as [S1 S2];
        pose proof (logGrows_payForModel env render ONE_TIME_PRICE m1) as [evs2 L];
        rewrite E in *
    end.
    cbn in S1, S2, L. eexists; split; [reflexivity|].
    cbn. repeat split; [exact S1|].
    rewrite L. apply in_or_app. right. cbn. auto.
  - eexists; split; [reflexivity|]. cbn. repeat split. auto.
Qed.

End Dispatch.

(** ** The checks of [generateModel] *)

(** A zero is not greater than zero (either sign). *)
Lemma is_zero_not_positive (n : float) :
  is_zero n = true -> (0 <? n)%float = false.
Proof.
  unfold is_zero. rewrite FloatAxioms.eqb_spec, FloatAxioms.ltb_spec.
  destruct (Prim2SF n) as [s|s| |s mant e]; cbn; try discriminate;
    try reflexivity.
  all: destruct s; discriminate.
Qed.

(** The truthiness test of [validDimension] rejects nothing the numeric
    test would accept: the function is the negation of the specification's
    bad dimension. *)
Lemma validDimension_spec (v : Prim) :
  validDimension v = negb (Spec.badDimension v).
Proof.
  unfold validDimension, Spec.badDimension, Num.isFinite, is_finite.
  destruct v as [| |b|n|s]; try reflexivity.
  - now destruct b.
  - cbn [truthy Number Spec.absent orb].
    destruct (is_nan n) eqn:Hnan.
    + now rewrite orb_true_r.
    + rewrite orb_false_r. destruct (is_zero n) eqn:Hz; cbn [negb].
      * rewrite (is_zero_not_positive n Hz). cbn. now rewrite orb_true_r.
      * cbn. now rewrite negb_orb, negb_involutive.
  - cbn [truthy Number Spec.absent].
    destruct (String.eqb s ""); [reflexivity|].
    cbn [negb orb]. now rewrite !negb_orb, negb_involutive.
Qed.

Lemma lessThan_number (x : Prim) (k : float) :
  lessThan x (PNum k) = (Number x <? k)%float.
Proof. now destruct x. Qed.

Lemma greaterThan_number (x : Prim) (k : float) :
  greaterThan x (PNum k) = (k <? Number x)%float.
Proof. now destruct x. Qed.

(** The comparisons of the infill and shell checks are [false] on [NaN]:
    a value that is not a number passes both. *)
Example not_a_number_passes_the_range_checks :
  Spec.outsidePercent undefined = false /\
  Spec.outsidePercent (PNum nan) = false /\
  Spec.belowMinimumShell undefined = false.
Proof. repeat split. Qed.

(** [Number] on strings, on a few literals. *)
Example Number_of_strings :
  Number " 12.50 " = 12.5%float /\
  Number "1e3" = 1000%float /\
  Number "-.5" = (-0.5)%float /\
  Number "0x1F" = 31%float /\
  Number "0.4" = Num.lit_0_4 /\
  Number "" = 0%float /\
  is_nan (Number "12mm") = true /\
  is_infinity (Number "-Infinity") = true /\
  Number "1e-400" = 0%float /\
  is_infinity (Number "1e400") = true.
Proof. repeat split. Qed.

Example validDimension_on_strings :
  validDimension "120.5" = true /\
  validDimension "" = false /\
  validDimension "0" = false /\
  validDimension "-3" = false /\
  validDimension "wide" = false /\
  validDimension "Infinity" = false /\
  validDimension undefined = false.
Proof. repeat split. Qed.

Lemma notice_inj k k' : notice k = notice k' -> k = k'.
Proof. destruct k, k'; intros H; try reflexivity; discriminate H. Qed.

Lemma rejection_inj k k' m : rejection k m = rejection k' m -> k = k'.
Proof.
  unfold rejection, blocked. intros H.
  apply notice_inj. congruence.
Qed.

Section Validation.

Variable env : Env.
Variable render : AppState.

(** With a string for a prompt, [generateModel] is the specification's
    validator followed by the dispatch. *)
Lemma generateModel_cases a p m :
  prompt a = PStr p ->
  generateModel env render a m =
    match Spec.validator a p with
    | Some k => Ok tt (rejection k m)
    | None => dispatch env render a (sanitizeInput (Str.trim p)) (withError "" m)
    end.
Proof.
  intros Hp. unfold generateModel, Spec.validator, Spec.nothingToGenerate.
  rewrite Hp. unfold bind at 1. cbn [setError modify stringReceiver].
  unfold bind at 1. cbn [ret truthy].
  rewrite !validDimension_spec, !negb_involutive.
  rewrite lessThan_number, greaterThan_number, lessThan_number.
  fold (Spec.outsidePercent (infill a)).
  fold (Spec.belowMinimumShell (shellThickness a)).
  destruct (String.eqb (sanitizeInput (Str.trim p)) ""); cbn [negb andb].
  - destruct (truthy (image a)); cbn [negb]; [|reflexivity].
    destruct (Spec.badDimension (width a) || Spec.badDimension (height a)
              || Spec.badDimension (depth a)); [reflexivity|].
    destruct (Spec.outsidePercent (infill a)); [reflexivity|].
    destruct (Spec.belowMinimumShell (shellThickness a)); reflexivity.
  - destruct (Spec.badDimension (width a) || Spec.badDimension (height a)
              || Spec.badDimension (depth a)); [reflexivity|].
    destruct (Spec.outsidePercent (infill a)); [reflexivity|].
    destruct (Spec.belowMinimumShell (shellThickness a)); reflexivity.
Qed.

(** A dispatch is never mistaken for a rejection: its log holds the tracked
    attempt where a rejection holds a toast. *)
Lemma dispatch_not_rejection a sp k m :
  dispatch env render a sp (withError "" m) <> Ok tt (rejection k m).
Proof.
  intros H.
  destruct (dispatch_log env render a sp (withError "" m)) as [evs L].
  rewrite H in L. cbn in L.
  assert (Hlen : List.length (Toast ToastError (notice k) :: log m) =
                 List.length (evs ++ Track "Generator" "GenerateAttempt"
                                       (orElse sp "image-based") :: log m)%list)
    by now rewrite <- L.
  rewrite length_app in Hlen. cbn in Hlen.
  destruct evs as [|e evs]; [discriminate L|].
  cbn in Hlen. lia.
Qed.

End Validation.

(** ** The plan lookup *)

Lemma app_cons_middle {A} (l : list A) (x : A) (r : list A) :
  (l ++ x :: r = (l ++ [x]) ++ r)%list.
Proof. now rewrite <- app_assoc. Qed.

Section PlanLookup.

Variable env : Env.

(** [fetchUserPlan] never rejects and resolves to [planFor]; the state is
    left as it was. *)
Lemma fetchUserPlan_run uid m :
  exists evs,
    fetchUserPlan env uid m =
      Ok (planFor env uid (requests (log m)))
         {| state := state m; log := (evs ++ log m)%list |}.
Proof.
  unfold fetchUserPlan, tryCatch. unfold bind at 1.
  destruct (getCsrfToken_run env m) as (evs & E & Hevs). rewrite E.
  fold (planRequest uid (tokenFor env (requests (log m)))).
  unfold bind at 1, fetch. cbn [state log].
  rewrite requests_app, Hevs. cbn [app requests].
  unfold planFor, planOutcome.
  rewrite app_cons_middle.
  destruct (network env _ _) as [|resp]; cbn.
  - rewrite !app_comm_cons. eauto.
  - unfold bind at 1, resp_json. destruct (json resp) as [data|]; cbn.
    + destruct data as [[| | | |]| |]; cbn; rewrite ?app_comm_cons; eauto.
    + rewrite !app_comm_cons. eauto.
Qed.

End PlanLookup.

(** ** Strings and [sanitizeInput] *)

Example trim_both_ends : Str.trim "  a vase  " = "a vase".
Proof. reflexivity. Qed.

Example includes_finds_substrings :
  Str.includes "price_sub_1" "sub" = true /\
  Str.includes "price_1N9Z8z1234567890" "sub" = false /\
  Str.startsWith "price_1N9Z8z1234567890" "price_" = true.
Proof. repeat split. Qed.

Example sanitizeInput_on_markup :
  sanitizeInput "<b>Tom & Jerry's</b>" =
    "&lt;b&gt;Tom &amp; Jerry&#x27;s&lt;/b&gt;".
Proof. reflexivity. Qed.

Section SanitizeFacts.

Lemma occurs_app (c : ascii) (s t : string) :
  Str.occurs c (s ++ t) = Str.occurs c s || Str.occurs c t.
Proof.
  induction s as [|d s IH]; simpl; [reflexivity|].
  now rewrite IH, orb_assoc.
Qed.

Lemma length_app (s t : string) :
  String.length (s ++ t) = String.length s + String.length t.
Proof. induction s as [|d s IH]; simpl; [reflexivity | now rewrite IH]. Qed.

Lemma sanitizeInput_cons (c : ascii) (s : string) :
  sanitizeInput (String c s) = escapeChar c ++ sanitizeInput s.
Proof. reflexivity. Qed.

(** The replacement goes character by character. *)
Lemma sanitizeInput_app (s t : string) :
  sanitizeInput (s ++ t) = sanitizeInput s ++ sanitizeInput t.
Proof.
  induction s as [|c s IH]; [reflexivity|].
  cbn [append]. rewrite !sanitizeInput_cons, IH.
  generalize (escapeChar c). intros e.
  induction e as [|d e IHe]; [reflexivity|]. cbn. now rewrite IHe.
Qed.

(** The five cases of the character class, and the complement. *)
Lemma isSpecial_cases (c : ascii) :
  (isSpecial c = true /\
   (c = "&" \/ c = "<" \/ c = ">" \/ c = ascii_of_nat 34 \/ c = "'")%char) \/
  (isSpecial c = false /\
   c <> "&" /\ c <> "<" /\ c <> ">" /\ c <> ascii_of_nat 34 /\ c <> "'")%char.
Proof.
  unfold isSpecial.
  destruct (Ascii.eqb_spec c "&"); [left; simpl; auto|].
  destruct (Ascii.eqb_spec c "<"); [left; simpl; auto|].
  destruct (Ascii.eqb_spec c ">"); [left; simpl; auto|].
  destruct (Ascii.eqb_spec c (ascii_of_nat 34)); [left; simpl; auto 6|].
  destruct (Ascii.eqb_spec c "'"); [left; simpl; auto 6|].
  right; simpl; auto 6.
Qed.

Lemma escapeChar_clean (c d : ascii) :
  (d = "<" \/ d = ">" \/ d = ascii_of_nat 34 \/ d = "'")%char ->
  Str.occurs d (escapeChar c) = false.
Proof.
  intros Hd. unfold escapeChar.
  destruct (isSpecial_cases c) as [[E Hc]|[E Hc]]; rewrite E.
  - destruct Hc as [->|[->|[->|[->| ->]]]];
      destruct Hd as [->|[->|[->| ->]]]; reflexivity.
  - simpl. rewrite orb_false_r. apply Ascii.eqb_neq.
    destruct Hc as (_ & H1 & H2 & H3 & H4).
    destruct Hd as [->|[->|[->| ->]]]; assumption.
Qed.

Lemma sanitizeInput_clean (d : ascii) (s : string) :
  (d = "<" \/ d = ">" \/ d = ascii_of_nat 34 \/ d = "'")%char ->
  Str.occurs d (sanitizeInput s) = false.
Proof.
  intros Hd. induction s as [|c s IH]; [reflexivity|].
  rewrite sanitizeInput_cons, occurs_app, IH, orb_false_r.
  now apply escapeChar_clean.
Qed.

Lemma escapeChar_length (c : ascii) : 1 <= String.length (escapeChar c).
Proof.
  unfold escapeChar.
  destruct (isSpecial_cases c) as [[E Hc]|[E Hc]]; rewrite E; [|simpl; lia].
  destruct Hc as [->|[->|[->|[->| ->]]]]; simpl; lia.
Qed.

Lemma sanitizeInput_length (s : string) :
  String.length s <= String.length (sanitizeInput s).
Proof.
  induction s as [|c s IH]; [simpl; lia|].
  rewrite sanitizeInput_cons, length_app. simpl.
  pose proof (escapeChar_length c). lia.
Qed.

(** An ampersand in the input makes the output strictly longer, and the
    output still holds an ampersand. *)
Lemma sanitizeInput_amp (s : string) :
  Str.occurs "&" s = true ->
  String.length s < String.length (sanitizeInput s) /\
  Str.occurs "&" (sanitizeInput s) = true.
Proof.
  induction s as [|c s IH]; simpl Str.occurs; [discriminate|].
  intros H. rewrite sanitizeInput_cons, length_app, occurs_app.
  pose proof (sanitizeInput_length s) as Hl.
  destruct (Ascii.eqb_spec c "&") as [->|Hne].
  - split; [simpl; lia | reflexivity].
  - simpl in H. destruct (IH H) as [IH1 IH2]. rewrite IH2, orb_true_r.
    split; [|reflexivity].
    pose proof (escapeChar_length c). simpl. lia.
Qed.

End SanitizeFacts.


(* ================================================================== *)
(** * The input validator *)

(** C1. With the raw form inputs given (the prompt is the text of the
    description box), [generateModel] applies the four rules in the order
    MissingInput, InvalidDimension, InvalidInfill, InvalidShellThickness: it
    rejects with the first rule that fires and with no other, and it goes on
    to the dispatch exactly when none fires.  In particular an empty prompt
    with an image present and valid numeric fields is accepted. *)
Theorem validator_rules_in_order env render (a : Args) (p : string) (m : Machine) :
  prompt a = PStr p ->
  let run := generateModel env render a m in
  let accepted :=
    run = dispatch env render a (sanitizeInput (Str.trim p)) (withError "" m) in
  let r1 := Spec.nothingToGenerate p (image a) in
  let r2 := Spec.badDimension (width a) || Spec.badDimension (height a)
            || Spec.badDimension (depth a) in
  let r3 := Spec.outsidePercent (infill a) in
  let r4 := Spec.belowMinimumShell (shellThickness a) in
  (run = Ok tt (rejection Spec.MissingInput m) <-> r1 = true) /\
  (run = Ok tt (rejection Spec.InvalidDimension m) <->
     r1 = false /\ r2 = true) /\
  (run = Ok tt (rejection Spec.InvalidInfill m) <->
     r1 = false /\ r2 = false /\ r3 = true) /\
  (run = Ok tt (rejection Spec.InvalidShellThickness m) <->
     r1 = false /\ r2 = false /\ r3 = false /\ r4 = true) /\
  (accepted <-> r1 = false /\ r2 = false /\ r3 = false /\ r4 = false) /\
  (sanitizeInput (Str.trim p) = "" -> truthy (image a) = true ->
   r2 = false -> r3 = false -> r4 = false -> accepted).
Proof.
  intros Hp run accepted r1 r2 r3 r4.
  assert (Hrun := generateModel_cases env render a p m Hp).
  fold run in Hrun. unfold Spec.validator in Hrun.
  fold r1 r2 r3 r4 in Hrun.
  assert (Hno : forall k,
    dispatch env render a (sanitizeInput (Str.trim p)) (withError "" m)
      <> Ok tt (rejection k m)) by (intros k; apply dispatch_not_rejection).
  assert (Hinj : forall k k', Ok tt (rejection k m) = Ok tt (rejection k' m) ->
                              k = k').
  { intros k k' H. apply (rejection_inj k k' m). congruence. }
  assert (Hlast : sanitizeInput (Str.trim p) = "" -> truthy (image a) = true ->
                  r1 = false).
  { intros E T. unfold r1, Spec.nothingToGenerate. rewrite E, T. reflexivity. }
  unfold accepted.
  destruct r1, r2, r3, r4; rewrite Hrun;
    repeat split; intros;
    repeat match goal with
    | H : _ /\ _ |- _ => destruct H
    | H : true = false |- _ => discriminate H
    | H : false = true |- _ => discriminate H
    | H : Ok tt (rejection _ m) = Ok tt (rejection _ m) |- _ =>
        apply Hinj in H; discriminate H
    | H : dispatch _ _ _ _ _ = Ok tt (rejection _ m) |- _ =>
        apply Hno in H; destruct H
    | H : Ok tt (rejection _ m) = dispatch _ _ _ _ _ |- _ =>
        symmetry in H; apply Hno in H; destruct H
    end; auto;
    try (exfalso; assert (Hf := Hlast ltac:(assumption) ltac:(assumption));
         discriminate Hf).
Qed.

Lemma validator_rules_in_order_witness :
  prompt (handleGenerate Sample.fromImage) = PStr "  " /\
  generateModel Sample.offline initialState (handleGenerate Sample.fromImage)
      Sample.fresh =
    dispatch Sample.offline initialState (handleGenerate Sample.fromImage)
      "" (withError "" Sample.fresh).
Proof.
  split; [reflexivity|].
  apply (validator_rules_in_order Sample.offline initialState
           (handleGenerate Sample.fromImage) "  " Sample.fresh);
    reflexivity.
Defined.

(** C2. When one of the four validation rules rejects, [generateModel]
    sends no network request and leaves the generation result and the
    loading flag (and every other slot but the error message) as they were;
    it sets the error message and shows one toast. *)
Theorem validation_failure_has_no_side_effects env render (a : Args)
    (p : string) (m : Machine) (k : Spec.ValidationError) :
  prompt a = PStr p ->
  Spec.validator a p = Some k ->
  let m' := machineOf (generateModel env render a m) in
  generateModel env render a m = Ok tt m' /\
  requests (log m') = requests (log m) /\
  modelUrl (state m') = modelUrl (state m) /\
  isLoading (state m') = isLoading (state m) /\
  error (state m') = message k /\
  log m' = Toast ToastError (notice k) :: log m /\
  user (state m') = user (state m) /\
  userPlan (state m') = userPlan (state m) /\
  showSignUp (state m') = showSignUp (state m) /\
  showSignIn (state m') = showSignIn (state m) /\
  showStripeModal (state m') = showStripeModal (state m).
Proof.
  intros Hp Hk m'. subst m'.
  rewrite (generateModel_cases env render a p m Hp), Hk.
  cbn. repeat split; reflexivity.
Qed.

Lemma validation_failure_has_no_side_effects_witness :
  prompt (handleGenerate Sample.noDepth) = PStr "a small vase" /\
  Spec.validator (handleGenerate Sample.noDepth) "a small vase" =
    Some Spec.InvalidDimension /\
  requests (log (machineOf
     (generateModel (Sample.answering true Sample.bodyWithUrl) initialState
        (handleGenerate Sample.noDepth) Sample.fresh))) = [].
Proof.
  split; [reflexivity|]. split; [reflexivity|].
  apply (validation_failure_has_no_side_effects
           (Sample.answering true Sample.bodyWithUrl) initialState
           (handleGenerate Sample.noDepth) "a small vase" Sample.fresh
           Spec.InvalidDimension); reflexivity.
Defined.

(* ================================================================== *)
(** * The generation dispatcher *)

(** C3, as stated, fails: a success response whose body has a [modelUrl]
    field does not always become the result.  When the body also carries an
    [error] the result stays empty, and an empty [modelUrl] is replaced by
    the placeholder. *)
Lemma success_with_model_url_counterexample :
  let a := handleGenerate Sample.vase in
  let sent e := generationOutcome e initialState a "a small vase" [] in
  let result e :=
    modelUrl (state (machineOf (generateModel e initialState a Sample.fresh))) in
  (sent (Sample.answering true Sample.bodyWithErrorAndUrl) =
     Responds {| ok := true; json := Some Sample.bodyWithErrorAndUrl |} /\
   optGet Sample.bodyWithErrorAndUrl "modelUrl" = VPrim "https://x/y.glb" /\
   result (Sample.answering true Sample.bodyWithErrorAndUrl) = VPrim null) /\
  (sent (Sample.answering true Sample.bodyWithEmptyUrl) =
     Responds {| ok := true; json := Some Sample.bodyWithEmptyUrl |} /\
   optGet Sample.bodyWithEmptyUrl "modelUrl" = VPrim "" /\
   result (Sample.answering true Sample.bodyWithEmptyUrl) = VPrim PLACEHOLDER_URL).
Proof. repeat split. Qed.

(** C3, amended. When the response has a success status and its JSON body
    carries a truthy [modelUrl] and no truthy [error], the call fulfils, the
    generation result is exactly that value, the loading flag is cleared and
    the success toast is shown. *)
Theorem success_with_model_url env render (a : Args) (p : string) (m : Machine)
    (resp : Response) (data : JsVal) :
  prompt a = PStr p ->
  Spec.validator a p = None ->
  generationOutcome env render a (sanitizeInput (Str.trim p)) (requests (log m))
    = Responds resp ->
  ok resp = true ->
  json resp = Some data ->
  ToBoolean (optGet data "error") = false ->
  ToBoolean (optGet data "modelUrl") = true ->
  exists m',
    generateModel env render a m = Ok tt m' /\
    modelUrl (state m') = optGet data "modelUrl" /\
    isLoading (state m') = false /\
    In (Toast ToastSuccess
          (if truthy (defaultTo (PBool false) (download a))
           then "Model downloaded!" else "Model generated!")) (log m').
Proof.
  intros Hp Hv Hout Hok Hjson Herr Hurl.
  rewrite (generateModel_cases env render a p m Hp), Hv.
  apply (dispatch_model_url env render a _ (withError "" m) resp data);
    assumption.
Qed.

Lemma success_with_model_url_witness :
  exists m',
    generateModel (Sample.answering true Sample.bodyWithUrl) initialState
      (handleGenerate Sample.vase) Sample.fresh = Ok tt m' /\
    modelUrl (state m') = VPrim "https://x/y.glb" /\
    isLoading (state m') = false /\
    In (Toast ToastSuccess "Model generated!") (log m').
Proof.
  apply (success_with_model_url (Sample.answering true Sample.bodyWithUrl)
           initialState (handleGenerate Sample.vase) "a small vase"
           Sample.fresh {| ok := true; json := Some Sample.bodyWithUrl |}
           Sample.bodyWithUrl); reflexivity.
Defined.

(** C4. When the exchange throws (the request fails, or the body of a
    success response does not parse) or the response status is not a
    success, [generateModel] fulfils with an error message set, the result
    set to the one placeholder asset, the loading flag cleared, and exactly
    one generation request sent after the token request: no retry. *)
Theorem failed_dispatch_falls_back env render (a : Args) (p : string)
    (m : Machine) :
  prompt a = PStr p ->
  Spec.validator a p = None ->
  let sp := sanitizeInput (Str.trim p) in
  let outcome := generationOutcome env render a sp (requests (log m)) in
  let fallsBack (msg : string) :=
    exists m',
      generateModel env render a m = Ok tt m' /\
      settles m' msg PLACEHOLDER_URL /\
      requests (log m') =
        generationRequest env render a sp (tokenFor env (requests (log m)))
          :: csrfRequest :: requests (log m) in
  (outcome = NetworkFailure ->
   fallsBack "Network error. Using placeholder preview.") /\
  (forall resp, outcome = Responds resp -> ok resp = false ->
   fallsBack "Failed to generate model. Using placeholder preview.") /\
  (forall resp, outcome = Responds resp -> ok resp = true -> json resp = None ->
   fallsBack "Network error. Using placeholder preview.").
Proof.
  intros Hp Hv sp outcome fallsBack. subst fallsBack outcome sp. cbn beta.
  rewrite (generateModel_cases env render a p m Hp), Hv.
  repeat split.
  - intros H. now apply (dispatch_network_failure env render a _ (withError "" m)).
  - intros resp H Hok.
    now apply (dispatch_not_ok env render a _ (withError "" m) resp).
  - intros resp H Hok Hjson.
    now apply (dispatch_unparsable env render a _ (withError "" m) resp).
Qed.

Lemma failed_dispatch_falls_back_witness :
  exists m',
    generateModel Sample.offline initialState (handleGenerate Sample.vase)
      Sample.fresh = Ok tt m' /\
    settles m' "Network error. Using placeholder preview." PLACEHOLDER_URL /\
    List.length (requests (log m')) = 2.
Proof.
  destruct (proj1 (failed_dispatch_falls_back Sample.offline initialState
              (handleGenerate Sample.vase) "a small vase" Sample.fresh
              eq_refl eq_refl) eq_refl) as (m' & E & S & R).
  exists m'. split; [exact E|]. split; [exact S|]. now rewrite R.
Defined.

(** C5, as stated, fails: a success response whose body lacks [modelUrl]
    and carries an [error] gets neither the missing-result message nor the
    placeholder; the error of the body is shown and the result stays
    empty. *)
Lemma missing_model_url_counterexample :
  let a := handleGenerate Sample.vase in
  let env := Sample.answering true Sample.bodyWithError in
  let m' := machineOf (generateModel env initialState a Sample.fresh) in
  generationOutcome env initialState a "a small vase" [] =
    Responds {| ok := true; json := Some Sample.bodyWithError |} /\
  optGet Sample.bodyWithError "modelUrl" = VPrim undefined /\
  modelUrl (state m') = VPrim null /\
  modelUrl (state m') <> VPrim PLACEHOLDER_URL /\
  error (state m') = VPrim "quota exceeded" /\
  error (state m') <> VPrim "No model URL returned. Showing placeholder.".
Proof. repeat split; discriminate. Qed.

(** C5, amended. When the response has a success status and its JSON body
    carries no truthy [modelUrl], then: if the body carries no truthy
    [error] either, [generateModel] reports the missing-result error and
    substitutes the placeholder asset; if its [error] is a text (a string
    that is not empty), that text is reported and the result is left
    empty.  In both cases the call fulfils with the loading flag cleared.
    Nothing is stated for a truthy [error] that is not a text, which the
    page cannot display. *)
Theorem missing_model_url env render (a : Args) (p : string) (m : Machine)
    (resp : Response) (data : JsVal) :
  prompt a = PStr p ->
  Spec.validator a p = None ->
  generationOutcome env render a (sanitizeInput (Str.trim p)) (requests (log m))
    = Responds resp ->
  ok resp = true ->
  json resp = Some data ->
  ToBoolean (optGet data "modelUrl") = false ->
  (ToBoolean (optGet data "error") = false ->
   exists m',
     generateModel env render a m = Ok tt m' /\
     settles m' "No model URL returned. Showing placeholder." PLACEHOLDER_URL) /\
  (forall e : string,
     optGet data "error" = VPrim (PStr e) -> e <> "" ->
     exists m',
       generateModel env render a m = Ok tt m' /\
       settles m' (VPrim (PStr e)) null).
Proof.
  intros Hp Hv Hout Hok Hjson Hurl.
  rewrite (generateModel_cases env render a p m Hp), Hv.
  split.
  - intros Herr.
    destruct (dispatch_no_model_url env render a _ (withError "" m) resp data
                Hout Hok Hjson Herr Hurl) as (m' & E & S & _).
    exists m'. split; [exact E | exact S].
  - intros e He Hne.
    assert (Herr : ToBoolean (optGet data "error") = true).
    { rewrite He. cbn. apply negb_true_iff.
      now destruct (String.eqb_spec e ""). }
    destruct (dispatch_error_body env render a _ (withError "" m) resp data
                Hout Hok Hjson Herr) as (m' & E & S & _).
    exists m'. split; [exact E|]. rewrite <- He. exact S.
Qed.

Lemma missing_model_url_witness :
  exists m',
    generateModel (Sample.answering true Sample.emptyBody) initialState
      (handleGenerate Sample.vase) Sample.fresh = Ok tt m' /\
    settles m' "No model URL returned. Showing placeholder." PLACEHOLDER_URL.
Proof.
  apply (proj1 (missing_model_url (Sample.answering true Sample.emptyBody)
                  initialState (handleGenerate Sample.vase) "a small vase"
                  Sample.fresh {| ok := true; json := Some Sample.emptyBody |}
                  Sample.emptyBody eq_refl eq_refl eq_refl eq_refl eq_refl
                  eq_refl)).
  reflexivity.
Defined.

(* ================================================================== *)
(** * The payment gate *)

(** C6, as stated, fails: with an identifier that is not a one-time
    purchase, no generation result and no identity, the table as worded
    (sign-in block only when a result exists) proceeds to checkout, while
    [payForModel] blocks with the sign-in message and sends nothing. *)
Lemma payment_gate_as_worded_counterexample :
  let run := payForModel Sample.offline initialState "sub_monthly" Sample.fresh in
  Spec.gateAsWorded (Some "sub_monthly") (modelUrl initialState)
    (user initialState) = Spec.ProceedToCheckout /\
  run = Ok tt (signInBlock Sample.fresh) /\
  error (state (machineOf run)) = VPrim "Please sign in to subscribe or purchase." /\
  showStripeModal (state (machineOf run)) = false /\
  requests (log (machineOf run)) = [].
Proof. repeat split. Qed.

(** C6, amended. For every optional price identifier, captured model URL
    and identity, and from any machine state, one call of [payForModel]
    does exactly what the gate decides, the checks being applied in this
    order: no action when the identifier is absent; else the
    generate-a-model-first block when the identifier is a one-time purchase
    and no result exists; else the sign-in block when no identity is present
    (whether or not a result exists); else the checkout dispatch, which
    sends the token request and the checkout request.  The decision reads
    nothing but the identifier and the captured result and identity. *)
Theorem payment_gate_decides env render (priceId : option string) (m : Machine) :
  let run := payForModel env render (ofPriceId priceId) m in
  match Spec.gate priceId (modelUrl render) (user render) with
  | Spec.NoActionNeeded =>
      run = Ok tt (blocked "This plan is included by default." ToastInfo
                     "Free plan active." m)
  | Spec.BlockedNeedsModel =>
      run = Ok tt (blocked "Generate a model first before purchasing."
                     ToastError "Generate a model first." m)
  | Spec.BlockedNeedsSignIn =>
      run = Ok tt (signInBlock m)
  | Spec.ProceedToCheckout =>
      exists p u,
        priceId = Some p /\ user render = Some u /\
        run = checkout env render p u (withError "" m) /\
        requests (log (machineOf run)) =
          checkoutRequest render p u (tokenFor env (requests (log m)))
            :: csrfRequest :: requests (log m)
  end.
Proof.
  intros run. subst run.
  pose proof (payForModel_gate env render priceId m) as H.
  destruct (Spec.gate priceId (modelUrl render) (user render)); try exact H.
  destruct H as (p & u & Hp & Hu & E).
  exists p, u. repeat split; try assumption.
  rewrite E. apply (checkout_requests env render p u (withError "" m)).
Qed.

(** C10. Every price identifier that starts with "price_" and does not
    contain "sub" is blocked with the generate-a-model-first message when
    no model URL is present, whoever the user is (signed in or not): the
    needs-model check comes before the sign-in check.  Both subscription
    price identifiers of [PLANS] are such identifiers. *)
Theorem subscription_needs_model_first env render (p : string) (m : Machine) :
  Str.startsWith p "price_" = true ->
  Str.includes p "sub" = false ->
  ToBoolean (modelUrl render) = false ->
  payForModel env render p m =
    Ok tt (blocked "Generate a model first before purchasing." ToastError
             "Generate a model first." m) /\
  (forall plan q, In plan PLANS -> priceId plan = PStr q ->
     Str.startsWith q "price_" = true /\ Str.includes q "sub" = false).
Proof.
  intros Hstart Hsub Hmodel. split.
  - unfold payForModel. unfold bind at 1. cbn [setError modify truthy].
    assert (Hne : String.eqb p "" = false) by (destruct p; [discriminate|reflexivity]).
    rewrite Hne. cbn [negb stringReceiver]. unfold bind at 1. cbn [ret].
    rewrite Hstart, Hsub, Hmodel. reflexivity.
  - intros plan q Hin Hq. cbn in Hin.
    destruct Hin as [<-|[<-|[<-|[]]]]; cbn in Hq; try discriminate;
      injection Hq as <-; split; reflexivity.
Qed.

Lemma subscription_needs_model_first_witness :
  Str.startsWith "price_1N9Z8x1234567890" "price_" = true /\
  Str.includes "price_1N9Z8x1234567890" "sub" = false /\
  ToBoolean (modelUrl Sample.signedIn) = false /\
  payForModel Sample.offline Sample.signedIn "price_1N9Z8x1234567890"
      Sample.fresh =
    Ok tt (blocked "Generate a model first before purchasing." ToastError
             "Generate a model first." Sample.fresh).
Proof.
  split; [reflexivity|]. split; [reflexivity|]. split; [reflexivity|].
  apply (proj1 (subscription_needs_model_first Sample.offline Sample.signedIn
                  "price_1N9Z8x1234567890" Sample.fresh
                  eq_refl eq_refl eq_refl)).
Defined.

(* ================================================================== *)
(** * The plan lookup *)

(** C7. The plan lookup defaults to "free": [fetchUserPlan] always fulfils,
    and with "free" when the lookup request throws (the request fails or
    the body does not parse); the plan applied after sign-in is "free"
    whenever the looked-up plan is absent (falsy); and on sign-out the plan
    is reset to "free" and the identity dropped. *)
Theorem plan_defaults_to_free env (u : User) (m : Machine) :
  (exists plan m', fetchUserPlan env (uid u) m = Ok plan m') /\
  (planOutcome env (uid u) (requests (log m)) = NetworkFailure ->
   fulfilled (fetchUserPlan env (uid u) m) = Some (VPrim "free")) /\
  (forall resp,
     planOutcome env (uid u) (requests (log m)) = Responds resp ->
     json resp = None ->
     fulfilled (fetchUserPlan env (uid u) m) = Some (VPrim "free")) /\
  (forall plan,
     fulfilled (fetchUserPlan env (uid u) m) = Some plan ->
     ToBoolean plan = false ->
     userPlan (state (machineOf (onAuthStateChanged env (Some u) m)))
       = VPrim "free") /\
  (planOutcome env (uid u) (requests (log m)) = NetworkFailure ->
   userPlan (state (machineOf (onAuthStateChanged env (Some u) m)))
     = VPrim "free") /\
  userPlan (state (machineOf (onAuthStateChanged env None m))) = VPrim "free" /\
  user (state (machineOf (onAuthStateChanged env None m))) = None.
Proof.
  destruct (fetchUserPlan_run env (uid u) m) as (evs & E).
  assert (Hin : forall plan,
    planFor env (uid u) (requests (log m)) = plan ->
    userPlan (state (machineOf (onAuthStateChanged env (Some u) m)))
      = orElse plan "free").
  { intros plan <-. unfold onAuthStateChanged.
    unfold bind at 1. unfold setUser at 1, modify at 1.
    unfold bind at 1.
    match goal with
    | |- context [fetchUserPlan env (uid u) ?m1] =>
        destruct (fetchUserPlan_run env (uid u) m1) as (evs1 & E1); rewrite E1
    end.
    reflexivity. }
  assert (Hfail : planOutcome env (uid u) (requests (log m)) = NetworkFailure ->
                  planFor env (uid u) (requests (log m)) = VPrim "free").
  { intros H. unfold planFor. now rewrite H. }
  repeat split.
  - eauto.
  - intros H. rewrite E. cbn. now rewrite (Hfail H).
  - intros resp H Hjson. rewrite E. cbn. unfold planFor. now rewrite H, Hjson.
  - intros plan Hplan Hfalsy. rewrite E in Hplan. cbn in Hplan.
    injection Hplan as Hplan. rewrite (Hin plan Hplan).
    unfold orElse. now rewrite Hfalsy.
  - intros H. rewrite (Hin _ (Hfail H)). reflexivity.
Qed.

Lemma plan_defaults_to_free_witness :
  planOutcome Sample.offline (uid Sample.alice) [] = NetworkFailure /\
  fulfilled (fetchUserPlan Sample.offline (uid Sample.alice) Sample.fresh)
    = Some (VPrim "free") /\
  userPlan (state (machineOf
     (onAuthStateChanged (Sample.answering false Sample.emptyBody)
        (Some Sample.alice) Sample.fresh))) = VPrim "free".
Proof.
  split; [reflexivity|]. split.
  - apply (plan_defaults_to_free Sample.offline Sample.alice Sample.fresh).
    reflexivity.
  - apply (proj1 (proj2 (proj2 (proj2
      (plan_defaults_to_free (Sample.answering false Sample.emptyBody)
         Sample.alice Sample.fresh)))) (VPrim undefined));
      reflexivity.
Defined.

(* ================================================================== *)
(** * Calls that do not complete *)

(** C8. The download button calls [generateModel] with only the
    [download] property.  The call rejects with a [TypeError] raised by
    [prompt.trim()] before the [try] block is entered: only the error slot
    was cleared, no placeholder is substituted and no message is shown. *)
Theorem download_click_rejects env render (m : Machine) :
  generateModel env render downloadClick m =
    Err (TypeError "Cannot read properties of null or undefined")
        (withError "" m).
Proof. reflexivity. Qed.

(** The download click aside, a call whose prompt is a string always
    fulfils. *)
Lemma generateModel_fulfils env render (a : Args) (p : string) :
  prompt a = PStr p -> total (generateModel env render a).
Proof.
  intros Hp m. rewrite (generateModel_cases env render a p m Hp).
  destruct (Spec.validator a p); [eauto|].
  apply total_dispatch.
Qed.

(** Any call whose prompt is not a string rejects the same way, whatever
    else it passes. *)
Lemma generateModel_rejects_without_prompt env render (a : Args) (m : Machine) :
  (forall p, prompt a <> PStr p) ->
  exists e, generateModel env render a m = Err e (withError "" m).
Proof.
  intros H. unfold generateModel. unfold bind at 1. cbn [setError modify].
  unfold bind at 1.
  destruct (prompt a) as [| |b|n|p]; cbn; eauto.
  now destruct (H p).
Qed.

(** The gallery call leaves the dimensions out and is rejected by the
    second rule. *)
Example gallery_click_is_rejected env render (m : Machine) :
  generateModel env render (galleryClick "Robotic Gripper") m =
    Ok tt (rejection Spec.InvalidDimension m).
Proof. reflexivity. Qed.

(* ================================================================== *)
(** * Sanitizing *)

(** C9. For every input string the result of [sanitizeInput] holds none of
    the characters less-than, greater-than, double quote and single quote:
    each of them, and the ampersand, is replaced where it stands by its
    HTML entity ([&lt;], [&gt;], [&quot;], [&#x27;], [&amp;]), and every
    other character is left as it is.  Because the ampersand is rewritten
    too, sanitising twice a string that holds an ampersand differs from
    sanitising it once. *)
Theorem sanitizeInput_escapes_not_idempotent (s : string) :
  (Str.occurs "<" (sanitizeInput s) = false /\
   Str.occurs ">" (sanitizeInput s) = false /\
   Str.occurs (ascii_of_nat 34) (sanitizeInput s) = false /\
   Str.occurs "'" (sanitizeInput s) = false) /\
  (forall t : string,
     sanitizeInput (s ++ String "<" t)
       = sanitizeInput s ++ "&lt;" ++ sanitizeInput t /\
     sanitizeInput (s ++ String ">" t)
       = sanitizeInput s ++ "&gt;" ++ sanitizeInput t /\
     sanitizeInput (s ++ String (ascii_of_nat 34) t)
       = sanitizeInput s ++ "&quot;" ++ sanitizeInput t /\
     sanitizeInput (s ++ String "'" t)
       = sanitizeInput s ++ "&#x27;" ++ sanitizeInput t /\
     sanitizeInput (s ++ String "&" t)
       = sanitizeInput s ++ "&amp;" ++ sanitizeInput t) /\
  (forall (c : ascii) (t : string),
     c <> "&"%char -> c <> "<"%char -> c <> ">"%char ->
     c <> ascii_of_nat 34 -> c <> "'"%char ->
     sanitizeInput (s ++ String c t)
       = sanitizeInput s ++ String c (sanitizeInput t)) /\
  (Str.occurs "&" s = true ->
   sanitizeInput (sanitizeInput s) <> sanitizeInput s).
Proof.
  split; [|split; [|split]].
  - repeat split; apply sanitizeInput_clean; auto.
  - intros t. rewrite !sanitizeInput_app.
    split; [reflexivity|]. split; [reflexivity|]. split; [reflexivity|].
    split; reflexivity.
  - intros c t H1 H2 H3 H4 H5. rewrite sanitizeInput_app, sanitizeInput_cons.
    unfold escapeChar.
    destruct (isSpecial_cases c) as [[_ Hc]|[E _]].
    + destruct Hc as [Hc|[Hc|[Hc|[Hc|Hc]]]]; contradiction.
    + rewrite E. reflexivity.
  - intros H Heq.
    destruct (sanitizeInput_amp s H) as [_ H1].
    destruct (sanitizeInput_amp _ H1) as [H2 _].
    rewrite Heq in H2. lia.
Qed.

Lemma sanitizeInput_escapes_not_idempotent_witness :
  Str.occurs "&" "Tom & Jerry" = true /\
  sanitizeInput (sanitizeInput "Tom & Jerry") <> sanitizeInput "Tom & Jerry".
Proof.
  split; [reflexivity|].
  apply (proj2 (proj2 (proj2
           (sanitizeInput_escapes_not_idempotent "Tom & Jerry")))).
  reflexivity.
Defined.

(* ================================================================== *)
(** * Further properties of [sanitizeInput] *)

Section SanitizeMore.

Lemma escapeChar_plain (c : ascii) :
  isSpecial c = false -> escapeChar c = String c EmptyString.
Proof. unfold escapeChar. now intros ->. Qed.

Lemma escapeChar_special (c : ascii) :
  isSpecial c = true ->
  exists e, escapeChar c = String "&" e /\ 3 <= String.length e <= 5.
Proof.
  intros H. unfold escapeChar. rewrite H.
  destruct (isSpecial_cases c) as [[_ Hc]|[E _]]; [|congruence].
  destruct Hc as [->|[->|[->|[->| ->]]]]; eexists; (split; [reflexivity|cbn; lia]).
Qed.

Lemma escapeChar_head (c d : ascii) (s t : string) :
  escapeChar c ++ s = escapeChar d ++ t -> c = d /\ s = t.
Proof.
  unfold escapeChar.
  destruct (isSpecial_cases c) as [[Ec Hc]|[Ec Hc]]; rewrite Ec;
    destruct (isSpecial_cases d) as [[Ed Hd]|[Ed Hd]]; rewrite Ed.
  - destruct Hc as [->|[->|[->|[->| ->]]]];
      destruct Hd as [->|[->|[->|[->| ->]]]]; cbn; intros H;
      first [discriminate H | split; [reflexivity | congruence]].
  - destruct Hd as (Hd & _).
    destruct Hc as [->|[->|[->|[->| ->]]]]; cbn; intros H;
      injection H as H1 _; now destruct Hd.
  - destruct Hc as (Hc & _).
    destruct Hd as [->|[->|[->|[->| ->]]]]; cbn; intros H;
      injection H as H1 _; now destruct Hc.
  - cbn. intros H. injection H as -> ->. now split.
Qed.

End SanitizeMore.

(** X1. [sanitizeInput] is injective: two different inputs never give the
    same sanitized text. *)
Theorem sanitizeInput_injective (s t : string) :
  sanitizeInput s = sanitizeInput t -> s = t.
Proof.
  revert t. induction s as [|c s IH]; intros [|d t] H.
  - reflexivity.
  - rewrite sanitizeInput_cons in H. cbn in H.
    pose proof (escapeChar_length d) as L.
    destruct (escapeChar d); [cbn in L; lia | discriminate H].
  - rewrite sanitizeInput_cons in H. cbn in H.
    pose proof (escapeChar_length c) as L.
    destruct (escapeChar c); [cbn in L; lia | discriminate H].
  - rewrite !sanitizeInput_cons in H.
    destruct (escapeChar_head c d _ _ H) as [-> H'].
    now rewrite (IH t H').
Qed.

Lemma sanitizeInput_injective_witness :
  sanitizeInput "a<b" = sanitizeInput "a<b" /\ "a<b" = "a<b".
Proof.
  split; [reflexivity|].
  apply (sanitizeInput_injective "a<b" "a<b"). reflexivity.
Defined.

(** X2. [sanitizeInput] returns its input unchanged exactly when the input
    holds none of the five characters of the class; any other input comes
    back strictly longer. *)
Theorem sanitizeInput_fixed_points (s : string) :
  (sanitizeInput s = s <-> hasSpecial s = false) /\
  (hasSpecial s = true -> String.length s < String.length (sanitizeInput s)).
Proof.
  assert (Hlong : hasSpecial s = true ->
                  String.length s < String.length (sanitizeInput s)).
  { induction s as [|c s IH]; [discriminate|].
    cbn [hasSpecial]. rewrite sanitizeInput_cons, length_app.
    pose proof (sanitizeInput_length s) as Hs.
    destruct (isSpecial c) eqn:E; cbn [orb].
    - intros _. destruct (escapeChar_special c E) as (e & -> & He). cbn. lia.
    - intros H. specialize (IH H). rewrite (escapeChar_plain c E). cbn. lia. }
  split; [|exact Hlong]. split.
  - intros H. destruct (hasSpecial s) eqn:E; [|reflexivity].
    specialize (Hlong eq_refl). rewrite H in Hlong. lia.
  - clear Hlong. induction s as [|c s IH]; [reflexivity|].
    cbn [hasSpecial]. intros H. apply orb_false_iff in H as [Hc Hs].
    rewrite sanitizeInput_cons, (escapeChar_plain c Hc), (IH Hs). reflexivity.
Qed.

Lemma sanitizeInput_fixed_points_witness :
  hasSpecial "o'brien@example.com" = true /\
  String.length "o'brien@example.com" <
    String.length (sanitizeInput "o'brien@example.com").
Proof.
  split; [reflexivity|].
  apply (proj2 (sanitizeInput_fixed_points "o'brien@example.com")).
  reflexivity.
Defined.

(** X3. [sanitizeInput] works character by character: the sanitized text of
    a concatenation is the concatenation of the sanitized texts, and the
    result is empty only for the empty input. *)
Theorem sanitizeInput_concat (s t : string) :
  sanitizeInput (s ++ t) = sanitizeInput s ++ sanitizeInput t /\
  (sanitizeInput s = "" <-> s = "").
Proof.
  split; [apply sanitizeInput_app|]. split.
  - intros H. pose proof (sanitizeInput_length s) as L. rewrite H in L.
    destruct s; [reflexivity | cbn in L; lia].
  - now intros ->.
Qed.

(** X4. Sanitizing never shortens a text and makes it at most six times
    longer. *)
Theorem sanitizeInput_length_bounds (s : string) :
  String.length s <= String.length (sanitizeInput s) <= 6 * String.length s.
Proof.
  split; [apply sanitizeInput_length|].
  induction s as [|c s IH]; [cbn; lia|].
  rewrite sanitizeInput_cons, length_app. cbn [String.length].
  assert (String.length (escapeChar c) <= 6).
  { destruct (isSpecial c) eqn:E.
    - destruct (escapeChar_special c E) as (e & -> & He). cbn. lia.
    - rewrite (escapeChar_plain c E). cbn. lia. }
  lia.
Qed.

(* ================================================================== *)
(** * The checks and the form controls *)

Section FloatOrder.

(** Swapping the sides of a comparison gives the opposite answer. *)
Lemma SFcompare_swap (a b : spec_float) :
  SFcompare b a =
    match SFcompare a b with
    | Some c => Some (CompOpp c)
    | None => None
    end.
Proof.
  destruct a as [sa|sa| |sa ma ea], b as [sb|sb| |sb mb eb]; cbn;
    try reflexivity; try (now destruct sa); try (now destruct sb);
    try (now destruct sa, sb).
  change (Pos.compare_cont Eq mb ma) with (Pos.compare mb ma).
  change (Pos.compare_cont Eq ma mb) with (Pos.compare ma mb).
  rewrite (Z.compare_antisym ea eb), (Pos.compare_antisym ma mb).
  destruct sa, sb; try reflexivity;
    destruct (Z.compare ea eb); cbn; try reflexivity;
    destruct (Pos.compare ma mb); reflexivity.
Qed.

Lemma SFcompare_refl (a : spec_float) :
  a <> S754_nan -> SFcompare a a = Some Eq.
Proof.
  destruct a as [s|s| |s m e]; cbn; intros H; try reflexivity.
  - now destruct s.
  - now destruct H.
  - change (Pos.compare_cont Eq m m) with (Pos.compare m m).
    rewrite Z.compare_refl, Pos.compare_refl. now destruct s.
Qed.

(** A number is [NaN] exactly when its specification is. *)
Lemma is_nan_spec (x : float) :
  is_nan x = true <-> Prim2SF x = S754_nan.
Proof.
  unfold is_nan. rewrite FloatAxioms.eqb_spec. unfold SFeqb. split.
  - intros H. destruct (Prim2SF x) eqn:E; try reflexivity;
      rewrite SFcompare_refl in H by discriminate; discriminate H.
  - now intros ->.
Qed.

(** [<] on numbers is asymmetric. *)
Lemma ltb_asym (x y : float) :
  (x <? y)%float = true -> (y <? x)%float = false.
Proof.
  rewrite !FloatAxioms.ltb_spec. unfold SFltb.
  destruct (SFcompare (Prim2SF x) (Prim2SF y)) as [[| |]|] eqn:E;
    try discriminate.
  intros _. now rewrite (SFcompare_swap (Prim2SF x) (Prim2SF y)), E.
Qed.

(** Two numbers, neither of them [NaN], are ordered one way or the other. *)
Lemma leb_of_not_ltb (x y : float) :
  is_nan x = false -> is_nan y = false ->
  (x <? y)%float = false -> (y <=? x)%float = true.
Proof.
  intros Hx Hy. rewrite FloatAxioms.ltb_spec, FloatAxioms.leb_spec.
  unfold SFltb, SFleb.
  rewrite (SFcompare_swap (Prim2SF x) (Prim2SF y)).
  assert (Prim2SF x <> S754_nan) as Nx
    by (intros E; apply is_nan_spec in E; congruence).
  assert (Prim2SF y <> S754_nan) as Ny
    by (intros E; apply is_nan_spec in E; congruence).
  destruct (Prim2SF x) as [sx|sx| |sx mx ex], (Prim2SF y) as [sy|sy| |sy my ey];
    try (now destruct Nx); try (now destruct Ny);
    destruct (SFcompare _ _) as [[| |]|] eqn:E; cbn; try discriminate;
    try reflexivity; cbn in E; try discriminate E;
    try (destruct sx; discriminate E); try (destruct sy; discriminate E);
    try (destruct sx, sy; discriminate E).
Qed.

Lemma ltb_leb (x y : float) : (x <? y)%float = true -> (x <=? y)%float = true.
Proof.
  rewrite FloatAxioms.ltb_spec, FloatAxioms.leb_spec. unfold SFltb, SFleb.
  now destruct (SFcompare _ _) as [[| |]|].
Qed.

Lemma ltb_not_nan (x y : float) :
  (x <? y)%float = true -> is_nan x = false /\ is_nan y = false.
Proof.
  rewrite FloatAxioms.ltb_spec. unfold SFltb. intros H. split.
  - destruct (is_nan x) eqn:E; [|reflexivity].
    apply is_nan_spec in E. rewrite E in H. discriminate H.
  - destruct (is_nan y) eqn:E; [|reflexivity].
    apply is_nan_spec in E. rewrite E in H.
    now destruct (Prim2SF x).
Qed.

End FloatOrder.

Section Clamps.

(** [Math.min(100, v)] and [Math.max(0, n)], [Math.max(0.4, v)] unrolled. *)
Lemma min_100 (v : Prim) :
  JsMath.min [PNum 100%float; v] =
    if is_nan (Number v) then nan
    else if (Number v <? 100)%float then Number v else 100%float.
Proof.
  unfold JsMath.min. cbn [map existsb Number].
  change (is_nan 100%float) with false. cbn [orb].
  rewrite orb_false_r. destruct (is_nan (Number v)); [reflexivity|].
  cbn [JsMath.minFrom].
  change (100 <? infinity)%float with true. cbn [orb].
  change (JsMath.isPosZero 100%float) with false. rewrite andb_false_r, orb_false_r.
  reflexivity.
Qed.

Lemma max_from (k : float) (v : Prim) :
  is_nan k = false -> (neg_infinity <? k)%float = true ->
  JsMath.isNegZero k = false ->
  JsMath.max [PNum k; v] =
    if is_nan (Number v) then nan
    else if (k <? Number v)%float then Number v else k.
Proof.
  intros Hnan Hinf Hz. unfold JsMath.max. cbn [map existsb Number].
  rewrite Hnan. cbn [orb]. rewrite orb_false_r.
  destruct (is_nan (Number v)); [reflexivity|].
  cbn [JsMath.maxFrom]. rewrite Hinf. cbn [orb].
  rewrite Hz, andb_false_r, orb_false_r. reflexivity.
Qed.

(** The two boxes unrolled: what each stores for the typed text. *)
Lemma clampInfill_unrolled (value : string) :
  Controls.clampInfill value =
    let n := Number value in
    if is_nan n then nan
    else if (n <? 100)%float then (if (0 <? n)%float then n else 0%float)
    else 100%float.
Proof.
  unfold Controls.clampInfill.
  rewrite (max_from 0%float) by reflexivity. rewrite min_100.
  cbn [Number]. cbv zeta. generalize (Num.ofString value). intros n.
  destruct (is_nan n) eqn:Hn; [reflexivity|].
  destruct (n <? 100)%float; [rewrite Hn|]; reflexivity.
Qed.

Lemma clampShell_unrolled (value : string) :
  Controls.clampShell value =
    let n := Number value in
    if is_nan n then nan
    else if (Num.lit_0_4 <? n)%float then n else Num.lit_0_4.
Proof.
  unfold Controls.clampShell.
  rewrite (max_from Num.lit_0_4) by reflexivity. cbv zeta. reflexivity.
Qed.

(** Neither range check of [generateModel] fires on a stored value. *)
Lemma clampInfill_passes (value : string) :
  Spec.outsidePercent (PNum (Controls.clampInfill value)) = false.
Proof.
  rewrite clampInfill_unrolled. unfold Spec.outsidePercent. cbv zeta.
  cbn [Number]. generalize (Num.ofString value). intros n.
  destruct (is_nan n); [reflexivity|].
  destruct (n <? 100)%float eqn:H100; [|reflexivity].
  destruct (0 <? n)%float eqn:H0; [|reflexivity].
  rewrite (ltb_asym _ _ H0), (ltb_asym _ _ H100). reflexivity.
Qed.

Lemma clampShell_passes (value : string) :
  Spec.belowMinimumShell (PNum (Controls.clampShell value)) = false.
Proof.
  rewrite clampShell_unrolled. unfold Spec.belowMinimumShell. cbv zeta.
  cbn [Number]. generalize (Num.ofString value). intros n.
  destruct (is_nan n); [reflexivity|].
  destruct (Num.lit_0_4 <? n)%float eqn:H; [|reflexivity].
  rewrite (ltb_asym _ _ H). reflexivity.
Qed.

(** A dimension that is not bad converts to a finite number above zero. *)
Lemma goodDimension_number (v : Prim) :
  Spec.badDimension v = false ->
  Num.isFinite (Number v) = true /\ (0 <? Number v)%float = true.
Proof.
  unfold Spec.badDimension, Num.isFinite, is_finite. intros H.
  apply orb_false_iff in H as [H Hpos].
  apply orb_false_iff in H as [H Hinf].
  apply orb_false_iff in H as [_ Hnan].
  rewrite Hnan, Hinf. split; [reflexivity|].
  now apply negb_false_iff in Hpos.
Qed.

End Clamps.

(** X5. The truthiness guard of [validDimension] never changes the answer:
    for every primitive value the function is the numeric test alone, the
    value converted by [Number] being finite and greater than zero. *)
Theorem validDimension_numeric (v : Prim) :
  validDimension v = Num.isFinite (Number v) && (0 <? Number v)%float.
Proof.
  rewrite validDimension_spec.
  unfold Spec.badDimension, Num.isFinite, is_finite.
  destruct v as [| |b|n|s]; try reflexivity.
  - now destruct b.
  - cbn [Spec.absent Number orb]. now rewrite !negb_orb, negb_involutive.
  - cbn [Spec.absent Number].
    destruct (String.eqb_spec s "") as [->|_]; [reflexivity|].
    cbn [orb]. now rewrite !negb_orb, negb_involutive.
Qed.

(** X6. What the infill box stores is [NaN] exactly when the typed text
    does not convert to a number, and is otherwise between 0 and 100: the
    infill check of [generateModel] never fires on it. *)
Theorem infill_box_clamps (value : string) :
  let r := Controls.clampInfill value in
  is_nan r = is_nan (Number value) /\
  (is_nan r = false -> (0 <=? r)%float = true /\ (r <=? 100)%float = true) /\
  Spec.outsidePercent (PNum r) = false.
Proof.
  intros r. subst r.
  split; [|split; [|apply clampInfill_passes]];
    rewrite clampInfill_unrolled; cbv zeta; cbn [Number];
    generalize (Num.ofString value); intros n; destruct (is_nan n) eqn:Hn.
  - reflexivity.
  - destruct (n <? 100)%float; [destruct (0 <? n)%float; [exact Hn|] |];
      reflexivity.
  - intros H. vm_compute in H. discriminate H.
  - intros _. destruct (n <? 100)%float eqn:H100.
    + destruct (0 <? n)%float eqn:H0.
      * split; [apply ltb_leb, H0 | apply ltb_leb, H100].
      * split; reflexivity.
    + split; reflexivity.
Qed.

Lemma infill_box_clamps_witness :
  is_nan (Controls.clampInfill "250") = false /\
  (0 <=? Controls.clampInfill "250")%float = true /\
  (Controls.clampInfill "250" <=? 100)%float = true.
Proof.
  split; [reflexivity|].
  apply (proj1 (proj2 (infill_box_clamps "250"))). reflexivity.
Defined.

(** X7. What the shell thickness box stores is [NaN] exactly when the typed
    text does not convert to a number, and is otherwise at least 0.4: the
    shell thickness check of [generateModel] never fires on it. *)
Theorem shell_box_clamps (value : string) :
  let r := Controls.clampShell value in
  is_nan r = is_nan (Number value) /\
  (is_nan r = false -> (Num.lit_0_4 <=? r)%float = true) /\
  Spec.belowMinimumShell (PNum r) = false.
Proof.
  intros r. subst r.
  split; [|split; [|apply clampShell_passes]];
    rewrite clampShell_unrolled; cbv zeta; cbn [Number];
    generalize (Num.ofString value); intros n; destruct (is_nan n) eqn:Hn.
  - reflexivity.
  - destruct (Num.lit_0_4 <? n)%float; [exact Hn | reflexivity].
  - intros H. vm_compute in H. discriminate H.
  - intros _. destruct (Num.lit_0_4 <? n)%float eqn:H.
    + apply ltb_leb, H.
    + reflexivity.
Qed.

Lemma shell_box_clamps_witness :
  is_nan (Controls.clampShell "0.1") = false /\
  (Num.lit_0_4 <=? Controls.clampShell "0.1")%float = true.
Proof.
  split; [reflexivity|].
  apply (proj1 (proj2 (shell_box_clamps "0.1"))). reflexivity.
Defined.

Section FormInvariant.

Lemma rejection_differs k k' m :
  k <> k' -> @Ok unit tt (rejection k m) <> Ok tt (rejection k' m).
Proof.
  intros Hk H. apply Hk, (rejection_inj k k' m). congruence.
Qed.

Lemma step_inRange (f : Form) (i : Controls.Input) :
  inRange f -> inRange (Controls.step f i).
Proof.
  intros [H1 H2].
  destruct i as [v|v|v|v|v|v|v|b|[file|]]; cbn [Controls.step];
    try (split; assumption).
  - split; [apply clampInfill_passes | exact H2].
  - split; [exact H1 | apply clampShell_passes].
  - destruct (Controls.MAX_IMAGE_BYTES <? Controls.size file)%Z;
      split; assumption.
Qed.

Lemma fold_inRange (inputs : list Controls.Input) (f : Form) :
  inRange f -> inRange (fold_left Controls.step inputs f).
Proof.
  revert f. induction inputs as [|i inputs IH]; intros f H; [exact H|].
  cbn [fold_left]. apply IH, step_inRange, H.
Qed.

Lemma fold_image (inputs : list Controls.Input) (f : Form) (d : string) :
  f_image (fold_left Controls.step inputs f) = Some d ->
  f_image f = Some d \/
  exists file, In (Controls.PickFile (Some file)) inputs /\
               (Controls.size file <= Controls.MAX_IMAGE_BYTES)%Z /\
               Controls.dataUrl file = d.
Proof.
  revert f. induction inputs as [|i inputs IH]; intros f H; [now left|].
  cbn [fold_left] in H. destruct (IH _ H) as [H0|(file & Hin & Hs & Hd)].
  - destruct i as [v|v|v|v|v|v|v|b|[file|]]; cbn [Controls.step f_image] in H0;
      try (now left).
    destruct (Controls.MAX_IMAGE_BYTES <? Controls.size file)%Z eqn:E;
      [now left|].
    right. exists file. cbn in H0. injection H0 as H0.
    repeat split; [now left | lia | exact H0].
  - right. exists file. repeat split; [now right | exact Hs | exact Hd].
Qed.

Lemma blank_trimStart (s : string) : blank (Str.trimStart s) = blank s.
Proof.
  induction s as [|c s IH]; [reflexivity|]. cbn.
  destruct (Str.isWhiteSpace c) eqn:E; [exact IH|]. cbn. now rewrite E.
Qed.

Lemma trimEnd_empty (s : string) : Str.trimEnd s = "" <-> blank s = true.
Proof.
  induction s as [|c s IH]; [now split|]. cbn. split.
  - destruct (Str.trimEnd s) eqn:E; [|discriminate].
    destruct (Str.isWhiteSpace c); [|discriminate].
    intros _. now apply IH.
  - intros H. apply andb_true_iff in H as [Hc Hs].
    apply IH in Hs. now rewrite Hs, Hc.
Qed.

Lemma trim_empty (s : string) : Str.trim s = "" <-> blank s = true.
Proof.
  unfold Str.trim. now rewrite trimEnd_empty, blank_trimStart.
Qed.

End FormInvariant.

(** X8. Whatever the user types, picks or toggles in the form, the infill
    and the shell thickness it holds pass the third and fourth check of
    [generateModel]: the Generate button is never answered with the infill
    or the shell thickness error. *)
Theorem form_never_fails_the_range_checks env render
    (inputs : list Controls.Input) (m : Machine) :
  let a := handleGenerate (Controls.after inputs) in
  let run := generateModel env render a m in
  Spec.outsidePercent (infill a) = false /\
  Spec.belowMinimumShell (shellThickness a) = false /\
  run <> Ok tt (rejection Spec.InvalidInfill m) /\
  run <> Ok tt (rejection Spec.InvalidShellThickness m).
Proof.
  intros a run.
  assert (inRange (Controls.after inputs)) as [H1 H2].
  { apply fold_inRange. split; reflexivity. }
  split; [exact H1|]. split; [exact H2|].
  subst run.
  rewrite (generateModel_cases env render a _ m eq_refl).
  unfold Spec.validator, Spec.outsidePercent, Spec.belowMinimumShell.
  cbn [infill shellThickness a handleGenerate].
  rewrite H1, H2.
  destruct (Spec.nothingToGenerate _ _);
    [split; apply rejection_differs; discriminate|].
  destruct (_ || _ || _)%bool;
    [split; apply rejection_differs; discriminate|].
  split; apply dispatch_not_rejection.
Qed.

(** X9. The reference image the form holds always comes from a picked file
    of at most [5 * 1024 * 1024] bytes: [handleImageUpload] never stores a
    larger one. *)
Theorem form_image_comes_from_a_small_file (inputs : list Controls.Input)
    (d : string) :
  f_image (Controls.after inputs) = Some d ->
  exists file,
    In (Controls.PickFile (Some file)) inputs /\
    (Controls.size file <= 5 * 1024 * 1024)%Z /\
    Controls.dataUrl file = d.
Proof.
  intros H. destruct (fold_image inputs Controls.initialForm d H) as [H0|H0].
  - discriminate H0.
  - exact H0.
Qed.

Lemma form_image_comes_from_a_small_file_witness :
  exists file,
    In (Controls.PickFile (Some file))
       [Controls.PickFile (Some {| Controls.size := 6000000;
                                   Controls.fileName := "big.png";
                                   Controls.dataUrl := "data:big" |});
        Controls.PickFile (Some {| Controls.size := 2048;
                                   Controls.fileName := "sketch.png";
                                   Controls.dataUrl := "data:sketch" |})] /\
    (Controls.size file <= 5 * 1024 * 1024)%Z /\
    Controls.dataUrl file = "data:sketch".
Proof.
  apply (form_image_comes_from_a_small_file
           [Controls.PickFile (Some {| Controls.size := 6000000;
                                       Controls.fileName := "big.png";
                                       Controls.dataUrl := "data:big" |});
            Controls.PickFile (Some {| Controls.size := 2048;
                                       Controls.fileName := "sketch.png";
                                       Controls.dataUrl := "data:sketch" |})]
           "data:sketch").
  reflexivity.
Defined.

(** X10. With an ASCII text for a prompt, [generateModel] answers with the
    description-or-image error exactly when the prompt is made of white
    space only (or is empty) and no image is given. *)
Theorem missing_input_iff_blank_prompt env render (a : Args) (p : string)
    (m : Machine) :
  prompt a = PStr p ->
  isAscii p = true ->
  (generateModel env render a m = Ok tt (rejection Spec.MissingInput m) <->
   blank p = true /\ truthy (image a) = false).
Proof.
  intros Hp _. rewrite (generateModel_cases env render a p m Hp).
  unfold Spec.validator, Spec.nothingToGenerate.
  assert (E : String.eqb (sanitizeInput (Str.trim p)) "" = blank p).
  { destruct (blank p) eqn:B.
    - apply trim_empty in B. now rewrite B.
    - apply String.eqb_neq. intros H.
      assert (Str.trim p = "") as T.
      { pose proof (sanitizeInput_length (Str.trim p)) as L. rewrite H in L.
        destruct (Str.trim p); [reflexivity | cbn in L; lia]. }
      apply trim_empty in T. congruence. }
  rewrite E. destruct (blank p), (truthy (image a)); cbn [negb andb].
  - split; [|intros [_ H]; discriminate H].
    destruct (_ || _ || _)%bool; [intros H; now apply rejection_differs in H|].
    destruct (Spec.outsidePercent _); [intros H; now apply rejection_differs in H|].
    destruct (Spec.belowMinimumShell _); [intros H; now apply rejection_differs in H|].
    intros H. now apply dispatch_not_rejection in H.
  - now split.
  - split; [|intros [H _]; discriminate H].
    destruct (_ || _ || _)%bool; [intros H; now apply rejection_differs in H|].
    destruct (Spec.outsidePercent _); [intros H; now apply rejection_differs in H|].
    destruct (Spec.belowMinimumShell _); [intros H; now apply rejection_differs in H|].
    intros H. now apply dispatch_not_rejection in H.
  - split; [|intros [H _]; discriminate H].
    destruct (_ || _ || _)%bool; [intros H; now apply rejection_differs in H|].
    destruct (Spec.outsidePercent _); [intros H; now apply rejection_differs in H|].
    destruct (Spec.belowMinimumShell _); [intros H; now apply rejection_differs in H|].
    intros H. now apply dispatch_not_rejection in H.
Qed.

Lemma missing_input_iff_blank_prompt_witness :
  let a := handleGenerate (Controls.step Controls.initialForm
                             (Controls.TypePrompt "   ")) in
  prompt a = PStr "   " /\
  isAscii "   " = true /\
  generateModel Sample.offline initialState a Sample.fresh
    = Ok tt (rejection Spec.MissingInput Sample.fresh).
Proof.
  split; [reflexivity|]. split; [reflexivity|].
  apply (missing_input_iff_blank_prompt Sample.offline initialState
           (handleGenerate (Controls.step Controls.initialForm
                              (Controls.TypePrompt "   ")))
           "   " Sample.fresh eq_refl eq_refl).
  split; reflexivity.
Defined.

(* ================================================================== *)
(** * More on the dispatch *)

Section DispatchMore.

Variable env : Env.
Variable render : AppState.

Lemma logGrows_onResponse a sp resp :
  keeps logGrows (onResponse env render a sp resp).
Proof.
  pose proof (logGrows_payForModel env render).
  unfold onResponse. grows.
Qed.

Lemma logGrows_onFailure err : keeps logGrows (onFailure err).
Proof. unfold onFailure. grows. Qed.

(** Every dispatch hands the generation request to [fetch], whatever the
    token exchange did. *)
Lemma dispatch_sends a sp m :
  In (Fetch (generationRequest env render a sp (tokenFor env (requests (log m)))))
     (log (machineOf (dispatch env render a sp m))).
Proof.
  destruct (dispatch_prefix env render a sp m) as (evs & Hevs & ->).
  set (req := generationRequest env render a sp _).
  set (m1 := {| state := _; log := _ |}).
  assert (Hgrow : forall (c : M unit), keeps logGrows c ->
            forall m2, In (Fetch req) (log m2) ->
                       In (Fetch req) (log (machineOf (c m2)))).
  { intros c Hc m2 Hin. destruct (Hc m2) as [evs2 ->].
    apply in_or_app. now right. }
  unfold tryFinally.
  assert (Hbody : In (Fetch req)
    (log (machineOf (tryCatch (bind (fetch env req) (onResponse env render a sp))
                       onFailure m1)))).
  { unfold tryCatch, bind, fetch.
    destruct (network env (requests (log m1)) req) as [|resp].
    - apply (Hgrow _ (logGrows_onFailure NetworkError)). now left.
    - pose proof (Hgrow _ (logGrows_onResponse a sp resp)
                    {| state := state m1; log := Fetch req :: log m1 |}
                    (or_introl eq_refl)) as H.
      destruct (onResponse env render a sp resp _) as [[] m2|e m2]; [exact H|].
      apply (Hgrow _ (logGrows_onFailure e)). exact H. }
  destruct (tryCatch _ _ m1) as [[] m2|e m2]; cbn in Hbody; cbn; exact Hbody.
Qed.

(** Every dispatch whose response gives the page only texts fulfils with
    the loading flag cleared and something to look at. *)
Lemma dispatch_shows a sp m :
  plainReply (generationOutcome env render a sp (requests (log m))) = true ->
  exists m',
    dispatch env render a sp m = Ok tt m' /\
    isLoading (state m') = false /\
    showsSomething m'.
Proof.
  intros Hplain.
  destruct (generationOutcome env render a sp (requests (log m)))
    as [|resp] eqn:Hout.
  - destruct (dispatch_network_failure env render a sp m Hout)
      as (m' & E & (_ & S2 & S3) & _).
    exists m'. repeat split; try assumption. left. now rewrite S2.
  - cbn [plainReply] in Hplain. destruct (ok resp) eqn:Hok.
    2:{ destruct (dispatch_not_ok env render a sp m resp Hout Hok)
          as (m' & E & (_ & S2 & S3) & _).
        exists m'. repeat split; try assumption. left. now rewrite S2. }
    destruct (json resp) as [data|] eqn:Hjson.
    2:{ destruct (dispatch_unparsable env render a sp m resp Hout Hok Hjson)
          as (m' & E & (_ & S2 & S3) & _).
        exists m'. repeat split; try assumption. left. now rewrite S2. }
    apply andb_true_iff in Hplain as [Perr Purl].
    unfold textOrNothing in Perr, Purl.
    destruct (ToBoolean (optGet data "error")) eqn:Herr.
    { destruct (dispatch_error_body env render a sp m resp data Hout Hok Hjson Herr)
        as (m' & E & (S1 & S2 & S3) & _).
      exists m'. repeat split; try assumption. right. now rewrite S1, S2. }
    destruct (ToBoolean (optGet data "modelUrl")) eqn:Hurl.
    + destruct (dispatch_model_url env render a sp m resp data Hout Hok Hjson
                  Herr Hurl) as (m' & E & S2 & S3 & _).
      exists m'. repeat split; try assumption. left. now rewrite S2.
    + destruct (dispatch_no_model_url env render a sp m resp data Hout Hok Hjson
                  Herr Hurl) as (m' & E & (_ & S2 & S3) & _).
      exists m'. repeat split; try assumption. left. now rewrite S2.
Qed.

Ltac up_to_the_request a sp m H :=
  destruct (dispatch_prefix env render a sp m) as (evs & Hevs & ->);
  unfold tryFinally, tryCatch; unfold bind at 1; unfold fetch;
  cbn [state log]; rewrite requests_app, Hevs;
  cbn [app requests started log];
  unfold generationOutcome in H; rewrite H.

(** A success that is not followed by the payment gate. *)
Lemma dispatch_preview_success a sp m resp data :
  generationOutcome env render a sp (requests (log m)) = Responds resp ->
  ok resp = true -> json resp = Some data ->
  ToBoolean (optGet data "error") = false ->
  ToBoolean (optGet data "modelUrl") = true ->
  truthy (defaultTo (PBool false) (download a)) && strictNe (userPlan render) "pro"
    = false ->
  exists m',
    dispatch env render a sp m = Ok tt m' /\
    settles m' (error (state m)) (optGet data "modelUrl") /\
    requests (log m') =
      generationRequest env render a sp (tokenFor env (requests (log m)))
        :: csrfRequest :: requests (log m).
Proof.
  intros H Hok Hjson Herr Hurl Hpay. up_to_the_request a sp m H.
  unfold onResponse, resp_json. rewrite Hok, Hjson.
  cbn [negb]. unfold bind at 1, ret. rewrite Herr, Hurl, Hpay.
  eexists; split; [reflexivity|].
  cbn; rewrite ?requests_app, ?Hevs; repeat split; reflexivity.
Qed.

End DispatchMore.

(** X11. Every call of [generateModel] that passes the four checks
    fulfils with the loading flag cleared and something to look at: an
    asset address as the generation result (the backend's or the
    placeholder), or the error text of the response body with the result
    empty.  This holds whether the request fails, is answered with an error
    status, with a body that does not parse, or with a success whose body
    carries texts (or nothing) for [error] and [modelUrl]. *)
Theorem accepted_call_never_leaves_a_dead_state env render (a : Args)
    (p : string) (m : Machine) :
  prompt a = PStr p ->
  Spec.validator a p = None ->
  plainReply (generationOutcome env render a (sanitizeInput (Str.trim p))
                (requests (log m))) = true ->
  exists m',
    generateModel env render a m = Ok tt m' /\
    isLoading (state m') = false /\
    showsSomething m'.
Proof.
  intros Hp Hv Hplain. rewrite (generateModel_cases env render a p m Hp), Hv.
  apply dispatch_shows. exact Hplain.
Qed.

Lemma accepted_call_never_leaves_a_dead_state_witness :
  exists m',
    generateModel (Sample.answering true Sample.bodyWithError) initialState
      (handleGenerate Sample.vase) Sample.fresh = Ok tt m' /\
    isLoading (state m') = false /\
    showsSomething m'.
Proof.
  apply (accepted_call_never_leaves_a_dead_state
           (Sample.answering true Sample.bodyWithError) initialState
           (handleGenerate Sample.vase) "a small vase" Sample.fresh);
    reflexivity.
Defined.

(** X12. Every generation request that is sent carries checked data: the
    width, height and depth of the payload are finite numbers greater than
    zero, the prompt holds none of the characters less-than, greater-than,
    double quote and single quote, and the format is "stl" for a download
    and "glb" otherwise. *)
Theorem generation_request_carries_checked_data env render (a : Args)
    (p : string) (m : Machine) :
  prompt a = PStr p ->
  Spec.validator a p = None ->
  let sp := sanitizeInput (Str.trim p) in
  let req := generationRequest env render a sp (tokenFor env (requests (log m))) in
  let sent := payload render a sp in
  let side k := optGet (optGet sent "measurements") k in
  let good v := exists n, v = VPrim (PNum n) /\ is_finite n = true /\
                          (0 <? n)%float = true in
  In (Fetch req) (log (machineOf (generateModel env render a m))) /\
  body req = Some sent /\
  good (side "width") /\ good (side "height") /\ good (side "depth") /\
  optGet sent "prompt" = VPrim (PStr sp) /\
  Str.occurs "<" sp = false /\ Str.occurs ">" sp = false /\
  Str.occurs (ascii_of_nat 34) sp = false /\ Str.occurs "'" sp = false /\
  optGet sent "format" =
    (if truthy (defaultTo (PBool false) (download a)) then VPrim "stl"
     else VPrim "glb").
Proof.
  intros Hp Hv sp req sent side good.
  assert (Hdim : forall v, Spec.badDimension v = false ->
                           good (VPrim (PNum (Number v)))).
  { intros v Hb. exists (Number v). split; [reflexivity|].
    exact (goodDimension_number v Hb). }
  pose proof Hv as Hv'. unfold Spec.validator in Hv'.
  destruct (Spec.nothingToGenerate p (image a)); [discriminate|].
  destruct (Spec.badDimension (width a)) eqn:Bw; [discriminate|].
  destruct (Spec.badDimension (height a)) eqn:Bh; [discriminate|].
  destruct (Spec.badDimension (depth a)) eqn:Bd; [discriminate|].
  clear Hv'.
  split.
  { rewrite (generateModel_cases env render a p m Hp), Hv.
    apply (dispatch_sends env render a sp (withError "" m)). }
  split; [reflexivity|].
  split; [apply (Hdim _ Bw)|]. split; [apply (Hdim _ Bh)|].
  split; [apply (Hdim _ Bd)|].
  split; [reflexivity|].
  repeat split; try (apply sanitizeInput_clean; auto).
Qed.

Lemma generation_request_carries_checked_data_witness :
  In (Fetch (generationRequest Sample.offline initialState
               (handleGenerate Sample.vase) "a small vase" ""))
     (log (machineOf (generateModel Sample.offline initialState
                        (handleGenerate Sample.vase) Sample.fresh))).
Proof.
  apply (generation_request_carries_checked_data Sample.offline initialState
           (handleGenerate Sample.vase) "a small vase" Sample.fresh);
    reflexivity.
Defined.

(** X13. A failed token exchange does not stop the dispatch: when the
    request of [getCsrfToken] fails or its body does not parse, the
    generation request is sent all the same, with the empty string for an
    anti-forgery token. *)
Theorem generation_goes_on_without_a_token env render (a : Args) (p : string)
    (m : Machine) :
  prompt a = PStr p ->
  Spec.validator a p = None ->
  (network env (requests (log m)) csrfRequest = NetworkFailure \/
   exists resp, network env (requests (log m)) csrfRequest = Responds resp /\
                json resp = None) ->
  let req := generationRequest env render a (sanitizeInput (Str.trim p))
               (VPrim "") in
  In (Fetch req) (log (machineOf (generateModel env render a m))) /\
  headers req = [("Content-Type", VPrim "application/json");
                 ("X-CSRF-Token", VPrim "")].
Proof.
  intros Hp Hv Htok req. split; [|reflexivity].
  rewrite (generateModel_cases env render a p m Hp), Hv.
  pose proof (dispatch_sends env render a (sanitizeInput (Str.trim p))
                (withError "" m)) as H.
  replace (tokenFor env (requests (log (withError "" m)))) with (VPrim "") in H;
    [exact H|].
  unfold tokenFor. cbn [withError setError modify machineOf log].
  destruct Htok as [->|(resp & -> & ->)]; reflexivity.
Qed.

Lemma generation_goes_on_without_a_token_witness :
  In (Fetch (generationRequest Sample.offline initialState
               (handleGenerate Sample.vase) "a small vase" ""))
     (log (machineOf (generateModel Sample.offline initialState
                        (handleGenerate Sample.vase) Sample.fresh))).
Proof.
  apply (generation_goes_on_without_a_token Sample.offline initialState
           (handleGenerate Sample.vase) "a small vase" Sample.fresh
           eq_refl eq_refl).
  left. reflexivity.
Defined.

(** X14. A successful preview (no download asked, or a pro plan) sends the
    token request and the generation request and nothing else, sets the
    result to the [modelUrl] of the body, and leaves the error message
    empty. *)
Theorem preview_success_is_two_requests env render (a : Args) (p : string)
    (m : Machine) (resp : Response) (data : JsVal) :
  prompt a = PStr p ->
  Spec.validator a p = None ->
  generationOutcome env render a (sanitizeInput (Str.trim p)) (requests (log m))
    = Responds resp ->
  ok resp = true ->
  json resp = Some data ->
  ToBoolean (optGet data "error") = false ->
  ToBoolean (optGet data "modelUrl") = true ->
  truthy (defaultTo (PBool false) (download a)) = false \/
  userPlan render = VPrim "pro" ->
  exists m',
    generateModel env render a m = Ok tt m' /\
    settles m' "" (optGet data "modelUrl") /\
    requests (log m') =
      generationRequest env render a (sanitizeInput (Str.trim p))
        (tokenFor env (requests (log m)))
        :: csrfRequest :: requests (log m).
Proof.
  intros Hp Hv Hout Hok Hjson Herr Hurl Hpay.
  rewrite (generateModel_cases env render a p m Hp), Hv.
  apply (dispatch_preview_success env render a _ (withError "" m) resp data);
    try assumption.
  destruct Hpay as [->| ->]; [reflexivity | apply andb_false_r].
Qed.

Lemma preview_success_is_two_requests_witness :
  exists m',
    generateModel (Sample.answering true Sample.bodyWithUrl) initialState
      (handleGenerate Sample.vase) Sample.fresh = Ok tt m' /\
    settles m' "" (VPrim "https://x/y.glb") /\
    List.length (requests (log m')) = 2.
Proof.
  destruct (preview_success_is_two_requests
              (Sample.answering true Sample.bodyWithUrl) initialState
              (handleGenerate Sample.vase) "a small vase" Sample.fresh
              {| ok := true; json := Some Sample.bodyWithUrl |}
              Sample.bodyWithUrl eq_refl eq_refl eq_refl eq_refl eq_refl
              eq_refl eq_refl (or_introl eq_refl)) as (m' & E & S & R).
  exists m'. split; [exact E|]. split; [exact S|]. now rewrite R.
Defined.

(* ================================================================== *)
(** * What the handlers leave alone *)

Section Frames.

Context {T : Type} (slot : AppState -> T).

Lemma agree_refl m : agree slot m m.
Proof. reflexivity. Qed.

Lemma agree_trans m1 m2 m3 :
  agree slot m1 m2 -> agree slot m2 m3 -> agree slot m1 m3.
Proof. unfold agree. congruence. Qed.

Lemma agree_modify f :
  (forall s, slot (f s) = slot s) -> keeps (agree slot) (modify f).
Proof. intros H m. apply H. Qed.

Lemma agree_emit e : keeps (agree slot) (emit e).
Proof. intros m. reflexivity. Qed.

Lemma agree_fetch env r : keeps (agree slot) (fetch env r).
Proof.
  intros m. unfold fetch. now destruct (network env (requests (log m)) r).
Qed.

Lemma agree_notAwaited (c : M unit) :
  keeps (agree slot) c -> keeps (agree slot) (Gallery.notAwaited c).
Proof. intros H m. exact (H m). Qed.

End Frames.

(** Steps through a computation none of whose setters writes the slot. *)
Ltac frame slot :=
  keeps_with (agree_refl slot) (agree_trans slot)
    ltac:(first [ apply agree_emit | apply agree_fetch
                | apply agree_modify; intros ?; reflexivity
                | apply agree_notAwaited
                | apply (keeps_resp_json _ (agree_refl slot))
                | apply (keeps_getProp _ (agree_refl slot))
                | apply (keeps_stringReceiver _ (agree_refl slot)) ]).

Section FrameFacts.

Variable env : Env.
Variable render : AppState.

Lemma agree_getCsrfToken {T} (slot : AppState -> T) :
  keeps (agree slot) (getCsrfToken env).
Proof. unfold getCsrfToken. frame slot. Qed.

Lemma navigations_app (l1 l2 : list Event) :
  navigations (l1 ++ l2) = (navigations l1 ++ navigations l2)%list.
Proof.
  induction l1 as [|e l1 IH]; [reflexivity|].
  destruct e; simpl; now rewrite ?IH.
Qed.

(** [getCsrfToken] leaves at most a console message besides its request. *)
Lemma getCsrfToken_quiet m :
  exists evs,
    getCsrfToken env m =
      Ok (tokenFor env (requests (log m)))
         {| state := state m; log := (evs ++ Fetch csrfRequest :: log m)%list |}
    /\ requests evs = [] /\ navigations evs = [].
Proof.
  unfold getCsrfToken, tryCatch, bind, fetch, tokenFor. fold csrfRequest.
  destruct (network env (requests (log m)) csrfRequest) as [|resp]; simpl.
  - now exists [ConsoleError "CSRF token fetch failed:" NetworkError].
  - unfold resp_json. destruct (json resp) as [data|]; simpl.
    + destruct data as [[| | | |]| |]; simpl;
        first [ now exists []
              | now exists [ConsoleError "CSRF token fetch failed:"
                    (TypeError "Cannot read properties of null or undefined")] ].
    + now exists [ConsoleError "CSRF token fetch failed:" SyntaxError].
Qed.

(** The slots [payForModel] and its checkout never write. *)
Lemma payForModel_frame priceId m :
  let m' := machineOf (payForModel env render priceId m) in
  user (state m') = user (state m) /\
  userPlan (state m') = userPlan (state m) /\
  modelUrl (state m') = modelUrl (state m) /\
  isLoading (state m') = isLoading (state m) /\
  showSignUp (state m') = showSignUp (state m).
Proof.
  cbn zeta.
  assert (forall T (slot : AppState -> T),
            (forall s v, slot (state (machineOf (setError v {| state := s; log := [] |}))) = slot s) ->
            (forall s v, slot (state (machineOf (setShowSignIn v {| state := s; log := [] |}))) = slot s) ->
            (forall s v, slot (state (machineOf (setShowStripeModal v {| state := s; log := [] |}))) = slot s) ->
            keeps (agree slot) (payForModel env render priceId)) as H.
  { intros T slot H1 H2 H3. pose proof (agree_getCsrfToken slot).
    unfold payForModel, checkout.
    keeps_with (agree_refl slot) (agree_trans slot)
      ltac:(first [ apply agree_emit | apply agree_fetch
                  | apply agree_modify; intros s;
                    first [apply (H1 s) | apply (H2 s) | apply (H3 s)]
                  | apply (keeps_resp_json _ (agree_refl slot))
                  | apply (keeps_getProp _ (agree_refl slot))
                  | apply (keeps_stringReceiver _ (agree_refl slot)) ]). }
  repeat split.
  - apply (H _ user); reflexivity.
  - apply (H _ userPlan); reflexivity.
  - apply (H _ modelUrl); reflexivity.
  - apply (H _ isLoading); reflexivity.
  - apply (H _ showSignUp); reflexivity.
Qed.

End FrameFacts.

(* ================================================================== *)
(** * Checkout, session and gallery *)

(** X15. The checkout dispatch always fulfils.  It navigates exactly when
    the checkout exchange yields a body with a truthy [url] (whatever the
    status), leaving the payment modal shown and the error message as it
    was; otherwise it goes nowhere, closes the modal and reports one of its
    two checkout errors. *)
Theorem checkout_navigates_or_reports env render (p : string) (u : User)
    (m : Machine) :
  exists m',
    checkout env render p u m = Ok tt m' /\
    match redirectOf (checkoutOutcome env render p u (requests (log m))) with
    | Some href =>
        navigations (log m') = href :: navigations (log m) /\
        showStripeModal (state m') = true /\
        error (state m') = error (state m)
    | None =>
        navigations (log m') = navigations (log m) /\
        showStripeModal (state m') = false /\
        (error (state m') = VPrim "Failed to initiate checkout." \/
         error (state m') = VPrim "Checkout error. Please try again.")
    end.
Proof.
  unfold checkout, bind at 1. unfold setShowStripeModal, modify at 1.
  unfold tryCatch, bind at 1.
  match goal with
  | |- context [getCsrfToken env ?m1] =>
      destruct (getCsrfToken_quiet env m1) as (evs & E & Hr & Hn); rewrite E
  end.
  cbn [state log].
  fold (checkoutRequest render p u (tokenFor env (requests (log m)))).
  unfold bind at 1, fetch. cbn [state log].
  rewrite requests_app, Hr. cbn [app requests].
  unfold checkoutOutcome, redirectOf.
  destruct (network env _ _) as [|resp]; cbn.
  - eexists; split; [reflexivity|]. cbn. rewrite navigations_app, Hn. auto.
  - unfold bind at 1, resp_json.
    destruct (json resp) as [data|]; cbn;
      [|eexists; split; [reflexivity|]; cbn; rewrite navigations_app, Hn; auto].
    unfold bind at 1, getProp.
    destruct data as [[| | | |]| |]; cbn;
      try (eexists; split; [reflexivity|]; cbn; rewrite navigations_app, Hn;
           now auto).
    destruct (ToBoolean (assoc "url" fields)); cbn;
      eexists; (split; [reflexivity|]); cbn; rewrite navigations_app, Hn; auto.
Qed.

(** X16. When [payForModel] proceeds to checkout it sends the token
    request and then one checkout request, which carries the price
    identifier and the user.  For a one-time purchase identifier that
    request always carries the captured generation result; the
    "subscription" stand-in is sent only if no result was captured, and
    then the identifier is not a one-time purchase. *)
Theorem checkout_request_names_the_model env render (p : string)
    (m : Machine) :
  Spec.gate (Some p) (modelUrl render) (user render) = Spec.ProceedToCheckout ->
  exists (u : User) (sent : JsVal),
    user render = Some u /\
    requests (log (machineOf (payForModel env render (PStr p) m))) =
      {| url := "/.netlify/functions/create-checkout-session";
         method := "POST";
         headers := [("Content-Type", VPrim "application/json");
                     ("X-CSRF-Token", tokenFor env (requests (log m)))];
         body := Some sent |}
        :: csrfRequest :: requests (log m) /\
    optGet sent "priceId" = VPrim (PStr p) /\
    optGet sent "userId" = VPrim (PStr (uid u)) /\
    (Spec.oneTime p = true ->
     optGet sent "modelUrl" = modelUrl render /\
     ToBoolean (modelUrl render) = true) /\
    (ToBoolean (modelUrl render) = false ->
     optGet sent "modelUrl" = VPrim "subscription" /\ Spec.oneTime p = false).
Proof.
  intros Hgate.
  pose proof (payForModel_gate env render (Some p) m) as G.
  rewrite Hgate in G. destruct G as (p' & u & Ep & Hu & E).
  injection Ep as <-. cbn [ofPriceId] in E.
  exists u, (VObj [("priceId", VPrim (PStr p));
                   ("modelUrl", orElse (modelUrl render) "subscription");
                   ("userId", VPrim (PStr (uid u)))]).
  split; [exact Hu|].
  split; [rewrite E; apply (checkout_requests env render p u (withError "" m))|].
  split; [reflexivity|]. split; [reflexivity|].
  revert Hgate. unfold Spec.gate. cbn [Spec.noIdentifier].
  destruct (String.eqb p ""); [discriminate|].
  cbn [optGet assoc String.eqb Ascii.eqb Bool.eqb]. unfold orElse.
  destruct (Spec.oneTime p), (ToBoolean (modelUrl render));
    cbn [negb andb]; intros Hgate; try discriminate Hgate;
    split; intros H; try discriminate H; split; reflexivity.
Qed.

Lemma checkout_request_names_the_model_witness :
  exists (u : User) (sent : JsVal),
    requests (log (machineOf
      (payForModel Sample.offline Sample.signedIn (PStr "sub_monthly")
         Sample.fresh))) =
      [ {| url := "/.netlify/functions/create-checkout-session";
           method := "POST";
           headers := [("Content-Type", VPrim "application/json");
                       ("X-CSRF-Token", VPrim "")];
           body := Some sent |};
        csrfRequest ] /\
    optGet sent "userId" = VPrim (PStr (uid u)) /\
    optGet sent "modelUrl" = VPrim "subscription" /\
    Spec.oneTime "sub_monthly" = false.
Proof.
  destruct (checkout_request_names_the_model Sample.offline Sample.signedIn
              "sub_monthly" Sample.fresh eq_refl)
    as (u & sent & _ & R & _ & U & _ & H).
  exists u, sent. split; [exact R|]. split; [exact U|].
  apply H. reflexivity.
Defined.

(** X17. [payForModel] never writes the identity, the plan, the generation
    result, the loading flag or the sign-up modal, whatever it is given and
    whatever the network does; and given [null] or a string it always
    fulfils. *)
Theorem payForModel_leaves_the_session_alone env render (priceId : Prim)
    (m : Machine) :
  let m' := machineOf (payForModel env render priceId m) in
  (user (state m') = user (state m) /\
   userPlan (state m') = userPlan (state m) /\
   modelUrl (state m') = modelUrl (state m) /\
   isLoading (state m') = isLoading (state m) /\
   showSignUp (state m') = showSignUp (state m)) /\
  (forall p : option string, priceId = ofPriceId p ->
   payForModel env render priceId m = Ok tt m').
Proof.
  intros m'. split; [apply payForModel_frame|].
  intros p ->. subst m'. destruct p as [p|].
  - destruct (total_payForModel env render p m) as ([] & m' & E).
    cbn [ofPriceId]. now rewrite E.
  - reflexivity.
Qed.

Lemma payForModel_leaves_the_session_alone_witness :
  payForModel (Sample.answering true Sample.emptyBody) Sample.signedIn
    (ofPriceId (Some "sub_monthly")) Sample.fresh =
  Ok tt (machineOf (payForModel (Sample.answering true Sample.emptyBody)
                      Sample.signedIn (ofPriceId (Some "sub_monthly"))
                      Sample.fresh)).
Proof.
  apply (proj2 (payForModel_leaves_the_session_alone
                  (Sample.answering true Sample.emptyBody) Sample.signedIn
                  (ofPriceId (Some "sub_monthly")) Sample.fresh)
           (Some "sub_monthly") eq_refl).
Defined.

Section SignIn.

Variable env : Env.

Lemma fetchUserPlan_requests uid m :
  exists m',
    fetchUserPlan env uid m = Ok (planFor env uid (requests (log m))) m' /\
    state m' = state m /\
    requests (log m') =
      planRequest uid (tokenFor env (requests (log m)))
        :: csrfRequest :: requests (log m).
Proof.
  unfold fetchUserPlan, tryCatch. unfold bind at 1.
  destruct (getCsrfToken_run env m) as (evs & E & Hevs). rewrite E.
  fold (planRequest uid (tokenFor env (requests (log m)))).
  unfold bind at 1, fetch. cbn [state log].
  rewrite requests_app, Hevs. cbn [app requests].
  unfold planFor, planOutcome.
  destruct (network env _ _) as [|resp]; cbn.
  - eexists; split; [reflexivity|]. cbn. now rewrite requests_app, Hevs.
  - unfold bind at 1, resp_json. destruct (json resp) as [data|]; cbn.
    + destruct data as [[| | | |]| |]; cbn;
        (eexists; split; [reflexivity|]; cbn; now rewrite requests_app, Hevs).
    + eexists; split; [reflexivity|]. cbn. now rewrite requests_app, Hevs.
Qed.

Lemma sign_in_run u m :
  exists m',
    onAuthStateChanged env (Some u) m = Ok tt m' /\
    user (state m') = Some u /\
    userPlan (state m') = orElse (planFor env (uid u) (requests (log m))) "free" /\
    requests (log m') =
      planRequest (uid u) (tokenFor env (requests (log m)))
        :: csrfRequest :: requests (log m) /\
    modelUrl (state m') = modelUrl (state m) /\
    isLoading (state m') = isLoading (state m) /\
    error (state m') = error (state m).
Proof.
  unfold onAuthStateChanged.
  unfold bind at 1. unfold setUser at 1, modify at 1.
  unfold bind at 1.
  match goal with
  | |- context [fetchUserPlan env (uid u) ?m1] =>
      destruct (fetchUserPlan_requests (uid u) m1) as (m2 & E & S & R);
      rewrite E
  end.
  cbn [state log] in S, R |- *.
  eexists; split; [reflexivity|].
  cbn. rewrite S, R. cbn. destruct u. repeat split; reflexivity.
Qed.

End SignIn.

(** X18. The auth-state callback fulfils whenever the plan it looks up is
    a primitive value (a string, a number, a boolean, or nothing).  On
    sign-in it stores the identity, applies the looked-up plan (or "free"),
    sends the token request and then the plan request and nothing else,
    and leaves the generation result, the loading flag and the error
    message as they were; on sign-out it sends nothing. *)
Theorem auth_callback_effects env (u : User) (m : Machine) :
  (forall q : Prim,
     planFor env (uid u) (requests (log m)) = VPrim q ->
     exists m',
       onAuthStateChanged env (Some u) m = Ok tt m' /\
       user (state m') = Some u /\
       userPlan (state m') = orElse (VPrim q) "free" /\
       requests (log m') =
         planRequest (uid u) (tokenFor env (requests (log m)))
           :: csrfRequest :: requests (log m) /\
       modelUrl (state m') = modelUrl (state m) /\
       isLoading (state m') = isLoading (state m) /\
       error (state m') = error (state m)) /\
  (exists m',
     onAuthStateChanged env None m = Ok tt m' /\
     log m' = log m /\
     modelUrl (state m') = modelUrl (state m) /\
     isLoading (state m') = isLoading (state m) /\
     error (state m') = error (state m)).
Proof.
  split.
  - intros q Hq. rewrite <- Hq. apply sign_in_run.
  - eexists; split; [reflexivity|]. repeat split; reflexivity.
Qed.

Lemma auth_callback_effects_witness :
  exists m',
    onAuthStateChanged (Sample.answering true (VObj [("plan", VPrim "basic")]))
      (Some Sample.alice) Sample.fresh = Ok tt m' /\
    user (state m') = Some Sample.alice /\
    userPlan (state m') = VPrim "basic" /\
    requests (log m') =
      [planRequest "u-1" (VPrim "tok"); csrfRequest].
Proof.
  destruct (proj1 (auth_callback_effects
                     (Sample.answering true (VObj [("plan", VPrim "basic")]))
                     Sample.alice Sample.fresh) (PStr "basic") eq_refl)
    as (m' & E & U & P & R & _).
  exists m'. split; [exact E|]. split; [exact U|].
  split; [exact P | exact R].
Defined.

(** X19. The looked-up plan is applied as it comes: when the body of the
    plan response carries a truthy primitive value for [plan] (a text, a
    number other than zero, [true]), that value becomes the plan state,
    whatever the status of the response and whether or not the value is
    one of the plan identifiers. *)
Theorem looked_up_plan_is_not_checked env (u : User) (m : Machine)
    (resp : Response) (data : JsVal) (q : Prim) :
  planOutcome env (uid u) (requests (log m)) = Responds resp ->
  json resp = Some data ->
  optGet data "plan" = VPrim q ->
  truthy q = true ->
  exists m',
    onAuthStateChanged env (Some u) m = Ok tt m' /\
    userPlan (state m') = VPrim q.
Proof.
  intros Hout Hjson Hq Hplan.
  destruct (sign_in_run env u m) as (m' & E & _ & P & _).
  exists m'. split; [exact E|]. rewrite P.
  unfold planFor. rewrite Hout, Hjson.
  destruct data as [[| | | |]| |]; cbn in Hq |- *;
    try (injection Hq as <-; discriminate Hplan);
    rewrite Hq; unfold orElse; cbn; now rewrite Hplan.
Qed.

Lemma looked_up_plan_is_not_checked_witness :
  exists m',
    onAuthStateChanged
      (Sample.answering false (VObj [("plan", VPrim "enterprise")]))
      (Some Sample.alice) Sample.fresh = Ok tt m' /\
    userPlan (state m') = VPrim "enterprise".
Proof.
  apply (looked_up_plan_is_not_checked
           (Sample.answering false (VObj [("plan", VPrim "enterprise")]))
           Sample.alice Sample.fresh
           {| ok := false; json := Some (VObj [("plan", VPrim "enterprise")]) |}
           (VObj [("plan", VPrim "enterprise")]) (PStr "enterprise"));
    reflexivity.
Defined.

(** X20. Try This Model, for an entry whose name is not blank, always ends
    with the entry's asset as the generation result and with the
    invalid-dimensions error on display: the generation it triggers leaves
    the dimensions out, is rejected by the second check and sends nothing.
    Every entry of [EXAMPLE_MODELS] has such a name. *)
Theorem try_this_model_shows_the_sample env render
    (model : Gallery.ExampleModel) (m : Machine) :
  blank (Gallery.name model) = false ->
  (exists m',
     Gallery.tryThisModel env render model m = Ok tt m' /\
     modelUrl (state m') = VPrim (PStr (Gallery.url model)) /\
     error (state m') = VPrim (message Spec.InvalidDimension) /\
     isLoading (state m') = isLoading (state m) /\
     requests (log m') = requests (log m)) /\
  Forall (fun e => blank (Gallery.name e) = false) Gallery.EXAMPLE_MODELS.
Proof.
  intros Hname. split.
  - unfold Gallery.tryThisModel, Gallery.notAwaited. unfold bind at 1.
    rewrite (generateModel_cases env render
               (galleryClick (Gallery.name model)) (Gallery.name model) m eq_refl).
    assert (Hv : Spec.validator (galleryClick (Gallery.name model))
                   (Gallery.name model) = Some Spec.InvalidDimension).
    { unfold Spec.validator, Spec.nothingToGenerate.
      destruct (String.eqb_spec (sanitizeInput (Str.trim (Gallery.name model))) "")
        as [E|_]; [|reflexivity].
      assert (Str.trim (Gallery.name model) = "") as T.
      { pose proof (sanitizeInput_length (Str.trim (Gallery.name model))) as L.
        rewrite E in L.
        destruct (Str.trim (Gallery.name model)); [reflexivity | cbn in L; lia]. }
      apply trim_empty in T. congruence. }
    rewrite Hv. eexists; split; [reflexivity|]. repeat split; reflexivity.
  - repeat constructor.
Qed.

Lemma try_this_model_shows_the_sample_witness :
  exists m',
    Gallery.tryThisModel Sample.offline initialState
      {| Gallery.id := 3; Gallery.name := "Robotic Gripper";
         Gallery.url := "https://modelviewer.dev/shared-assets/models/RobotExpressive.glb";
         Gallery.desc := ""; Gallery.tags := [] |} Sample.fresh = Ok tt m' /\
    modelUrl (state m') =
      VPrim "https://modelviewer.dev/shared-assets/models/RobotExpressive.glb" /\
    error (state m') = VPrim (message Spec.InvalidDimension).
Proof.
  destruct (proj1 (try_this_model_shows_the_sample Sample.offline initialState
              {| Gallery.id := 3; Gallery.name := "Robotic Gripper";
                 Gallery.url := "https://modelviewer.dev/shared-assets/models/RobotExpressive.glb";
                 Gallery.desc := ""; Gallery.tags := [] |} Sample.fresh eq_refl))
    as (m' & E & U & Er & _).
  exists m'. repeat split; assumption.
Defined.

(* ================================================================== *)
(** * The backend handlers *)

Section Handlers.

Lemma generate_cases (w : Backend.World) (reqBody : JsVal) :
  Backend.isParsedBody reqBody = true ->
  let t := Backend.traceOf (Backend.generate w reqBody) in
  let prompt := optGet reqBody "prompt" in
  fst (Backend.generate w reqBody []) = inr tt /\
  if ToBoolean prompt then
    Backend.upstreamCalls t = [Backend.sloydRequest w prompt] /\
    match Backend.modelOf (Backend.sloyd w (Backend.sloydRequest w prompt)) with
    | Some address =>
        Backend.replies t = [Backend.SendJson 200 (VObj [("modelUrl", address)])]
    | None =>
        exists msg,
          Backend.replies t =
            [Backend.SendJson 500 (VObj [("error", VPrim (PStr msg))])] /\
          msg <> ""
    end
  else
    Backend.replies t =
      [Backend.SendJson 400 (VObj [("error", VPrim "Prompt is required")])] /\
    Backend.upstreamCalls t = [].
Proof.
  intros Hbody t prompt. subst t prompt.
  destruct reqBody as [pr|items|fields]; [discriminate Hbody| |].
  { cbn. repeat split. }
  unfold Backend.modelOf.
  cbv [Backend.generate Backend.bindH Backend.prop Backend.retH Backend.throwH
       Backend.tryCatchH Backend.fetchUpstream Backend.jsonOf Backend.reply
       Backend.effect Backend.traceOf optGet].
  destruct (ToBoolean (assoc "prompt" fields)); cbn [negb];
    [|cbn; repeat split].
  destruct (Backend.sloyd w _) as [|resp]; cbn [fst snd].
  { cbn. repeat split. eexists; split; [reflexivity|discriminate]. }
  destruct (ok resp); cbn [negb];
    [|cbn; repeat split; eexists; split; [reflexivity|discriminate]].
  destruct (json resp) as [data|];
    [|cbn; repeat split; eexists; split; [reflexivity|discriminate]].
  destruct data as [[| | | |]| |]; cbn;
    try (repeat split; eexists; split; [reflexivity|discriminate]).
  destruct (ToBoolean (assoc "modelUrl" fields0)); cbn;
    repeat split; eexists; split; [reflexivity|discriminate].
Qed.

(** The service's model address is truthy. *)
Lemma modelOf_truthy o address :
  Backend.modelOf o = Some address -> ToBoolean address = true.
Proof.
  unfold Backend.modelOf. destruct o as [|resp]; [discriminate|].
  destruct (ok resp); [|discriminate].
  destruct (json resp) as [data|]; [|discriminate].
  destruct (ToBoolean (optGet data "modelUrl")) eqn:E; [|discriminate].
  now intros [= <-].
Qed.

End Handlers.

(** X21. [POST /generate] answers every parsed body exactly once.  A body
    without a truthy [prompt] gets 400 and the generation service is not
    called; otherwise the service is called once, with the prompt and the
    "stl" output only, and the answer is 200 with the [modelUrl] of the
    service when it answered a success with a truthy [modelUrl], and 500
    with an error message in every other case. *)
Theorem generate_handler_replies_once (w : Backend.World) (reqBody : JsVal) :
  Backend.isParsedBody reqBody = true ->
  let t := Backend.traceOf (Backend.generate w reqBody) in
  let prompt := optGet reqBody "prompt" in
  fst (Backend.generate w reqBody []) = inr tt /\
  if ToBoolean prompt then
    Backend.upstreamCalls t = [Backend.sloydRequest w prompt] /\
    match Backend.modelOf (Backend.sloyd w (Backend.sloydRequest w prompt)) with
    | Some address =>
        Backend.replies t = [Backend.SendJson 200 (VObj [("modelUrl", address)])]
    | None =>
        exists msg,
          Backend.replies t =
            [Backend.SendJson 500 (VObj [("error", VPrim (PStr msg))])] /\
          msg <> ""
    end
  else
    Backend.replies t =
      [Backend.SendJson 400 (VObj [("error", VPrim "Prompt is required")])] /\
    Backend.upstreamCalls t = [].
Proof. apply generate_cases. Qed.

Lemma generate_handler_replies_once_witness :
  Backend.replies
    (Backend.traceOf (Backend.generate Backend.sampleWorld
                        (VObj [("prompt", VPrim "a small vase")]))) =
  [Backend.SendJson 200 (VObj [("modelUrl", VPrim "https://cdn/m.stl")])].
Proof.
  apply (generate_handler_replies_once Backend.sampleWorld
           (VObj [("prompt", VPrim "a small vase")]) eq_refl).
Defined.

(** X22. With [POST /generate] answering the generation request, a call
    of [generateModel] that passed the checks ends either with the model
    address of the generation service as the result or with the placeholder
    and the generic failure message; with an empty description (an
    image-only request) it always ends with the placeholder, because the
    handler refuses a body without a prompt. *)
Theorem generation_through_the_backend env render (w : Backend.World)
    (a : Args) (p : string) (m : Machine) (r : Backend.Sent) :
  prompt a = PStr p ->
  Spec.validator a p = None ->
  let sp := sanitizeInput (Str.trim p) in
  let req := generationRequest env render a sp (tokenFor env (requests (log m))) in
  Backend.replies (Backend.traceOf (Backend.generate w (Backend.parsed req))) = [r] ->
  generationOutcome env render a sp (requests (log m)) = Responds (Backend.received r) ->
  exists m',
    generateModel env render a m = Ok tt m' /\
    isLoading (state m') = false /\
    match (if String.eqb sp "" then None
           else Backend.modelOf
                  (Backend.sloyd w (Backend.sloydRequest w (VPrim (PStr sp))))) with
    | Some address => modelUrl (state m') = address
    | None =>
        settles m' "Failed to generate model. Using placeholder preview."
          PLACEHOLDER_URL
    end.
Proof.
  intros Hp Hv sp req Hr Hout.
  rewrite (generateModel_cases env render a p m Hp), Hv. fold sp.
  pose proof (generate_cases w (Backend.parsed req) eq_refl) as (_ & Hc).
  cbn zeta in Hc.
  change (optGet (Backend.parsed req) "prompt") with (VPrim (PStr sp)) in Hc.
  cbn [ToBoolean truthy] in Hc.
  assert (Hno : forall s msg,
            r = Backend.SendJson s (VObj [("error", VPrim (PStr msg))]) ->
            ((200 <=? s)%Z && (s <=? 299)%Z = false) ->
            exists m',
              dispatch env render a sp (withError "" m) = Ok tt m' /\
              isLoading (state m') = false /\
              settles m' "Failed to generate model. Using placeholder preview."
                PLACEHOLDER_URL).
  { intros s msg -> Hs.
    destruct (dispatch_not_ok env render a sp (withError "" m) _ Hout Hs)
      as (m' & E & S & _).
    exists m'. split; [exact E|]. split; [apply S | exact S]. }
  destruct (String.eqb sp "") eqn:Hsp; cbn [negb] in Hc.
  - destruct Hc as [Hc _]. rewrite Hr in Hc. injection Hc as ->.
    now apply (Hno 400%Z "Prompt is required").
  - destruct Hc as [_ Hc].
    destruct (Backend.modelOf _) as [address|] eqn:Hm.
    + rewrite Hr in Hc. injection Hc as ->.
      pose proof (modelOf_truthy _ _ Hm) as Ht.
      destruct (dispatch_model_url env render a sp (withError "" m)
                  (Backend.received
                     (Backend.SendJson 200 (VObj [("modelUrl", address)])))
                  (VObj [("modelUrl", address)]) Hout eq_refl eq_refl eq_refl Ht)
        as (m' & E & U & L & _).
      exists m'. repeat split; assumption.
    + destruct Hc as (msg & Hc & _). rewrite Hr in Hc. injection Hc as ->.
      now apply (Hno 500%Z msg).
Qed.

Lemma generation_through_the_backend_witness :
  exists m',
    generateModel (Backend.serving Backend.sampleWorld (Backend.generate Backend.sampleWorld))
      initialState (handleGenerate Sample.fromImage) Sample.fresh = Ok tt m' /\
    isLoading (state m') = false /\
    settles m' "Failed to generate model. Using placeholder preview."
      PLACEHOLDER_URL.
Proof.
  apply (generation_through_the_backend
           (Backend.serving Backend.sampleWorld (Backend.generate Backend.sampleWorld)) initialState
           Backend.sampleWorld (handleGenerate Sample.fromImage) "  "
           Sample.fresh
           (Backend.SendJson 400 (VObj [("error", VPrim "Prompt is required")]))
           eq_refl eq_refl eq_refl eq_refl).
Defined.

Section CheckoutHandler.

Variable w : Backend.World.
Variable origin : option string.

Lemma createCheckoutSession_string (fields : list (string * JsVal)) (p : string) :
  assoc "priceId" fields = VPrim (PStr p) ->
  String.eqb p "" = false ->
  let t := Backend.traceOf (Backend.createCheckoutSession w origin (VObj fields)) in
  let params := Backend.sessionParams origin (VObj fields) (VPrim (PStr p))
                  (Str.includes p "sub") in
  fst (Backend.createCheckoutSession w origin (VObj fields) []) = inr tt /\
  Backend.sessionsCreated t = [params] /\
  Backend.replies t = [Backend.sessionReply w params].
Proof.
  intros Hp Hne. unfold Backend.sessionReply.
  cbv [Backend.createCheckoutSession Backend.bindH Backend.prop Backend.retH
       Backend.throwH Backend.tryCatchH Backend.reply Backend.effect
       Backend.traceOf Backend.includesSub optGet].
  rewrite Hp. cbn [ToBoolean truthy]. rewrite Hne. cbn [negb].
  destruct (Backend.createSession w _) as [session|]; cbn; [|repeat split].
  destruct session as [[| | | |]| |]; cbn; repeat split.
Qed.

Lemma createCheckoutSession_no_price (reqBody : JsVal) :
  Backend.isParsedBody reqBody = true ->
  ToBoolean (optGet reqBody "priceId") = false ->
  let t := Backend.traceOf (Backend.createCheckoutSession w origin reqBody) in
  fst (Backend.createCheckoutSession w origin reqBody []) = inr tt /\
  Backend.sessionsCreated t = [] /\
  Backend.replies t =
    [Backend.SendJson 400 (VObj [("error", VPrim "Price ID is required")])].
Proof.
  intros Hb Hp.
  destruct reqBody as [pr|items|fields]; [discriminate Hb| |].
  - cbn. repeat split.
  - cbv [Backend.createCheckoutSession Backend.bindH Backend.prop Backend.retH
         Backend.traceOf].
    cbn [optGet] in Hp. cbn [optGet]. rewrite Hp. cbn. repeat split.
Qed.

End CheckoutHandler.

(** X23. [POST /create-checkout-session] refuses a parsed body without a
    truthy [priceId] with 400 and does not call Stripe.  For a string
    identifier it creates exactly one session, in "subscription" mode when
    the identifier contains "sub" and in "payment" mode otherwise, and
    answers 200 with the address of the session, or 500 when Stripe rejects
    or yields no session. *)
Theorem checkout_handler_modes (w : Backend.World) (origin : option string)
    (reqBody : JsVal) :
  Backend.isParsedBody reqBody = true ->
  let t := Backend.traceOf (Backend.createCheckoutSession w origin reqBody) in
  (ToBoolean (optGet reqBody "priceId") = false ->
   Backend.sessionsCreated t = [] /\
   Backend.replies t =
     [Backend.SendJson 400 (VObj [("error", VPrim "Price ID is required")])]) /\
  (forall p, optGet reqBody "priceId" = VPrim (PStr p) -> p <> "" ->
   let params := Backend.sessionParams origin reqBody (VPrim (PStr p))
                   (Str.includes p "sub") in
   Backend.sessionsCreated t = [params] /\
   optGet params "mode" =
     (if Str.includes p "sub" then VPrim "subscription" else VPrim "payment") /\
   Backend.replies t = [Backend.sessionReply w params]).
Proof.
  intros Hb t. split.
  - intros Hp. apply (createCheckoutSession_no_price w origin reqBody Hb Hp).
  - intros p Hp Hne params.
    destruct reqBody as [pr|items|fields]; [discriminate Hb|discriminate Hp|].
    cbn [optGet] in Hp. apply String.eqb_neq in Hne.
    destruct (createCheckoutSession_string w origin fields p Hp Hne)
      as (_ & H1 & H2).
    split; [exact H1|]. split; [reflexivity | exact H2].
Qed.

Lemma checkout_handler_modes_witness :
  Backend.replies
    (Backend.traceOf
       (Backend.createCheckoutSession Backend.sampleWorld (Some "https://app")
          (VObj [("priceId", VPrim "price_sub_9")]))) =
  [Backend.SendJson 200 (VObj [("url", VPrim "https://pay/cs_1")])].
Proof.
  apply (proj2 (checkout_handler_modes Backend.sampleWorld (Some "https://app")
                  (VObj [("priceId", VPrim "price_sub_9")]) eq_refl)
           "price_sub_9" eq_refl).
  discriminate.
Defined.

Section CheckoutEndToEnd.

Variable env : Env.
Variable render : AppState.

(** The checkout dispatch on a body that parsed to an object or an array. *)
Lemma checkout_parsed_body p u m resp data :
  checkoutOutcome env render p u (requests (log m)) = Responds resp ->
  json resp = Some data ->
  Backend.isParsedBody data = true ->
  exists m',
    checkout env render p u m = Ok tt m' /\
    if ToBoolean (optGet data "url") then
      navigations (log m') = optGet data "url" :: navigations (log m) /\
      showStripeModal (state m') = true
    else
      navigations (log m') = navigations (log m) /\
      showStripeModal (state m') = false /\
      error (state m') = VPrim "Failed to initiate checkout.".
Proof.
  intros Hout Hjson Hb.
  unfold checkout, bind at 1. unfold setShowStripeModal, modify at 1.
  unfold tryCatch, bind at 1.
  match goal with
  | |- context [getCsrfToken env ?m1] =>
      destruct (getCsrfToken_quiet env m1) as (evs & E & Hr & Hn); rewrite E
  end.
  cbn [state log].
  fold (checkoutRequest render p u (tokenFor env (requests (log m)))).
  unfold bind at 1, fetch. cbn [state log].
  rewrite requests_app, Hr. cbn [app requests].
  unfold checkoutOutcome in Hout. rewrite Hout.
  unfold bind at 1, resp_json. rewrite Hjson. cbn [ret].
  unfold bind at 1, getProp.
  destruct data as [pr|items|fields]; [discriminate Hb| |]; cbn [ret optGet].
  - cbn. eexists; split; [reflexivity|]. cbn.
    rewrite navigations_app, Hn. auto.
  - destruct (ToBoolean (assoc "url" fields)); cbn;
      eexists; (split; [reflexivity|]); cbn; rewrite navigations_app, Hn; auto.
Qed.

End CheckoutEndToEnd.

(** X24. With [POST /create-checkout-session] answering the checkout
    request of the front end: the session is created with the model
    reference "unknown" (the handler reads [modelId], the front end sends
    [modelUrl]), in "payment" mode for every identifier the payment gate
    takes for a one-time purchase, the subscription identifiers of [PLANS]
    among them; and the browser is sent to the address of the session when
    Stripe yields one, and is otherwise told that the checkout could not be
    initiated. *)
Theorem checkout_through_the_backend env render (w : Backend.World)
    (origin : option string) (p : string) (u : User) (m : Machine) :
  p <> "" ->
  let req := checkoutRequest render p u (tokenFor env (requests (log m))) in
  let params := Backend.sessionParams origin (Backend.parsed req) (VPrim (PStr p))
                  (Str.includes p "sub") in
  checkoutOutcome env render p u (requests (log m)) =
    Responds (Backend.received (Backend.sessionReply w params)) ->
  Backend.replies
    (Backend.traceOf (Backend.createCheckoutSession w origin (Backend.parsed req)))
    = [Backend.sessionReply w params] /\
  optGet (optGet params "metadata") "modelId" = VPrim "unknown" /\
  (Spec.oneTime p = true -> optGet params "mode" = VPrim "payment") /\
  (forall plan q, In plan PLANS -> priceId plan = PStr q ->
                  Str.includes q "sub" = false) /\
  exists m',
    checkout env render p u m = Ok tt m' /\
    match Backend.sessionReply w params with
    | Backend.SendJson 200 data =>
        if ToBoolean (optGet data "url") then
          navigations (log m') = optGet data "url" :: navigations (log m)
        else
          navigations (log m') = navigations (log m) /\
          error (state m') = VPrim "Failed to initiate checkout."
    | _ =>
        navigations (log m') = navigations (log m) /\
        error (state m') = VPrim "Failed to initiate checkout."
    end.
Proof.
  intros Hne req params Hout.
  split.
  { apply (createCheckoutSession_string w origin
             [("priceId", VPrim (PStr p));
              ("modelUrl", orElse (modelUrl render) "subscription");
              ("userId", VPrim (PStr (uid u)))] p eq_refl).
    now apply String.eqb_neq. }
  split; [reflexivity|].
  split.
  { unfold Spec.oneTime. intros H. apply andb_true_iff in H as [_ H].
    apply negb_true_iff in H. cbn. now rewrite H. }
  split.
  { intros plan q Hin Hq. cbn in Hin.
    destruct Hin as [<-|[<-|[<-|[]]]]; cbn in Hq; try discriminate;
      injection Hq as <-; reflexivity. }
  unfold Backend.sessionReply in *.
  destruct (Backend.createSession w params) as [[[| | | |]| |]|];
    match type of Hout with
    | _ = Responds (Backend.received (Backend.SendJson ?s ?d)) =>
        destruct (checkout_parsed_body env render p u m _ d Hout eq_refl eq_refl)
          as (m' & E & H)
    end; exists m'; (split; [exact E|]); cbn in H |- *;
    repeat match goal with
           | H0 : context [if ?b then _ else _] |- _ => destruct b
           end; intuition.
Qed.

Lemma checkout_through_the_backend_witness :
  exists m',
    checkout
      (Backend.serving Backend.sampleWorld
         (Backend.createCheckoutSession Backend.sampleWorld (Some "https://app")))
      Sample.signedIn "price_1N9Z8x1234567890" Sample.alice Sample.fresh
      = Ok tt m' /\
    navigations (log m') = [VPrim "https://pay/cs_1"].
Proof.
  destruct (checkout_through_the_backend
              (Backend.serving Backend.sampleWorld
                 (Backend.createCheckoutSession Backend.sampleWorld
                    (Some "https://app")))
              Sample.signedIn Backend.sampleWorld (Some "https://app")
              "price_1N9Z8x1234567890" Sample.alice Sample.fresh
              ltac:(discriminate) eq_refl) as (_ & _ & _ & _ & m' & E & H).
  exists m'. split; [exact E | exact H].
Defined.
